(** * Quiz generator front end: static/js/script.js

    A shallow embedding of the browser script that reads the quiz form,
    validates it, posts the request and renders the answer, together with
    the properties of it that the specification states.  The repository
    holds a second copy of the script, the same code with comments added;
    its template carries an HTML comment after the paragraph of a block.
    The embedding follows static/js/script.js.

    Conventions of the embedding.
    - A JavaScript string is a [string]: a sequence of code units, here the
      code units U+0000 to U+00FF.
    - A JavaScript number is a [Number]: NaN, an infinity, or a decimal
      [m * 10^e].  A number value is a double: the conversion of a string
      rounds to the nearest binary64 value, a tie to the even mantissa,
      and keeps the result as the decimal that the double is exactly.
      Negative zero is not told from zero: the script compares, prints and
      serialises its numbers, and none of the three tells them apart.
    - A value that JSON.parse returns is a [Json.Value]; undefined, which
      only the reading of a property yields, is [None].
    - The page is a store of elements and the list of the elements under
      [document.body], in document order; the nesting of elements is not
      represented.  An element is referred to by a natural number, so that
      two references to one element are one name, and an assignment
      through either is seen through both.
    - Script code runs in the monad [M]: it threads the page and a log of
      the calls made, and completes normally or by throwing.  What was
      done before a throw stays done.
    - The network is a parameter: what awaiting [fetch] gives for a
      request, and what [response.json()] settles to. *)

From Stdlib Require Import String Ascii List ZArith Bool Lia.
From Stdlib Require Import DecimalString DecimalPos DecimalN.
Import ListNotations.
Local Open Scope string_scope.
Local Open Scope Z_scope.
Set Warnings "-register-all".


(** ** Strings *)

Module Str.

(** The double quote character, U+0022. *)
Definition dquote : ascii := "034"%char.

(** [dq s] is [s] with every apostrophe replaced by a double quote: it
    lets the JSON and HTML texts of the script be written legibly. *)
Fixpoint dq (s : string) : string :=
  match s with
  | EmptyString => EmptyString
  | String c r => String (if Ascii.eqb c "'" then dquote else c) (dq r)
  end.

(** WhiteSpace and LineTerminator code units below U+0100:
    TAB, LF, VT, FF, CR, SP and NBSP. *)
Definition is_white_space (c : ascii) : bool :=
  let n := nat_of_ascii c in
  ((n =? 9) || (n =? 10) || (n =? 11) || (n =? 12) || (n =? 13)
   || (n =? 32) || (n =? 160))%nat.

(** String.prototype.trimStart *)
Fixpoint trimStart (s : string) : string :=
  match s with
  | EmptyString => EmptyString
  | String c r => if is_white_space c then trimStart r else s
  end.

(** String.prototype.trimEnd *)
Fixpoint trimEnd (s : string) : string :=
  match s with
  | EmptyString => EmptyString
  | String c r =>
      match trimEnd r with
      | EmptyString =>
          if is_white_space c then EmptyString else String c EmptyString
      | r' => String c r'
      end
  end.

(** String.prototype.trim *)
Definition trim (s : string) : string := trimEnd (trimStart s).

(** String.prototype.split with a separator of one code unit. *)
Fixpoint split (sep : ascii) (s : string) : list string :=
  match s with
  | EmptyString => [EmptyString]
  | String c r =>
      if Ascii.eqb c sep then EmptyString :: split sep r
      else match split sep r with
           | x :: xs => String c x :: xs
           | [] => [String c EmptyString]
           end
  end.

(** Array.prototype.join on an array of strings. *)
Definition join (sep : string) (xs : list string) : string :=
  String.concat sep xs.

(** [!s] for a string [s]. *)
Definition is_empty (s : string) : bool :=
  match s with EmptyString => true | String _ _ => false end.

(** The first and the last code unit of a string. *)
Definition first (s : string) : option ascii :=
  match s with EmptyString => None | String c _ => Some c end.

Fixpoint last (s : string) : option ascii :=
  match s with
  | EmptyString => None
  | String c EmptyString => Some c
  | String _ r => last r
  end.

(** A string is trimmed when it neither starts nor ends with white space. *)
Definition trimmed (s : string) : Prop :=
  (forall c, first s = Some c -> is_white_space c = false) /\
  (forall c, last s = Some c -> is_white_space c = false).

(** Number of occurrences of a code unit. *)
Fixpoint count (sep : ascii) (s : string) : nat :=
  match s with
  | EmptyString => 0%nat
  | String c r => ((if Ascii.eqb c sep then 1 else 0) + count sep r)%nat
  end.

Fixpoint all_white_space (s : string) : bool :=
  match s with
  | EmptyString => true
  | String c r => is_white_space c && all_white_space r
  end.

End Str.

(** ** Numbers *)

Module Num.

(** [Finite m e] is the number [m * 10^e]. *)
Inductive Number :=
| NaN
| Infinity (negative : bool)
| Finite (m : Z) (e : Z).

Definition of_Z (z : Z) : Number := Finite z 0.

Definition digit_of (c : ascii) : option Z :=
  let n := Z.of_nat (nat_of_ascii c) in
  if (48 <=? n) && (n <=? 57) then Some (n - 48) else None.

Definition hex_digit_of (c : ascii) : option Z :=
  let n := Z.of_nat (nat_of_ascii c) in
  if (48 <=? n) && (n <=? 57) then Some (n - 48)
  else if (97 <=? n) && (n <=? 102) then Some (n - 87)
  else if (65 <=? n) && (n <=? 70) then Some (n - 55)
  else None.

(** DecimalDigits, as long as they go: the value of [acc] followed by the
    digits read, how many were read, and the rest of the string. *)
Fixpoint digits (s : string) (acc : Z) (n : Z) : Z * Z * string :=
  match s with
  | EmptyString => (acc, n, EmptyString)
  | String c r =>
      match digit_of c with
      | Some d => digits r (10 * acc + d) (n + 1)
      | None => (acc, n, s)
      end
  end.

(** The digits of a NonDecimalIntegerLiteral after its prefix: all of the
    string, at least one digit, every digit below the radix. *)
Fixpoint radix_digits (radix : Z) (s : string) (acc : Z) (n : Z)
  : option Z :=
  match s with
  | EmptyString => if n =? 0 then None else Some acc
  | String c r =>
      match hex_digit_of c with
      | Some d =>
          if d <? radix then radix_digits radix r (radix * acc + d) (n + 1)
          else None
      | None => None
      end
  end.

(** ExponentPart after its indicator: SignedInteger up to the end. *)
Definition exponent (s : string) : option Z :=
  let '(neg, r) :=
    match s with
    | String "+" r => (false, r)
    | String "-" r => (true, r)
    | _ => (false, s)
    end in
  match digits r 0 0 with
  | (v, n, EmptyString) =>
      if n =? 0 then None else Some (if neg then - v else v)
  | _ => None
  end.

(** StrUnsignedDecimalLiteral other than Infinity. *)
Definition unsigned_decimal (s : string) : option (Z * Z) :=
  let '(ip, ni, r1) := digits s 0 0 in
  let '(mant, nf, r2) :=
    match r1 with
    | String "." r => digits r ip 0
    | _ => (ip, 0, r1)
    end in
  if ni + nf =? 0 then None
  else match r2 with
       | EmptyString => Some (mant, - nf)
       | String c r3 =>
           if Ascii.eqb c "e" || Ascii.eqb c "E" then
             match exponent r3 with
             | Some x => Some (mant, x - nf)
             | None => None
             end
           else None
       end.

(** StrDecimalLiteral *)
Definition decimal (s : string) : Number :=
  let '(neg, r) :=
    match s with
    | String "+" r => (false, r)
    | String "-" r => (true, r)
    | _ => (false, s)
    end in
  if String.eqb r "Infinity" then Infinity neg
  else match unsigned_decimal r with
       | Some (m, e) => Finite (if neg then - m else m) e
       | None => NaN
       end.

Definition non_decimal (radix : Z) (s : string) : Number :=
  match radix_digits radix s 0 0 with
  | Some v => Finite v 0
  | None => NaN
  end.

(** The value of a string as a StringNumericLiteral, as the decimal that
    is written; [StringToNumber] rounds it. *)
Definition literal (s : string) : Number :=
  match Str.trim s with
  | EmptyString => Finite 0 0
  | String "0" (String "x" r) | String "0" (String "X" r) =>
      non_decimal 16 r
  | String "0" (String "o" r) | String "0" (String "O" r) =>
      non_decimal 8 r
  | String "0" (String "b" r) | String "0" (String "B" r) =>
      non_decimal 2 r
  | t => decimal t
  end.

(** *** Rounding to binary64

    A number value is a double.  [double] gives the double nearest to a
    decimal, a tie going to the even mantissa, as the decimal that the
    double is exactly; it leaves a double as it is. *)

(** The fraction [num / den / 2^q]. *)
Definition scaled (num den q : Z) : Z * Z :=
  if 0 <=? q then (num, den * 2 ^ q) else (num * 2 ^ (- q), den).

(** The binary exponent of the double nearest to [num / den]: the
    quotient by [2^q] is from 2^52 up to 2^53, unless that takes [q]
    below -1074, the exponent of the subnormal doubles. *)
Definition binary_exponent (num den : Z) : Z :=
  let q0 := Z.log2 num - Z.log2 den - 52 in
  let '(a, b) := scaled num den q0 in
  Z.max (if a / b <? 2 ^ 52 then q0 - 1 else q0) (-1074).

(** [a / b] rounded to the nearest integer, a tie to the even one. *)
Definition round_half_even (a b : Z) : Z :=
  let p := a / b in
  let r := a mod b in
  if 2 * r <? b then p
  else if b <? 2 * r then p + 1
  else if Z.even p then p else p + 1.

(** The double nearest to [num / den], both positive: its mantissa and
    its exponent, or [None] when it is beyond the largest double. *)
Definition nearest (num den : Z) : option (Z * Z) :=
  let q := binary_exponent num den in
  let '(a, b) := scaled num den q in
  let p := round_half_even a b in
  if (971 <? q) || ((q =? 971) && (p =? 2 ^ 53)) then None
  else Some (p, q).

(** Takes the zeros off the end of [m] as long as [e] is negative. *)
Fixpoint strip_tens (fuel : nat) (m e : Z) : Z * Z :=
  match fuel with
  | O => (m, e)
  | S k =>
      if (e <? 0) && (m mod 10 =? 0) then strip_tens k (m / 10) (e + 1)
      else (m, e)
  end.

(** [p * 2^q] as a decimal: an integer has the exponent 0, and a
    fraction has no zero at its end. *)
Definition of_binary (p q : Z) : Number :=
  if p =? 0 then Finite 0 0
  else if 0 <=? q then Finite (p * 2 ^ q) 0
  else let '(m, e) := strip_tens (Z.to_nat (- q)) (p * 5 ^ (- q)) q in
       Finite m e.

Definition negate (x : Number) : Number :=
  match x with
  | NaN => NaN
  | Infinity s => Infinity (negb s)
  | Finite m e => Finite (- m) e
  end.

Definition double (x : Number) : Number :=
  match x with
  | Finite m e =>
      if m =? 0 then Finite 0 0
      else
        let a := Z.abs m in
        let '(num, den) :=
          if 0 <=? e then (a * 10 ^ e, 1) else (a, 10 ^ (- e)) in
        let r := match nearest num den with
                 | Some (p, q) => of_binary p q
                 | None => Infinity false
                 end in
        if m <? 0 then negate r else r
  | _ => x
  end.

(** StringToNumber: the double nearest to the value of the literal. *)
Definition StringToNumber (s : string) : Number := double (literal s).

(** [x < y] on decimals. *)
Definition lt_decimal (x y : Number) : bool :=
  match x, y with
  | NaN, _ | _, NaN => false
  | Infinity true, Infinity true => false
  | Infinity true, _ => true
  | _, Infinity true => false
  | Infinity false, _ => false
  | _, Infinity false => true
  | Finite m1 e1, Finite m2 e2 =>
      let e := Z.min e1 e2 in
      m1 * 10 ^ (e1 - e) <? m2 * 10 ^ (e2 - e)
  end.

(** [x < y] on numbers; a comparison with NaN is undefined, which the
    operators [<] and [>] turn into false. *)
Definition lt (x y : Number) : bool := lt_decimal (double x) (double y).

Definition is_zero (x : Number) : bool :=
  match double x with Finite m _ => m =? 0 | _ => false end.

Definition is_finite (x : Number) : bool :=
  match double x with Finite _ _ => true | _ => false end.

Definition eqb (x y : Number) : bool :=
  match x, y with
  | NaN, NaN => true
  | Infinity a, Infinity b => Bool.eqb a b
  | Finite m1 e1, Finite m2 e2 => (m1 =? m2) && (e1 =? e2)
  | _, _ => false
  end.

(** Decimal digits of a non-negative integer. *)
Definition decimal_digits (z : Z) : string :=
  NilZero.string_of_uint (N.to_uint (Z.to_N z)).

(** The digits of [s] without its trailing zeros, and their number. *)
Fixpoint strip_zeros (s : string) : string * Z :=
  match s with
  | EmptyString => (EmptyString, 0)
  | String c r =>
      match strip_zeros r with
      | (EmptyString, k) =>
          if Ascii.eqb c "0" then (EmptyString, k + 1)
          else (String c EmptyString, k)
      | (r', k) => (String c r', k)
      end
  end.

Fixpoint zeros (n : nat) : string :=
  match n with O => EmptyString | S k => String "0" (zeros k) end.

(** Number::toString in radix 10, on a positive finite number: [s] holds
    the [k] significant digits and [n] places the decimal point. *)
Definition positive_toString (m e : Z) : string :=
  let '(s, tz) := strip_zeros (decimal_digits m) in
  let k := Z.of_nat (String.length s) in
  let n := k + tz + e in
  if (k <=? n) && (n <=? 21) then
    s ++ zeros (Z.to_nat (n - k))
  else if (0 <? n) && (n <=? 21) then
    substring 0 (Z.to_nat n) s ++ "." ++
    substring (Z.to_nat n) (Z.to_nat (k - n)) s
  else if (-6 <? n) && (n <=? 0) then
    "0." ++ zeros (Z.to_nat (- n)) ++ s
  else
    let x := n - 1 in
    let ex := (if x <? 0 then "-" else "+") ++ decimal_digits (Z.abs x) in
    if k =? 1 then s ++ "e" ++ ex
    else substring 0 1 s ++ "." ++
         substring 1 (Z.to_nat (k - 1)) s ++ "e" ++ ex.

(** [m * 10^e / 10^t], rounded down. *)
Definition floor_scaled (m e t : Z) : Z :=
  if t <=? e then m * 10 ^ (e - t) else m / 10 ^ (t - e).

(** The decimal of [k] digits that the double [m * 10^e] is written
    with, if there is one: of the two decimals of [k] digits around the
    double, one that rounds to the double, the nearer one if both do, the
    even one if they are as near. *)
Definition candidate (m e k : Z) : option (Z * Z) :=
  let n := Z.of_nat (String.length (decimal_digits m)) + e in
  let t := n - k in
  let lo := floor_scaled m e t in
  let hi := lo + 1 in
  let s := Z.min e t in
  let v := m * 10 ^ (e - s) in
  let below := v - lo * 10 ^ (t - s) in
  let above := hi * 10 ^ (t - s) - v in
  let ok_lo := eqb (double (Finite lo t)) (Finite m e) in
  let ok_hi := eqb (double (Finite hi t)) (Finite m e) in
  if ok_lo && ok_hi then
    if below <? above then Some (lo, t)
    else if above <? below then Some (hi, t)
    else if Z.even lo then Some (lo, t) else Some (hi, t)
  else if ok_lo then Some (lo, t)
  else if ok_hi then Some (hi, t)
  else None.

(** The fewest digits that give the double back. *)
Fixpoint shortest (fuel : nat) (k : Z) (m e : Z) : Z * Z :=
  match fuel with
  | O => (m, e)
  | S f =>
      match candidate m e k with
      | Some r => r
      | None => shortest f (k + 1) m e
      end
  end.

(** Number::toString *)
Definition toString (x : Number) : string :=
  match double x with
  | NaN => "NaN"
  | Infinity false => "Infinity"
  | Infinity true => "-Infinity"
  | Finite m e =>
      if m =? 0 then "0"
      else
        let '(c, t) := shortest 17 1 (Z.abs m) e in
        (if m <? 0 then "-" else EmptyString) ++ positive_toString c t
  end.

End Num.

(** ** Completions *)

(** An error object: its [name] and its [message]. *)
Record JsError := mkError { name : string; message : string }.

(** [new Error(message)] *)
Definition Error (msg : string) : JsError := mkError "Error" msg.

(** The TypeErrors that the script can raise, with the wording of V8. *)
Definition TypeError (msg : string) : JsError := mkError "TypeError" msg.

Definition cannot_read (base prop : string) : JsError :=
  TypeError ("Cannot read properties of " ++ base
             ++ " (reading '" ++ prop ++ "')").

Definition cannot_set (base prop : string) : JsError :=
  TypeError ("Cannot set properties of " ++ base
             ++ " (setting '" ++ prop ++ "')").

Definition not_a_function (expr : string) : JsError :=
  TypeError (expr ++ " is not a function").

(** What ToPrimitive throws on an object none of whose conversion
    methods gives a primitive. *)
Definition cannot_convert : JsError :=
  TypeError "Cannot convert object to primitive value".

(** How an evaluation ends: with a value, or by throwing. *)
Inductive Completion (A : Type) : Type :=
| Normal (a : A)
| Throw (e : JsError).
Arguments Normal {A} a.
Arguments Throw {A} e.

(** ** Values of JSON.parse *)

Module Json.

Inductive Value :=
| JNull
| JBool (b : bool)
| JNumber (n : Num.Number)
| JString (s : string)
| JArray (items : list Value)
| JObject (props : list (string * Value)).

(** ToBoolean *)
Definition ToBoolean (v : Value) : bool :=
  match v with
  | JNull => false
  | JBool b => b
  | JNumber Num.NaN => false
  | JNumber n => negb (Num.is_zero n)
  | JString s => negb (Str.is_empty s)
  | JArray _ | JObject _ => true
  end.

(** The own property [k] of an object; the first binding of a key is the
    property. *)
Fixpoint own (props : list (string * Value)) (k : string) : option Value :=
  match props with
  | [] => None
  | (k', v) :: rest => if String.eqb k' k then Some v else own rest k
  end.

(** Array.prototype.join with a comma, [convert] being the conversion
    of an item to a string: the items are converted from left to right,
    null items to the empty string, and the first item whose conversion
    throws ends the call. *)
Definition join_items (convert : Value -> Completion string)
  : list Value -> Completion string :=
  fix join (xs : list Value) : Completion string :=
    match xs with
    | [] => Normal EmptyString
    | x :: rest =>
        match match x with
              | JNull => Normal EmptyString
              | _ => convert x
              end with
        | Throw e => Throw e
        | Normal s =>
            match rest with
            | [] => Normal s
            | _ :: _ =>
                match join rest with
                | Throw e => Throw e
                | Normal r => Normal (s ++ "," ++ r)
                end
            end
        end
    end.

(** ToString.  An object is converted by its toString method: the one of
    Object.prototype gives [object Object]; an own member named toString
    shadows it, and since no value of JSON.parse is callable, and valueOf
    gives the object back, the conversion then throws.  An array is
    converted by joining its items. *)
Fixpoint ToString (v : Value) : Completion string :=
  match v with
  | JNull => Normal "null"
  | JBool true => Normal "true"
  | JBool false => Normal "false"
  | JNumber n => Normal (Num.toString n)
  | JString s => Normal s
  | JArray items => join_items ToString items
  | JObject props =>
      match own props "toString" with
      | Some _ => Throw cannot_convert
      | None => Normal "[object Object]"
      end
  end.

(** [base.k] for the property names that the script reads (error,
    questions, text, length): undefined is [None].  Reading a property of
    null throws; strings and arrays have a length. *)
Definition get (base : Value) (k : string) : Completion (option Value) :=
  match base with
  | JNull => Throw (cannot_read "null" k)
  | JObject props => Normal (own props k)
  | JString s =>
      if String.eqb k "length"
      then Normal (Some (JNumber (Num.of_Z (Z.of_nat (String.length s)))))
      else Normal None
  | JArray items =>
      if String.eqb k "length"
      then Normal (Some (JNumber (Num.of_Z (Z.of_nat (List.length items)))))
      else Normal None
  | JBool _ | JNumber _ => Normal None
  end.

(** ToBoolean of a possibly undefined value. *)
Definition truthy (v : option Value) : bool :=
  match v with Some x => ToBoolean x | None => false end.

(** [v || w] for a possibly undefined [v]. *)
Definition or_else (v : option Value) (w : Value) : Value :=
  match v with
  | Some x => if ToBoolean x then x else w
  | None => w
  end.

(** [v === 0] for a possibly undefined [v]. *)
Definition is_zero (v : option Value) : bool :=
  match v with
  | Some (JNumber n) => Num.is_zero n
  | _ => false
  end.

Definition hex_digit (n : nat) : ascii :=
  nth n ["0"; "1"; "2"; "3"; "4"; "5"; "6"; "7"; "8"; "9";
         "a"; "b"; "c"; "d"; "e"; "f"]%char "0"%char.

(** One code unit inside a JSON string. *)
Definition escape (c : ascii) : string :=
  let n := nat_of_ascii c in
  if (n =? 8)%nat then "\b"
  else if (n =? 9)%nat then "\t"
  else if (n =? 10)%nat then "\n"
  else if (n =? 12)%nat then "\f"
  else if (n =? 13)%nat then "\r"
  else if (n =? 34)%nat then String "\" (String Str.dquote EmptyString)
  else if (n =? 92)%nat then "\\"
  else if (n <? 32)%nat then
    "\u00" ++ String (hex_digit (n / 16)) (String (hex_digit (n mod 16))
                                             EmptyString)
  else String c EmptyString.

Fixpoint escape_all (s : string) : string :=
  match s with
  | EmptyString => EmptyString
  | String c r => escape c ++ escape_all r
  end.

(** QuoteJSONString *)
Definition quote (s : string) : string :=
  String Str.dquote (escape_all s ++ String Str.dquote EmptyString).

(** JSON.stringify without indentation; a number that is not finite is
    written null. *)
Fixpoint stringify (v : Value) : string :=
  match v with
  | JNull => "null"
  | JBool true => "true"
  | JBool false => "false"
  | JNumber n => if Num.is_finite n then Num.toString n else "null"
  | JString s => quote s
  | JArray items => "[" ++ Str.join "," (map stringify items) ++ "]"
  | JObject props =>
      "{" ++ Str.join ","
               (map (fun kv => match kv with
                               | (k, x) => quote k ++ ":" ++ stringify x
                               end) props)
          ++ "}"
  end.

End Json.

(** ** The page *)

Module Dom.

(** What an element holds: markup assigned through [innerHTML], or the
    one text node that an assignment to [textContent] leaves. *)
Inductive Content :=
| Markup (html : string)
| Text (data : string).

Record Element := mkElement {
  tagName : string;
  id : string;
  value : string;          (* the value of a form control *)
  color : string;          (* style.color *)
  marginBottom : string;   (* style.marginBottom *)
  content : Content
}.

(** A reference to an element. *)
Definition Node := nat.

(** The elements by reference, and the elements under [document.body],
    the first one first. *)
Record Document := mkDocument {
  store : Node -> Element;
  children : list Node
}.

Definition has_id (d : Document) (i : string) (n : Node) : bool :=
  String.eqb (id (store d n)) i.

(** document.getElementById: the first element with the id, or null. *)
Definition getElementById (d : Document) (i : string) : option Node :=
  find (has_id d i) (children d).

(** document.body.contains *)
Definition contains (d : Document) (n : Node) : bool :=
  existsb (Nat.eqb n) (children d).

(** A reference that no element under the body has. *)
Definition fresh (d : Document) : Node := S (list_max (children d)).

Definition blank (tag : string) : Element :=
  mkElement tag EmptyString EmptyString EmptyString EmptyString
            (Markup EmptyString).

(** document.createElement: a new element, not yet in the tree. *)
Definition createElement (d : Document) (tag : string) : Node * Document :=
  let n := fresh d in
  (n, mkDocument (fun k => if Nat.eqb k n then blank tag else store d k)
                 (children d)).

(** An assignment to a property of the element [n]. *)
Definition update (d : Document) (n : Node) (f : Element -> Element)
  : Document :=
  mkDocument (fun k => if Nat.eqb k n then f (store d n) else store d k)
             (children d).

Definition set_id (i : string) (e : Element) : Element :=
  mkElement (tagName e) i (value e) (color e) (marginBottom e) (content e).
Definition set_color (c : string) (e : Element) : Element :=
  mkElement (tagName e) (id e) (value e) c (marginBottom e) (content e).
Definition set_marginBottom (m : string) (e : Element) : Element :=
  mkElement (tagName e) (id e) (value e) (color e) m (content e).
Definition set_content (c : Content) (e : Element) : Element :=
  mkElement (tagName e) (id e) (value e) (color e) (marginBottom e) c.

(** document.body.prepend: the node becomes the first child, leaving the
    place it had. *)
Definition prepend (d : Document) (n : Node) : Document :=
  mkDocument (store d)
             (n :: filter (fun k => negb (Nat.eqb k n)) (children d)).

(** The elements of the document that carry the id [i]. *)
Definition with_id (d : Document) (i : string) : list Node :=
  filter (has_id d i) (children d).

End Dom.

(** ** The network *)

Record Request := mkRequest {
  url : string;
  method : string;
  headers : list (string * string);
  body : string
}.

(** A response: its status, and what [response.json()] settles to, the
    parsed body or the parser's error. *)
Record Response := mkResponse {
  status : Z;
  json : Completion Json.Value
}.

(** response.ok: the status is in the range 200 to 299. *)
Definition ok (r : Response) : bool :=
  (200 <=? status r) && (status r <=? 299).

(** What awaiting [fetch] gives: the promise rejects, or a response. *)
Inductive FetchResult :=
| Rejected (e : JsError)
| Resolved (r : Response).

Definition Network := Request -> FetchResult.

(** ** The monad of the script *)

(** The calls that the properties speak of, logged in the order made. *)
Inductive Event :=
| Fetched (r : Request)
| CalledDisplayQuiz (questions : Json.Value)
| CalledDisplayError (msg : string).

Record World := mkWorld {
  document : Dom.Document;
  log : list Event
}.

Definition M (A : Type) : Type := World -> Completion A * World.

Definition ret {A} (a : A) : M A := fun w => (Normal a, w).

Definition bind {A B} (m : M A) (k : A -> M B) : M B :=
  fun w =>
    match m w with
    | (Normal a, w') => k a w'
    | (Throw e, w') => (Throw e, w')
    end.

Definition throw {A} (e : JsError) : M A := fun w => (Throw e, w).

(** try { m } catch (error) { h error } *)
Definition try_catch {A} (m : M A) (h : JsError -> M A) : M A :=
  fun w =>
    match m w with
    | (Normal a, w') => (Normal a, w')
    | (Throw e, w') => h e w'
    end.

Definition lift {A} (c : Completion A) : M A := fun w => (c, w).

Definition record (ev : Event) : M unit :=
  fun w => (Normal tt, mkWorld (document w) (log w ++ [ev])%list).

Definition read {A} (f : Dom.Document -> A) : M A :=
  fun w => (Normal (f (document w)), w).

Definition write (f : Dom.Document -> Dom.Document) : M unit :=
  fun w => (Normal tt, mkWorld (f (document w)) (log w)).

Notation "x <- m ;; k" := (bind m (fun x => k))
  (at level 61, m at next level, right associativity).
Notation "m ;; k" := (bind m (fun _ => k))
  (at level 61, right associativity).

Definition getElementById (i : string) : M (option Dom.Node) :=
  read (fun d => Dom.getElementById d i).

Definition createElement (tag : string) : M Dom.Node :=
  fun w =>
    let '(n, d) := Dom.createElement (document w) tag in
    (Normal n, mkWorld d (log w)).

(** An assignment through a reference to an element. *)
Definition assign (n : Dom.Node) (f : Dom.Element -> Dom.Element) : M unit :=
  write (fun d => Dom.update d n f).

(** [container.innerHTML = html]; [container] may be null. *)
Definition set_innerHTML (container : option Dom.Node) (html : string)
  : M unit :=
  match container with
  | Some n => assign n (Dom.set_content (Dom.Markup html))
  | None => throw (cannot_set "null" "innerHTML")
  end.

(** [document.getElementById(i).value] *)
Definition value_of (i : string) : M string :=
  found <- getElementById i ;;
  match found with
  | Some n => read (fun d => Dom.value (Dom.store d n))
  | None => throw (cannot_read "null" "value")
  end.

(** [await fetch(url, init)] *)
Definition fetch (net : Network) (r : Request) : M Response :=
  record (Fetched r) ;;
  match net r with
  | Rejected e => throw e
  | Resolved resp => ret resp
  end.

(** ** The script *)

Definition nl : string := String "010"%char EmptyString.

(** The template literal of [displayQuiz], with its two substitutions. *)
Definition question_block (number text : string) : string :=
  nl ++ "        " ++ Str.dq "<div class='question'>" ++
  nl ++ "            <h3>Q" ++ number ++ ":</h3>" ++
  nl ++ "            <p>" ++ text ++ "</p>" ++
  nl ++ "        </div>" ++
  nl ++ "    ".

(** The arrow function [(q, i) => `...`] of [displayQuiz]. *)
Definition render_question (q : Json.Value) (i : nat) : Completion string :=
  match Json.get q "text" with
  | Normal text =>
      match Json.ToString (Json.or_else text q) with
      | Normal shown =>
          Normal (question_block
                    (Num.toString (Num.of_Z (Z.of_nat i + 1))) shown)
      | Throw e => Throw e
      end
  | Throw e => Throw e
  end.

(** Array.prototype.map with a callback that may throw. *)
Fixpoint map_indexed {A B} (f : A -> nat -> Completion B) (xs : list A)
    (i : nat) : Completion (list B) :=
  match xs with
  | [] => Normal []
  | x :: rest =>
      match f x i with
      | Normal y =>
          match map_indexed f rest (S i) with
          | Normal ys => Normal (y :: ys)
          | Throw e => Throw e
          end
      | Throw e => Throw e
      end
  end.

(** [questions.map(f)]: only an array has the method. *)
Definition questions_map (questions : Json.Value)
    (f : Json.Value -> nat -> Completion string) : Completion (list string) :=
  match questions with
  | Json.JArray items => map_indexed f items 0
  | _ => Throw (not_a_function "questions.map")
  end.

Definition displayQuiz (questions : Json.Value) : M unit :=
  record (CalledDisplayQuiz questions) ;;
  container <- getElementById "quizContainer" ;;
  blocks <- lift (questions_map questions render_question) ;;
  set_innerHTML container (Str.join EmptyString blocks).

Definition displayError (msg : string) : M unit :=
  record (CalledDisplayError msg) ;;
  found <- getElementById "errorContainer" ;;
  errorContainer <- match found with
                    | Some n => ret n
                    | None => createElement "div"
                    end ;;
  assign errorContainer (Dom.set_id "errorContainer") ;;
  assign errorContainer (Dom.set_color "red") ;;
  assign errorContainer (Dom.set_marginBottom "1rem") ;;
  assign errorContainer (Dom.set_content (Dom.Text msg)) ;;
  attached <- read (fun d => Dom.contains d errorContainer) ;;
  if negb attached then write (fun d => Dom.prepend d errorContainer)
  else ret tt.

(** The object that [generateQuiz] passes to JSON.stringify. *)
Definition request_object (topics : list string)
    (qType difficulty numQuestions : string) : Json.Value :=
  Json.JObject
    [ ("topics", Json.JArray (map Json.JString topics));
      ("type", Json.JString qType);
      ("difficulty", Json.JString difficulty);
      ("num_questions", Json.JNumber (Num.StringToNumber numQuestions)) ].

(** What [generateQuiz] does with the response, once it has it. *)
Definition handle_response (response : Response) : M unit :=
  data <- lift (json response) ;;
  (if negb (ok response) then
     error <- lift (Json.get data "error") ;;
     msg <- lift (Json.ToString
                    (Json.or_else error (Json.JString "Request failed"))) ;;
     throw (Error msg)
   else ret tt) ;;
  questions <- lift (Json.get data "questions") ;;
  none <- match questions with
          | Some qs =>
              if Json.ToBoolean qs then
                len <- lift (Json.get qs "length") ;;
                ret (Json.is_zero len)
              else ret true
          | None => ret true
          end ;;
  if (none : bool) then throw (Error "No questions generated")
  else match questions with
       | Some qs => displayQuiz qs
       | None => ret tt
       end.

(** The request that [generateQuiz] sends. *)
Definition quiz_request (topics : list string)
    (qType difficulty numQuestions : string) : Request :=
  mkRequest "http://localhost:5000/api/generate-quiz" "POST"
    [("Content-Type", "application/json")]
    (Json.stringify (request_object topics qType difficulty numQuestions)).

(** The try block of [generateQuiz]. *)
Definition request_quiz (net : Network) (topics : list string)
    (qType difficulty numQuestions : string) : M unit :=
  container <- getElementById "quizContainer" ;;
  set_innerHTML container "<p>Loading quiz...</p>" ;;
  response <- fetch net (quiz_request topics qType difficulty numQuestions) ;;
  handle_response response.

(** The test of the first [if] of [generateQuiz]. *)
Definition missing_field (topics : list string)
    (qType difficulty numQuestions : string) : bool :=
  (List.length topics =? 0)%nat || Str.is_empty qType
  || Str.is_empty difficulty || Str.is_empty numQuestions.

(** The test of its second [if]: the string is compared as a number. *)
Definition out_of_range (numQuestions : string) : bool :=
  Num.lt (Num.StringToNumber numQuestions) (Num.of_Z 1)
  || Num.lt (Num.of_Z 20) (Num.StringToNumber numQuestions).

Definition generateQuiz (net : Network) : M unit :=
  raw <- value_of "topics" ;;
  let topics := map Str.trim (Str.split "," raw) in
  qType <- value_of "q_type" ;;
  difficulty <- value_of "difficulty" ;;
  numQuestions <- value_of "num_questions" ;;
  if missing_field topics qType difficulty numQuestions
  then displayError "All fields are required!"
  else if out_of_range numQuestions
  then displayError "Please choose between 1 and 20 questions!"
  else
    try_catch
      (request_quiz net topics qType difficulty numQuestions)
      (fun error =>
         displayError ("Failed to generate quiz: " ++ message error)).

(** ** Observations *)

(** One invocation, from a page, with an empty log. *)
Definition run {A} (m : M A) (d : Dom.Document) : Completion A * World :=
  m (mkWorld d []).

Definition page_after {A} (m : M A) (d : Dom.Document) : Dom.Document :=
  document (snd (run m d)).

Definition calls {A} (m : M A) (d : Dom.Document) : list Event :=
  log (snd (run m d)).

(** The value of the form control with the id [i]. *)
Definition field (d : Dom.Document) (i : string) : option string :=
  option_map (fun n => Dom.value (Dom.store d n)) (Dom.getElementById d i).

(** What the element with the id [i] holds. *)
Definition content_of (d : Dom.Document) (i : string)
  : option Dom.Content :=
  option_map (fun n => Dom.content (Dom.store d n)) (Dom.getElementById d i).

(** The message that the error notice shows. *)
Definition displayed (d : Dom.Document) : option string :=
  match content_of d "errorContainer" with
  | Some (Dom.Text msg) => Some msg
  | _ => None
  end.

(** The requests that a log holds. *)
Fixpoint fetches (evs : list Event) : list Request :=
  match evs with
  | [] => []
  | Fetched r :: rest => r :: fetches rest
  | _ :: rest => fetches rest
  end.

Definition is_displayQuiz (ev : Event) : bool :=
  match ev with CalledDisplayQuiz _ => true | _ => false end.

(** The topics that [generateQuiz] makes of the topics field. *)
Definition topics_of (raw : string) : list string :=
  map Str.trim (Str.split "," raw).

(** The first element of the page with the id [i] is a form control that
    holds [v]. *)
Definition holds (d : Dom.Document) (i v : string) : Prop :=
  field d i = Some v.

(** The form of the page holds these four values. *)
Record Form (d : Dom.Document) (topics qType difficulty numQuestions : string)
  : Prop := mkForm {
  form_topics : holds d "topics" topics;
  form_q_type : holds d "q_type" qType;
  form_difficulty : holds d "difficulty" difficulty;
  form_num_questions : holds d "num_questions" numQuestions
}.

(** The page has an element with the id quizContainer. *)
Definition has_container (d : Dom.Document) : bool :=
  match Dom.getElementById d "quizContainer" with
  | Some _ => true
  | None => false
  end.

(** Both tests of [generateQuiz] let the values through. *)
Definition validated (raw qType difficulty numQuestions : string) : bool :=
  negb (missing_field (topics_of raw) qType difficulty numQuestions)
  && negb (out_of_range numQuestions).

(** [base.k], undefined also when reading it throws. *)
Definition field_of (base : Json.Value) (k : string) : option Json.Value :=
  match Json.get base k with
  | Normal v => v
  | Throw _ => None
  end.

(** Every event that [m] adds to the log satisfies [P]. *)
Definition emits {A} (P : Event -> Prop) (m : M A) : Prop :=
  forall w, exists evs,
    log (snd (m w)) = (log w ++ evs)%list /\ Forall P evs.

Definition failure_prefix : string := "Failed to generate quiz: ".

(** An event of the try block before its catch clause. *)
Definition quiet (ev : Event) : Prop :=
  match ev with
  | Fetched _ => True
  | CalledDisplayQuiz _ => True
  | CalledDisplayError _ => False
  end.

(** An event after the request was sent. *)
Definition after_send (ev : Event) : Prop :=
  match ev with
  | Fetched _ => False
  | CalledDisplayQuiz _ => True
  | CalledDisplayError msg => exists x, msg = failure_prefix ++ x
  end.

(** An event of the try statement as a whole. *)
Definition of_try (ev : Event) : Prop :=
  match ev with
  | Fetched _ => True
  | CalledDisplayQuiz _ => True
  | CalledDisplayError msg => exists x, msg = failure_prefix ++ x
  end.

(** Successive calls of [displayError]. *)
Fixpoint after_errors (msgs : list string) (w : World) : World :=
  match msgs with
  | [] => w
  | m :: rest => after_errors rest (snd (displayError m w))
  end.

(** ** A page to run the script on *)

Definition control (i v : string) : Dom.Element :=
  Dom.mkElement "input" i v EmptyString EmptyString (Dom.Markup EmptyString).

(** The four controls of the form, with the values given, and the quiz
    container. *)
Definition form_page (topics qType difficulty numQuestions : string)
  : Dom.Document :=
  Dom.mkDocument
    (fun n =>
       match n with
       | 1 => control "topics" topics
       | 2 => control "q_type" qType
       | 3 => control "difficulty" difficulty
       | 4 => control "num_questions" numQuestions
       | 5 => Dom.mkElement "div" "quizContainer" EmptyString EmptyString
                            EmptyString (Dom.Markup EmptyString)
       | _ => Dom.blank "div"
       end%nat)
    [1; 2; 3; 4; 5]%nat.

(** A server that answers every request with one response. *)
Definition server (st : Z) (parsed : Completion Json.Value) : Network :=
  fun _ => Resolved (mkResponse st parsed).

(** The page after the four assignments of [displayError] to the element
    [n]. *)
Definition notice_set (d : Dom.Document) (n : Dom.Node) (msg : string)
  : Dom.Document :=
  Dom.update
    (Dom.update
       (Dom.update
          (Dom.update d n (Dom.set_id "errorContainer"))
          n (Dom.set_color "red"))
       n (Dom.set_marginBottom "1rem"))
    n (Dom.set_content (Dom.Text msg)).

(** The page after a call of [displayError] that had to create the
    notice. *)
Definition created (d : Dom.Document) (msg : string) : Dom.Document :=
  Dom.prepend
    (notice_set (snd (Dom.createElement d "div")) (Dom.fresh d) msg)
    (Dom.fresh d).

(** The world in which [generateQuiz] awaits the response: the container
    [c] shows the loading text and the request is logged. *)
Definition awaiting (w : World) (c : Dom.Node) (r : Request) : World :=
  mkWorld
    (Dom.update (document w) c
                (Dom.set_content (Dom.Markup "<p>Loading quiz...</p>")))
    (log w ++ [Fetched r])%list.

(** The catch clause of [generateQuiz]. *)
Definition report (error : JsError) : M unit :=
  displayError ("Failed to generate quiz: " ++ message error).

(** What follows the await of [fetch]. *)
Definition settle (res : FetchResult) : M unit :=
  match res with
  | Rejected e => throw e
  | Resolved r => handle_response r
  end.

(** The message that the specification gives for a response with a failed
    status: the prefix, then the error field of the body if it is present,
    else Request failed.  The field is a string; a field that is not
    stands as its JSON text. *)
Definition spec_http_message (parsed : Completion Json.Value) : string :=
  failure_prefix ++
  match parsed with
  | Normal data =>
      match field_of data "error" with
      | Some (Json.JString s) => s
      | Some v => Json.stringify v
      | None => "Request failed"
      end
  | Throw _ => "Request failed"
  end.

(** What [new Error(data.error || "Request failed")] throws: the Error
    with the message, or what the conversion of the message throws. *)
Definition status_error (error : option Json.Value) : JsError :=
  match Json.ToString (Json.or_else error (Json.JString "Request failed")) with
  | Normal msg => Error msg
  | Throw e => e
  end.

(** The message of it. *)
Definition error_text (error : option Json.Value) : string :=
  message (status_error error).

(** The number of a block, as the template prints it. *)
Definition label (k : nat) : string :=
  Num.toString (Num.of_Z (Z.of_nat k)).

(** What [q.text || q] prints for a question that is not null, when the
    conversion completes. *)
Definition shown (q : Json.Value) : string :=
  match Json.ToString (Json.or_else (field_of q "text") q) with
  | Normal s => s
  | Throw _ => EmptyString
  end.

(** The blocks of the questions, the first one having the index [i]. *)
Fixpoint blocks_from (i : nat) (items : list Json.Value) : list string :=
  match items with
  | [] => []
  | q :: rest => question_block (label (S i)) (shown q)
                   :: blocks_from (S i) rest
  end.

(** One block for each text, numbered from [k] on. *)
Fixpoint numbered (k : nat) (texts : list string) : list string :=
  match texts with
  | [] => []
  | text :: rest => question_block (label k) text :: numbered (S k) rest
  end.

(** The text that the specification gives a question: its text field
    when the question is an object, the question itself when it is a
    string.  The text field is a string. *)
Definition spec_text (q : Json.Value) : string :=
  match q with
  | Json.JString s => s
  | Json.JObject props =>
      match Json.own props "text" with
      | Some (Json.JString s) => s
      | _ => EmptyString
      end
  | _ => EmptyString
  end.

(** A question is a string, or an object whose text field is a string
    that is not empty. *)
Definition well_shaped (q : Json.Value) : bool :=
  match q with
  | Json.JString _ => true
  | Json.JObject props =>
      match Json.own props "text" with
      | Some (Json.JString s) => negb (Str.is_empty s)
      | _ => false
      end
  | _ => false
  end.

Definition not_null (q : Json.Value) : bool :=
  match q with Json.JNull => false | _ => true end.

(** No object of [v], [v] itself or an item reached through arrays, has a
    member named toString: the values that ToString converts. *)
Fixpoint printable (v : Json.Value) : bool :=
  match v with
  | Json.JArray items => forallb printable items
  | Json.JObject props =>
      match Json.own props "toString" with
      | Some _ => false
      | None => true
      end
  | _ => true
  end.

(** A question that the template can print: it is not null, and what
    [q.text || q] gives is converted. *)
Definition presentable (q : Json.Value) : bool :=
  not_null q && printable (Json.or_else (field_of q "text") q).

(** The page after [displayQuiz] has rendered into the container [c]. *)
Definition rendered (w : World) (c : Dom.Node) (items : list Json.Value)
  : World :=
  mkWorld
    (Dom.update (document w) c
       (Dom.set_content
          (Dom.Markup (Str.join EmptyString (blocks_from 0 items)))))
    (log w ++ [CalledDisplayQuiz (Json.JArray items)])%list.

(** The calls that one run of [generateQuiz] can make, in their order: a
    validation message alone; a report alone; the request followed by a
    report; the request followed by displayQuiz; or the request,
    displayQuiz and a report. *)
Inductive Flow (req : Request) : list Event -> Prop :=
| flow_required :
    Flow req [CalledDisplayError "All fields are required!"]
| flow_range :
    Flow req [CalledDisplayError "Please choose between 1 and 20 questions!"]
| flow_unsent (x : string) :
    Flow req [CalledDisplayError (failure_prefix ++ x)]
| flow_failed (x : string) :
    Flow req [Fetched req; CalledDisplayError (failure_prefix ++ x)]
| flow_rendered (qs : Json.Value) :
    Flow req [Fetched req; CalledDisplayQuiz qs]
| flow_render_failed (qs : Json.Value) (x : string) :
    Flow req [Fetched req; CalledDisplayQuiz qs;
              CalledDisplayError (failure_prefix ++ x)].

(** The requests that the script makes are of this kind. *)
Definition is_quiz_post (r : Request) : Prop :=
  url r = "http://localhost:5000/api/generate-quiz" /\
  method r = "POST" /\
  headers r = [("Content-Type", "application/json")].

(** The text that the display area shows while the response is awaited. *)
Definition loading : Dom.Content := Dom.Markup "<p>Loading quiz...</p>".

(** [questions] is an array of questions that the template can print:
    what [displayQuiz] can render. *)
Definition renderable (questions : Json.Value) : bool :=
  match questions with
  | Json.JArray items => forallb presentable items
  | _ => false
  end.

(** The decimal text of an integer: a minus sign when it is negative,
    then its digits, without leading zeros. *)
Definition integer_text (z : Z) : string :=
  if z <? 0 then String "-" (Num.decimal_digits (- z))
  else Num.decimal_digits z.

(** The number that the digits [d] make when they follow the digits of
    [acc], and how many they are. *)
Fixpoint uint_value (d : Decimal.uint) (acc : Z) : Z :=
  match d with
  | Decimal.Nil => acc
  | Decimal.D0 l => uint_value l (10 * acc + 0)
  | Decimal.D1 l => uint_value l (10 * acc + 1)
  | Decimal.D2 l => uint_value l (10 * acc + 2)
  | Decimal.D3 l => uint_value l (10 * acc + 3)
  | Decimal.D4 l => uint_value l (10 * acc + 4)
  | Decimal.D5 l => uint_value l (10 * acc + 5)
  | Decimal.D6 l => uint_value l (10 * acc + 6)
  | Decimal.D7 l => uint_value l (10 * acc + 7)
  | Decimal.D8 l => uint_value l (10 * acc + 8)
  | Decimal.D9 l => uint_value l (10 * acc + 9)
  end.

Fixpoint uint_length (d : Decimal.uint) : Z :=
  match d with
  | Decimal.Nil => 0
  | Decimal.D0 l | Decimal.D1 l | Decimal.D2 l | Decimal.D3 l
  | Decimal.D4 l | Decimal.D5 l | Decimal.D6 l | Decimal.D7 l
  | Decimal.D8 l | Decimal.D9 l => 1 + uint_length l
  end.

Fixpoint no_white_space (s : string) : bool :=
  match s with
  | EmptyString => true
  | String c r => negb (Str.is_white_space c) && no_white_space r
  end.

(** The string does not start with a sign. *)
Definition sign_free (s : string) : bool :=
  match s with
  | String c _ => negb (Ascii.eqb c "+" || Ascii.eqb c "-")
  | EmptyString => true
  end.

(** The string does not start with the prefix of a hexadecimal, octal or
    binary literal. *)
Definition radix_free (s : string) : bool :=
  match s with
  | String c1 (String c2 _) =>
      negb (Ascii.eqb c1 "0" &&
            (Ascii.eqb c2 "x" || Ascii.eqb c2 "X" || Ascii.eqb c2 "o"
             || Ascii.eqb c2 "O" || Ascii.eqb c2 "b" || Ascii.eqb c2 "B"))
  | _ => true
  end.

(** A number that stands for the integer [z]: the integer itself when
    its size is below 2^53, and else an infinity or an integer of a size
    of 2^52 at least, of the sign of [z]. *)
Definition approximates (z : Z) (x : Num.Number) : Prop :=
  (Z.abs z < 2 ^ 53 /\ x = Num.Finite z 0) \/
  (2 ^ 52 <= z /\
   (x = Num.Infinity false \/ exists m, x = Num.Finite m 0 /\ 2 ^ 52 <= m)) \/
  (z <= - 2 ^ 52 /\
   (x = Num.Infinity true \/ exists m, x = Num.Finite m 0 /\ m <= - 2 ^ 52)).


(** * Properties *)

(** ** Rounding an integer *)

Lemma strip_tens_exact (k : nat) (m : Z) :
  Num.strip_tens k (m * 10 ^ Z.of_nat k) (- Z.of_nat k) = (m, 0).
Proof.
  induction k as [|k IH].
  - simpl. now rewrite Z.mul_1_r.
  - cbn [Num.strip_tens].
    assert (Hneg : (- Z.of_nat (S k) <? 0) = true) by (apply Z.ltb_lt; lia).
    rewrite Hneg. cbn [andb].
    assert (Hpow : m * 10 ^ Z.of_nat (S k) = (m * 10 ^ Z.of_nat k) * 10).
    { rewrite Nat2Z.inj_succ, Z.pow_succ_r by lia. ring. }
    rewrite Hpow, Z.mod_mul by lia. cbn [Z.eqb].
    rewrite Z.div_mul by lia.
    replace (- Z.of_nat (S k) + 1) with (- Z.of_nat k) by lia.
    exact IH.
Qed.

Lemma round_half_even_one (a : Z) : Num.round_half_even a 1 = a.
Proof.
  unfold Num.round_half_even. rewrite Z.mod_1_r, Z.div_1_r. reflexivity.
Qed.

Lemma round_half_even_bounds (a b lo : Z) :
  0 < b -> lo <= a / b -> lo <= Num.round_half_even a b.
Proof.
  intros Hb H. unfold Num.round_half_even.
  destruct (2 * (a mod b) <? b); [exact H|].
  destruct (b <? 2 * (a mod b)); [lia|].
  destruct (Z.even (a / b)); lia.
Qed.

(** The double nearest to a positive integer below 2^52 is the integer. *)
Lemma nearest_small (z : Z) :
  1 <= z < 2 ^ 52 ->
  Num.nearest z 1 = Some (z * 2 ^ (52 - Z.log2 z), Z.log2 z - 52).
Proof.
  intros Hz.
  pose proof (Z.log2_spec z ltac:(lia)) as [Hlo Hhi].
  pose proof (Z.log2_nonneg z) as H0.
  assert (HL : Z.log2 z < 52).
  { apply Z.log2_lt_pow2; lia. }
  assert (Hq : Num.binary_exponent z 1 = Z.log2 z - 52).
  { unfold Num.binary_exponent, Num.scaled. change (Z.log2 1) with 0.
    rewrite Z.sub_0_r.
    assert (Hneg : (0 <=? Z.log2 z - 52) = false) by (apply Z.leb_gt; lia).
    rewrite Hneg, Z.div_1_r.
    replace (- (Z.log2 z - 52)) with (52 - Z.log2 z) by lia.
    assert (Hge : (z * 2 ^ (52 - Z.log2 z) <? 2 ^ 52) = false).
    { apply Z.ltb_ge.
      replace (2 ^ 52) with (2 ^ Z.log2 z * 2 ^ (52 - Z.log2 z)).
      - apply Z.mul_le_mono_nonneg_r; [apply Z.pow_nonneg; lia|exact Hlo].
      - rewrite <- Z.pow_add_r by lia. f_equal. lia. }
    rewrite Hge. lia. }
  unfold Num.nearest. rewrite Hq. unfold Num.scaled.
  assert (Hneg : (0 <=? Z.log2 z - 52) = false) by (apply Z.leb_gt; lia).
  rewrite Hneg, round_half_even_one.
  replace (- (Z.log2 z - 52)) with (52 - Z.log2 z) by lia.
  assert (H1 : (971 <? Z.log2 z - 52) = false) by (apply Z.ltb_ge; lia).
  assert (H2 : (Z.log2 z - 52 =? 971) = false) by (apply Z.eqb_neq; lia).
  now rewrite H1, H2.
Qed.

Lemma of_binary_small (z k : Z) :
  1 <= z -> 0 < k -> Num.of_binary (z * 2 ^ k) (- k) = Num.Finite z 0.
Proof.
  intros Hz Hk. unfold Num.of_binary.
  assert (Hp : 0 < 2 ^ k) by (apply Z.pow_pos_nonneg; lia).
  assert (Hnz : (z * 2 ^ k =? 0) = false) by (apply Z.eqb_neq; nia).
  assert (Hneg : (0 <=? - k) = false) by (apply Z.leb_gt; lia).
  rewrite Hnz, Hneg, Z.opp_involutive.
  replace (z * 2 ^ k * 5 ^ k) with (z * 10 ^ Z.of_nat (Z.to_nat k)).
  - replace (- k) with (- Z.of_nat (Z.to_nat k)) at 1 by lia.
    now rewrite strip_tens_exact.
  - rewrite Z2Nat.id by lia. change 10 with (2 * 5).
    rewrite Z.pow_mul_l. ring.
Qed.

Lemma nearest_large (z : Z) :
  2 ^ 52 <= z ->
  (z < 2 ^ 53 -> Num.nearest z 1 = Some (z, 0)) /\
  (Num.nearest z 1 = None \/
   exists p q, Num.nearest z 1 = Some (p, q) /\ 2 ^ 52 <= p /\ 0 <= q).
Proof.
  intros Hz.
  assert (Hpos : 0 < z).
  { assert (0 < 2 ^ 52) by (apply Z.pow_pos_nonneg; lia). lia. }
  pose proof (Z.log2_spec z Hpos) as [Hlo Hhi].
  assert (HL : 52 <= Z.log2 z) by (apply Z.log2_le_pow2; lia).
  set (L := Z.log2 z) in *.
  assert (Hp : 0 < 2 ^ (L - 52)) by (apply Z.pow_pos_nonneg; lia).
  assert (Hdiv : 2 ^ 52 <= z / (1 * 2 ^ (L - 52))).
  { rewrite Z.mul_1_l. apply Z.div_le_lower_bound; [exact Hp|].
    rewrite <- Z.pow_add_r by lia.
    replace (L - 52 + 52) with L by lia. exact Hlo. }
  assert (Hq : Num.binary_exponent z 1 = L - 52).
  { unfold Num.binary_exponent, Num.scaled. change (Z.log2 1) with 0.
    rewrite Z.sub_0_r. fold L.
    assert (Hnn : (0 <=? L - 52) = true) by (apply Z.leb_le; lia).
    rewrite Hnn.
    assert (Hge : (z / (1 * 2 ^ (L - 52)) <? 2 ^ 52) = false)
      by (apply Z.ltb_ge; exact Hdiv).
    rewrite Hge. lia. }
  unfold Num.nearest. rewrite Hq. unfold Num.scaled.
  assert (Hnn : (0 <=? L - 52) = true) by (apply Z.leb_le; lia).
  rewrite Hnn. split.
  - intros Hsmall.
    assert (HL52 : L = 52).
    { assert (L < 53); [|lia]. apply Z.log2_lt_pow2; lia. }
    rewrite HL52. change (52 - 52) with 0. change (1 * 2 ^ 0) with 1.
    now rewrite round_half_even_one.
  - destruct ((971 <? L - 52)
              || ((L - 52 =? 971)
                  && (Num.round_half_even z (1 * 2 ^ (L - 52)) =? 2 ^ 53)));
      [now left|right].
    exists (Num.round_half_even z (1 * 2 ^ (L - 52))), (L - 52).
    split; [reflexivity|].
    split; [apply round_half_even_bounds; [lia|exact Hdiv]|lia].
Qed.

(** The double nearest to a natural number below 2^53 is the number. *)
Lemma double_small (z : Z) :
  0 <= z < 2 ^ 53 -> Num.double (Num.Finite z 0) = Num.Finite z 0.
Proof.
  intros Hz. unfold Num.double.
  destruct (z =? 0) eqn:H0; [apply Z.eqb_eq in H0; now subst|].
  apply Z.eqb_neq in H0.
  assert (Hneg : (z <? 0) = false) by (apply Z.ltb_ge; lia).
  rewrite Hneg. change (0 <=? 0) with true. cbv iota.
  rewrite Z.abs_eq by lia. change (10 ^ 0) with 1. rewrite Z.mul_1_r.
  destruct (Z_lt_le_dec z (2 ^ 52)) as [Hs|Hl].
  - rewrite nearest_small by lia.
    pose proof (Z.log2_nonneg z).
    assert (HL : Z.log2 z < 52) by (apply Z.log2_lt_pow2; lia).
    replace (Z.log2 z - 52) with (- (52 - Z.log2 z)) by lia.
    apply of_binary_small; lia.
  - destruct (nearest_large z Hl) as [Hn _]. rewrite Hn by lia.
    unfold Num.of_binary. apply Z.eqb_neq in H0. rewrite H0.
    change (0 <=? 0) with true. change (2 ^ 0) with 1.
    now rewrite Z.mul_1_r.
Qed.

Lemma double_large (z : Z) :
  2 ^ 52 <= z ->
  Num.double (Num.Finite z 0) = Num.Infinity false \/
  exists m, Num.double (Num.Finite z 0) = Num.Finite m 0 /\ 2 ^ 52 <= m.
Proof.
  intros Hz.
  assert (Hpos : 0 < z).
  { assert (0 < 2 ^ 52) by (apply Z.pow_pos_nonneg; lia). lia. }
  unfold Num.double.
  assert (H0 : (z =? 0) = false) by (apply Z.eqb_neq; lia).
  assert (Hneg : (z <? 0) = false) by (apply Z.ltb_ge; lia).
  rewrite H0, Hneg. change (0 <=? 0) with true. cbv iota.
  rewrite Z.abs_eq by lia. change (10 ^ 0) with 1. rewrite Z.mul_1_r.
  destruct (nearest_large z Hz) as [_ [->|[p [q [-> [Hp Hq]]]]]];
    [now left|right].
  assert (Hpp : 0 < 2 ^ 52) by (apply Z.pow_pos_nonneg; lia).
  assert (Hq2 : 0 < 2 ^ q) by (apply Z.pow_pos_nonneg; lia).
  unfold Num.of_binary.
  assert (Hp0 : (p =? 0) = false) by (apply Z.eqb_neq; lia).
  assert (Hq0 : (0 <=? q) = true) by (apply Z.leb_le; lia).
  rewrite Hp0, Hq0. exists (p * 2 ^ q). split; [reflexivity|]. nia.
Qed.

Lemma negate_involutive (x : Num.Number) : Num.negate (Num.negate x) = x.
Proof.
  destruct x as [|s|m e]; simpl; [reflexivity|now rewrite negb_involutive|].
  now rewrite Z.opp_involutive.
Qed.

Lemma double_opp (z : Z) :
  Num.double (Num.Finite (- z) 0)
  = Num.negate (Num.double (Num.Finite z 0)).
Proof.
  unfold Num.double. rewrite Z.abs_opp.
  destruct (Z.eqb_spec z 0) as [->|Hz]; [reflexivity|].
  assert (H0 : (- z =? 0) = false) by (apply Z.eqb_neq; lia).
  rewrite H0.
  destruct (Z.ltb_spec z 0) as [Hn|Hp].
  - assert (H1 : (- z <? 0) = false) by (apply Z.ltb_ge; lia).
    rewrite H1. change (0 <=? 0) with true. cbv iota zeta.
    now rewrite negate_involutive.
  - assert (H1 : (- z <? 0) = true) by (apply Z.ltb_lt; lia).
    now rewrite H1.
Qed.

Lemma double_exact (z : Z) :
  Z.abs z < 2 ^ 53 -> Num.double (Num.Finite z 0) = Num.Finite z 0.
Proof.
  intros Hz. destruct (Z_lt_le_dec z 0) as [Hn|Hp].
  - rewrite <- (Z.opp_involutive z) at 1. rewrite double_opp.
    rewrite double_small by lia. simpl. now rewrite Z.opp_involutive.
  - apply double_small. lia.
Qed.

Lemma double_large_negative (z : Z) :
  z <= - 2 ^ 52 ->
  Num.double (Num.Finite z 0) = Num.Infinity true \/
  exists m, Num.double (Num.Finite z 0) = Num.Finite m 0 /\ m <= - 2 ^ 52.
Proof.
  intros Hz. rewrite <- (Z.opp_involutive z), double_opp.
  destruct (double_large (- z) ltac:(lia)) as [->|[m [-> Hm]]];
    [now left|right].
  exists (- m). split; [reflexivity|lia].
Qed.

Lemma approximates_of_Z (z : Z) : approximates z (Num.of_Z z).
Proof.
  unfold approximates, Num.of_Z.
  destruct (Z_lt_le_dec (Z.abs z) (2 ^ 53)) as [Hs|Hl]; [now left|right].
  destruct (Z_lt_le_dec z 0) as [Hn|Hp].
  - right. split; [lia|]. right. exists z. split; [reflexivity|lia].
  - left. split; [lia|]. right. exists z. split; [reflexivity|lia].
Qed.

Lemma approximates_double (z : Z) (x : Num.Number) :
  approximates z x -> approximates z (Num.double x).
Proof.
  intros [[Hz ->]|[[Hz Hx]|[Hz Hx]]].
  - left. split; [exact Hz|now apply double_exact].
  - right. left. split; [exact Hz|].
    destruct Hx as [->|[m [-> Hm]]]; [now left|].
    now apply double_large.
  - right. right. split; [exact Hz|].
    destruct Hx as [->|[m [-> Hm]]]; [now left|].
    now apply double_large_negative.
Qed.

Lemma lt_decimal_integers (a b : Z) :
  Num.lt_decimal (Num.Finite a 0) (Num.Finite b 0) = (a <? b).
Proof.
  unfold Num.lt_decimal. change (Z.min 0 0) with 0. change (10 ^ (0 - 0)) with 1.
  now rewrite !Z.mul_1_r.
Qed.

Lemma approximates_lt_decimal (z c : Z) (x : Num.Number) :
  approximates z x -> Z.abs c < 2 ^ 52 ->
  Num.lt_decimal x (Num.Finite c 0) = (z <? c) /\
  Num.lt_decimal (Num.Finite c 0) x = (c <? z).
Proof.
  intros [[Hz ->]|[[Hz Hx]|[Hz Hx]]] Hc.
  - now rewrite !lt_decimal_integers.
  - assert (H1 : (z <? c) = false) by (apply Z.ltb_ge; lia).
    assert (H2 : (c <? z) = true) by (apply Z.ltb_lt; lia).
    rewrite H1, H2.
    destruct Hx as [->|[m [-> Hm]]]; [now split|].
    rewrite !lt_decimal_integers. split; [apply Z.ltb_ge|apply Z.ltb_lt]; lia.
  - assert (H1 : (z <? c) = true) by (apply Z.ltb_lt; lia).
    assert (H2 : (c <? z) = false) by (apply Z.ltb_ge; lia).
    rewrite H1, H2.
    destruct Hx as [->|[m [-> Hm]]]; [now split|].
    rewrite !lt_decimal_integers. split; [apply Z.ltb_lt|apply Z.ltb_ge]; lia.
Qed.

(** The comparison of a number that stands for an integer with a small
    integer is the comparison of the integers. *)
Lemma approximates_lt (z c : Z) (x : Num.Number) :
  approximates z x -> Z.abs c < 2 ^ 52 ->
  Num.lt x (Num.of_Z c) = (z <? c) /\ Num.lt (Num.of_Z c) x = (c <? z).
Proof.
  intros Hx Hc. unfold Num.lt, Num.of_Z.
  rewrite (double_exact c) by lia.
  apply approximates_lt_decimal; [now apply approximates_double|exact Hc].
Qed.

Lemma approximates_is_zero (z : Z) (x : Num.Number) :
  approximates z x -> Num.is_zero x = (z =? 0).
Proof.
  intros Hx. apply approximates_double in Hx. unfold Num.is_zero.
  destruct Hx as [[Hz ->]|[[Hz Hx]|[Hz Hx]]]; [reflexivity| |].
  - assert (H0 : (z =? 0) = false) by (apply Z.eqb_neq; lia). rewrite H0.
    destruct Hx as [->|[m [-> Hm]]]; [reflexivity|]. apply Z.eqb_neq. lia.
  - assert (H0 : (z =? 0) = false) by (apply Z.eqb_neq; lia). rewrite H0.
    destruct Hx as [->|[m [-> Hm]]]; [reflexivity|]. apply Z.eqb_neq. lia.
Qed.

Lemma length_is_not_zero (v : Json.Value) (items : list Json.Value) :
  Json.is_zero (field_of (Json.JArray (v :: items)) "length") = false.
Proof.
  unfold field_of. cbn [Json.get String.eqb Ascii.eqb Bool.eqb Json.is_zero].
  rewrite (approximates_is_zero _ _ (approximates_of_Z _)).
  apply Z.eqb_neq. cbn [List.length]. lia.
Qed.


(** ** Splitting and trimming *)

Lemma split_length (sep : ascii) (s : string) :
  List.length (Str.split sep s) = S (Str.count sep s).
Proof.
  induction s as [|c r IH]; simpl; [reflexivity|].
  destruct (Ascii.eqb c sep); simpl.
  - now rewrite IH.
  - destruct (Str.split sep r); simpl in *; [discriminate|exact IH].
Qed.

Lemma trimStart_first (s : string) (c : ascii) :
  Str.first (Str.trimStart s) = Some c -> Str.is_white_space c = false.
Proof.
  induction s as [|a r IH]; simpl; [discriminate|].
  destruct (Str.is_white_space a) eqn:Ha; [exact IH|].
  simpl. intros [= <-]. exact Ha.
Qed.

Lemma trimEnd_first (s : string) (c : ascii) :
  (forall a, Str.first s = Some a -> Str.is_white_space a = false) ->
  Str.first (Str.trimEnd s) = Some c -> Str.is_white_space c = false.
Proof.
  destruct s as [|a r]; simpl; [discriminate|]. intros Hs.
  destruct (Str.trimEnd r).
  - rewrite (Hs a eq_refl). simpl. intros [= <-]. now apply Hs.
  - simpl. intros [= <-]. now apply Hs.
Qed.

Lemma trimEnd_last (s : string) (c : ascii) :
  Str.last (Str.trimEnd s) = Some c -> Str.is_white_space c = false.
Proof.
  induction s as [|a r IH]; simpl; [discriminate|].
  destruct (Str.trimEnd r) as [|b r'] eqn:Hr.
  - destruct (Str.is_white_space a) eqn:Ha; simpl; [discriminate|].
    intros [= <-]. exact Ha.
  - exact IH.
Qed.

Lemma trim_trimmed (s : string) : Str.trimmed (Str.trim s).
Proof.
  split; intros c H.
  - eapply trimEnd_first; [|exact H]. apply trimStart_first.
  - eapply trimEnd_last. exact H.
Qed.

Lemma trimStart_white (s : string) :
  Str.all_white_space (Str.trimStart s) = Str.all_white_space s.
Proof.
  induction s as [|a r IH]; simpl; [reflexivity|].
  destruct (Str.is_white_space a) eqn:Ha; simpl; [exact IH|].
  now rewrite Ha.
Qed.

Lemma trimEnd_empty (s : string) :
  Str.trimEnd s = EmptyString <-> Str.all_white_space s = true.
Proof.
  induction s as [|a r IH]; simpl; [tauto|].
  destruct (Str.trimEnd r) as [|b r'] eqn:Hr.
  - destruct (Str.is_white_space a); simpl.
    + split; intros _; [now apply IH|reflexivity].
    + split; discriminate.
  - split; [discriminate|].
    intros H. apply andb_true_iff in H. destruct H as [_ H].
    apply IH in H. discriminate.
Qed.

Lemma trim_empty (s : string) :
  Str.trim s = EmptyString <-> Str.all_white_space s = true.
Proof.
  unfold Str.trim. rewrite trimEnd_empty. now rewrite trimStart_white.
Qed.

(** ** Elements of the page *)

Lemma find_hd_filter {A} (f : A -> bool) (l : list A) :
  find f l = hd_error (filter f l).
Proof.
  induction l as [|a l IH]; simpl; [reflexivity|].
  destruct (f a); [reflexivity|exact IH].
Qed.

Lemma getElementById_with_id (d : Dom.Document) (i : string) :
  Dom.getElementById d i = hd_error (Dom.with_id d i).
Proof. apply find_hd_filter. Qed.

Lemma fresh_not_child (d : Dom.Document) :
  ~ In (Dom.fresh d) (Dom.children d).
Proof.
  intros H. unfold Dom.fresh in H.
  assert (Hle : (list_max (Dom.children d) <= list_max (Dom.children d))%nat)
    by lia.
  apply list_max_le in Hle. rewrite Forall_forall in Hle.
  apply Hle in H. lia.
Qed.

Lemma contains_In (d : Dom.Document) (n : Dom.Node) :
  Dom.contains d n = true <-> In n (Dom.children d).
Proof.
  unfold Dom.contains. rewrite existsb_exists. split.
  - intros [k [Hk He]]. apply Nat.eqb_eq in He. now subst.
  - intros H. exists n. split; [exact H|apply Nat.eqb_refl].
Qed.

Lemma filter_others (n : Dom.Node) (l : list Dom.Node) :
  ~ In n l -> filter (fun k => negb (Nat.eqb k n)) l = l.
Proof.
  intros H. apply forallb_filter_id. apply forallb_forall.
  intros k Hk. apply negb_true_iff, Nat.eqb_neq. intros ->. now apply H.
Qed.

Lemma notice_set_children d n msg :
  Dom.children (notice_set d n msg) = Dom.children d.
Proof. reflexivity. Qed.

Lemma notice_set_same d n msg :
  Dom.store (notice_set d n msg) n =
  Dom.mkElement (Dom.tagName (Dom.store d n)) "errorContainer"
                (Dom.value (Dom.store d n)) "red" "1rem" (Dom.Text msg).
Proof. simpl. now rewrite Nat.eqb_refl. Qed.

Lemma notice_set_other d n msg k :
  k <> n -> Dom.store (notice_set d n msg) k = Dom.store d k.
Proof.
  intros H. apply Nat.eqb_neq in H. simpl. now rewrite H.
Qed.

(** Setting the notice on an element that carries the id already changes
    the id of no element. *)
Lemma notice_set_has_id d n msg i k :
  Dom.has_id d "errorContainer" n = true ->
  Dom.has_id (notice_set d n msg) i k = Dom.has_id d i k.
Proof.
  intros Hn. unfold Dom.has_id in *.
  destruct (Nat.eq_dec k n) as [->|Hk].
  - rewrite notice_set_same. simpl. apply String.eqb_eq in Hn.
    now rewrite Hn.
  - now rewrite notice_set_other.
Qed.

(** ** [displayError] in closed form *)

Lemma displayError_reuse (msg : string) (w : World) (n : Dom.Node) :
  Dom.getElementById (document w) "errorContainer" = Some n ->
  displayError msg w =
  (Normal tt,
   mkWorld (notice_set (document w) n msg)
           (log w ++ [CalledDisplayError msg])%list).
Proof.
  intros H.
  assert (Hin : Dom.contains (notice_set (document w) n msg) n = true).
  { apply contains_In. rewrite notice_set_children.
    now apply find_some in H. }
  unfold displayError, bind, record, getElementById, read, assign, write, ret.
  cbn [document log fst snd]. rewrite H. cbn [document log fst snd].
  fold (notice_set (document w) n msg). now rewrite Hin.
Qed.

Lemma displayError_create (msg : string) (w : World) :
  Dom.getElementById (document w) "errorContainer" = None ->
  displayError msg w =
  (Normal tt,
   mkWorld (created (document w) msg)
           (log w ++ [CalledDisplayError msg])%list).
Proof.
  intros H. unfold created.
  assert (Hout : Dom.contains
                   (notice_set (snd (Dom.createElement (document w) "div"))
                               (Dom.fresh (document w)) msg)
                   (Dom.fresh (document w)) = false).
  { apply not_true_is_false. intros Hc. apply contains_In in Hc.
    now apply (fresh_not_child (document w)). }
  unfold displayError, bind, record, getElementById, read, assign, write, ret,
    createElement.
  cbn [document log fst snd]. rewrite H.
  cbn [Dom.createElement document log fst snd].
  cbn [Dom.createElement snd] in Hout.
  match goal with
  | |- context [Dom.contains ?d ?n] =>
      change (Dom.contains d n) with
        (Dom.contains
           (notice_set (Dom.mkDocument
                          (fun k => if Nat.eqb k (Dom.fresh (document w))
                                    then Dom.blank "div"
                                    else Dom.store (document w) k)
                          (Dom.children (document w)))
                       (Dom.fresh (document w)) msg)
           (Dom.fresh (document w)))
  end.
  rewrite Hout. reflexivity.
Qed.

(** The page that a call of [displayError] leaves when it had to create
    the notice. *)
Lemma created_children (d : Dom.Document) (msg : string) :
  Dom.children (created d msg) = Dom.fresh d :: Dom.children d.
Proof.
  unfold created.
  cbn [Dom.prepend Dom.children notice_set Dom.update Dom.createElement snd].
  f_equal. apply filter_others, fresh_not_child.
Qed.

Lemma created_store_fresh (d : Dom.Document) (msg : string) :
  Dom.store (created d msg) (Dom.fresh d)
  = Dom.mkElement "div" "errorContainer" EmptyString "red" "1rem"
                  (Dom.Text msg).
Proof.
  unfold created.
  cbn [Dom.prepend Dom.store]. rewrite notice_set_same.
  cbn [Dom.createElement snd Dom.store]. now rewrite Nat.eqb_refl.
Qed.

Lemma created_store_child (d : Dom.Document) (msg : string) (k : Dom.Node) :
  In k (Dom.children d) ->
  Dom.store (created d msg) k = Dom.store d k.
Proof.
  intros Hk. unfold created.
  assert (Hne : k <> Dom.fresh d).
  { intros ->. now apply (fresh_not_child d). }
  cbn [Dom.prepend Dom.store]. rewrite notice_set_other by exact Hne.
  cbn [Dom.createElement snd Dom.store].
  apply Nat.eqb_neq in Hne. now rewrite Hne.
Qed.

Lemma created_with_id (d : Dom.Document) (msg : string) :
  Dom.with_id (created d msg) "errorContainer"
  = Dom.fresh d :: Dom.with_id d "errorContainer".
Proof.
  unfold Dom.with_id. rewrite created_children. cbn [filter].
  unfold Dom.has_id at 1. rewrite created_store_fresh. cbn [Dom.id].
  rewrite String.eqb_refl. f_equal. apply filter_ext_in. intros k Hk.
  unfold Dom.has_id. now rewrite created_store_child.
Qed.

Lemma reused_with_id (d : Dom.Document) (n : Dom.Node) (msg i : string) :
  Dom.getElementById d "errorContainer" = Some n ->
  Dom.with_id (notice_set d n msg) i = Dom.with_id d i.
Proof.
  intros H. apply find_some in H. destruct H as [_ H].
  unfold Dom.with_id. rewrite notice_set_children.
  apply filter_ext. intros k. now apply notice_set_has_id.
Qed.

(** ** What [displayError] does *)

Lemma displayError_normal (msg : string) (w : World) :
  fst (displayError msg w) = Normal tt.
Proof.
  destruct (Dom.getElementById (document w) "errorContainer") eqn:H.
  - now rewrite (displayError_reuse msg w _ H).
  - now rewrite (displayError_create msg w H).
Qed.

Lemma displayError_log (msg : string) (w : World) :
  log (snd (displayError msg w)) = (log w ++ [CalledDisplayError msg])%list.
Proof.
  destruct (Dom.getElementById (document w) "errorContainer") eqn:H.
  - now rewrite (displayError_reuse msg w _ H).
  - now rewrite (displayError_create msg w H).
Qed.

(** The elements with the id of the notice after a call: the ones there
    were, or the one created when there was none. *)
Lemma displayError_with_id (msg : string) (w : World) :
  Dom.with_id (document (snd (displayError msg w))) "errorContainer" =
  match Dom.with_id (document w) "errorContainer" with
  | [] => [Dom.fresh (document w)]
  | found => found
  end.
Proof.
  destruct (Dom.getElementById (document w) "errorContainer") eqn:H.
  - rewrite (displayError_reuse msg w _ H). cbn [snd document].
    rewrite (reused_with_id _ _ msg _ H).
    rewrite getElementById_with_id in H.
    destruct (Dom.with_id (document w) "errorContainer");
      [discriminate|reflexivity].
  - rewrite (displayError_create msg w H). cbn [snd document].
    rewrite created_with_id.
    rewrite getElementById_with_id in H.
    destruct (Dom.with_id (document w) "errorContainer");
      [reflexivity|discriminate].
Qed.

(** The first element with the id of the notice holds the message, in
    red, above a margin. *)
Lemma displayError_notice (msg : string) (w : World) :
  exists n,
    Dom.getElementById (document (snd (displayError msg w)))
                       "errorContainer" = Some n /\
    Dom.content (Dom.store (document (snd (displayError msg w))) n)
      = Dom.Text msg /\
    Dom.color (Dom.store (document (snd (displayError msg w))) n) = "red" /\
    Dom.marginBottom (Dom.store (document (snd (displayError msg w))) n)
      = "1rem".
Proof.
  destruct (Dom.getElementById (document w) "errorContainer") as [n|] eqn:H.
  - exists n. rewrite (displayError_reuse msg w _ H). cbn [snd document].
    rewrite notice_set_same. repeat split.
    rewrite getElementById_with_id, (reused_with_id _ _ msg _ H).
    now rewrite <- getElementById_with_id.
  - exists (Dom.fresh (document w)).
    rewrite (displayError_create msg w H). cbn [snd document].
    rewrite created_store_fresh. repeat split.
    now rewrite getElementById_with_id, created_with_id.
Qed.

Lemma displayError_displayed (msg : string) (w : World) :
  displayed (document (snd (displayError msg w))) = Some msg.
Proof.
  destruct (displayError_notice msg w) as [n [Hn [Hc _]]].
  unfold displayed, content_of. rewrite Hn. simpl. now rewrite Hc.
Qed.

(** One more call keeps a single notice and replaces its message. *)
Lemma displayError_keeps_single (msg : string) (w : World) (n : Dom.Node) :
  Dom.with_id (document w) "errorContainer" = [n] ->
  Dom.with_id (document (snd (displayError msg w))) "errorContainer" = [n] /\
  Dom.content (Dom.store (document (snd (displayError msg w))) n)
    = Dom.Text msg.
Proof.
  intros Hn.
  assert (Hw := displayError_with_id msg w). rewrite Hn in Hw.
  split; [exact Hw|].
  destruct (displayError_notice msg w) as [k [Hk [Hc _]]].
  rewrite getElementById_with_id, Hw in Hk. simpl in Hk.
  injection Hk as <-. exact Hc.
Qed.

Lemma last_cons {A} (l : list A) :
  forall a d : A, last (a :: l) d = last l a.
Proof.
  induction l as [|b l IH]; intros a d; [reflexivity|].
  change (last (a :: b :: l) d) with (last (b :: l) d).
  now rewrite (IH b d), (IH b a).
Qed.

Lemma after_errors_single (ms : list string) :
  forall (w : World) (n : Dom.Node) (m0 : string),
    Dom.with_id (document w) "errorContainer" = [n] ->
    Dom.content (Dom.store (document w) n) = Dom.Text m0 ->
    Dom.with_id (document (after_errors ms w)) "errorContainer" = [n] /\
    Dom.content (Dom.store (document (after_errors ms w)) n)
      = Dom.Text (last ms m0).
Proof.
  induction ms as [|m ms IH]; intros w n m0 Hn Hc.
  - simpl. now split.
  - destruct (displayError_keeps_single m w n Hn) as [Hn' Hc'].
    destruct (IH _ n m Hn' Hc') as [H1 H2].
    cbn [after_errors]. split; [exact H1|].
    rewrite H2. now rewrite last_cons.
Qed.

(** C6.  On a page that holds at most one element with the id
    errorContainer, the first call of displayError leaves exactly one
    such element, and after any further calls of displayError that same
    element is still the only one, is still in the page, and holds the
    message of the latest call and nothing else. *)
Theorem error_notice_is_single_and_reused
    (w : World) (m : string) (ms : list string) :
  (List.length (Dom.with_id (document w) "errorContainer") <= 1)%nat ->
  exists n : Dom.Node,
    Dom.with_id (document (after_errors [m] w)) "errorContainer" = [n] /\
    Dom.with_id (document (after_errors (m :: ms) w)) "errorContainer"
      = [n] /\
    Dom.contains (document (after_errors (m :: ms) w)) n = true /\
    Dom.content (Dom.store (document (after_errors (m :: ms) w)) n)
      = Dom.Text (last ms m) /\
    displayed (document (after_errors (m :: ms) w)) = Some (last ms m).
Proof.
  intros Hle.
  assert (Hfirst : exists n,
             Dom.with_id (document (snd (displayError m w)))
                         "errorContainer" = [n]).
  { rewrite displayError_with_id.
    destruct (Dom.with_id (document w) "errorContainer") as [|a [|b l]].
    - now eexists.
    - now eexists.
    - simpl in Hle. lia. }
  destruct Hfirst as [n Hn]. exists n.
  assert (Hc : Dom.content (Dom.store (document (snd (displayError m w))) n)
               = Dom.Text m).
  { destruct (displayError_notice m w) as [k [Hk [Hc _]]].
    rewrite getElementById_with_id, Hn in Hk. simpl in Hk.
    injection Hk as <-. exact Hc. }
  destruct (after_errors_single ms _ _ m Hn Hc) as [H1 H2].
  cbn [after_errors]. repeat split.
  - exact Hn.
  - exact H1.
  - apply contains_In.
    assert (Hin : In n (Dom.with_id
                          (document (after_errors ms (snd (displayError m w))))
                          "errorContainer")) by (rewrite H1; now left).
    unfold Dom.with_id in Hin. now apply filter_In in Hin.
  - exact H2.
  - unfold displayed, content_of.
    rewrite getElementById_with_id, H1. simpl. now rewrite H2.
Qed.

Lemma error_notice_is_single_and_reused_witness :
  (List.length
     (Dom.with_id (document (mkWorld (form_page "a" "mcq" "easy" "0") []))
                  "errorContainer") <= 1)%nat /\
  exists n : Dom.Node,
    Dom.with_id
      (document (after_errors ["first"]
                   (mkWorld (form_page "a" "mcq" "easy" "0") [])))
      "errorContainer" = [n] /\
    Dom.with_id
      (document (after_errors ["first"; "second"]
                   (mkWorld (form_page "a" "mcq" "easy" "0") [])))
      "errorContainer" = [n] /\
    Dom.contains
      (document (after_errors ["first"; "second"]
                   (mkWorld (form_page "a" "mcq" "easy" "0") []))) n = true /\
    Dom.content
      (Dom.store
         (document (after_errors ["first"; "second"]
                      (mkWorld (form_page "a" "mcq" "easy" "0") []))) n)
      = Dom.Text "second" /\
    displayed
      (document (after_errors ["first"; "second"]
                   (mkWorld (form_page "a" "mcq" "easy" "0") [])))
      = Some "second".
Proof.
  split.
  - vm_compute. lia.
  - apply (error_notice_is_single_and_reused
             (mkWorld (form_page "a" "mcq" "easy" "0") []) "first" ["second"]).
    vm_compute. lia.
Defined.

(** ** The log of calls *)

Section Emits.

Variable P : Event -> Prop.

Lemma emits_silent {A} (m : M A) :
  (forall w, log (snd (m w)) = log w) -> emits P m.
Proof.
  intros H w. exists []. rewrite H, app_nil_r. now split.
Qed.

Lemma emits_ret {A} (a : A) : emits P (ret a).
Proof. now apply emits_silent. Qed.

Lemma emits_throw {A} (e : JsError) : emits P (@throw A e).
Proof. now apply emits_silent. Qed.

Lemma emits_lift {A} (c : Completion A) : emits P (lift c).
Proof. now apply emits_silent. Qed.

Lemma emits_read {A} (f : Dom.Document -> A) : emits P (read f).
Proof. now apply emits_silent. Qed.

Lemma emits_write (f : Dom.Document -> Dom.Document) : emits P (write f).
Proof. now apply emits_silent. Qed.

Lemma emits_createElement (tag : string) : emits P (createElement tag).
Proof. now apply emits_silent. Qed.

Lemma emits_record (ev : Event) : P ev -> emits P (record ev).
Proof.
  intros H w. exists [ev]. split; [reflexivity|]. now constructor.
Qed.

Lemma emits_bind {A B} (m : M A) (k : A -> M B) :
  emits P m -> (forall a, emits P (k a)) -> emits P (bind m k).
Proof.
  intros Hm Hk w. unfold bind.
  destruct (Hm w) as [evs [Hl Hp]].
  destruct (m w) as [[a|e] w']; cbn [snd] in *.
  - destruct (Hk a w') as [evs' [Hl' Hp']].
    exists (evs ++ evs')%list. split.
    + now rewrite Hl', Hl, app_assoc.
    + now apply Forall_app.
  - now exists evs.
Qed.

Lemma emits_try_catch {A} (m : M A) (h : JsError -> M A) :
  emits P m -> (forall e, emits P (h e)) -> emits P (try_catch m h).
Proof.
  intros Hm Hh w. unfold try_catch.
  destruct (Hm w) as [evs [Hl Hp]].
  destruct (m w) as [[a|e] w']; cbn [snd] in *.
  - now exists evs.
  - destruct (Hh e w') as [evs' [Hl' Hp']].
    exists (evs ++ evs')%list. split.
    + now rewrite Hl', Hl, app_assoc.
    + now apply Forall_app.
Qed.

End Emits.

Lemma emits_weaken {A} (P Q : Event -> Prop) (m : M A) :
  (forall ev, P ev -> Q ev) -> emits P m -> emits Q m.
Proof.
  intros H Hm w. destruct (Hm w) as [evs [Hl Hp]].
  exists evs. split; [exact Hl|]. eapply Forall_impl; eauto.
Qed.

(** Breaks a computation down to its calls of [record]. *)
Ltac emits_steps :=
  repeat first
    [ apply emits_ret | apply emits_throw | apply emits_lift
    | apply emits_read | apply emits_write | apply emits_createElement
    | apply emits_bind; [|intros ?]
    | match goal with
      | |- emits _ (match ?x with _ => _ end) => destruct x
      end ].

Lemma emits_displayError (P : Event -> Prop) (msg : string) :
  P (CalledDisplayError msg) -> emits P (displayError msg).
Proof.
  intros H. unfold displayError, getElementById, assign.
  apply emits_bind; [now apply emits_record|intros _]. emits_steps.
Qed.

Lemma emits_displayQuiz (P : Event -> Prop) (questions : Json.Value) :
  P (CalledDisplayQuiz questions) -> emits P (displayQuiz questions).
Proof.
  intros H. unfold displayQuiz, getElementById, set_innerHTML, assign.
  apply emits_bind; [now apply emits_record|intros _]. emits_steps.
Qed.

Lemma emits_handle_response (P : Event -> Prop) (r : Response) :
  (forall qs, P (CalledDisplayQuiz qs)) -> emits P (handle_response r).
Proof.
  intros H. unfold handle_response. emits_steps;
    try (apply emits_displayQuiz; apply H);
    try (apply emits_record; apply H);
    unfold set_innerHTML, assign; emits_steps.
Qed.

Lemma emits_request_quiz (net : Network) (topics : list string)
    (q f n : string) :
  emits quiet (request_quiz net topics q f n).
Proof.
  unfold request_quiz.
  apply emits_bind; [apply emits_read|intros c].
  apply emits_bind; [unfold set_innerHTML, assign; emits_steps|intros _].
  apply emits_bind; [|intros r; now apply emits_handle_response].
  unfold fetch. apply emits_bind; [now apply emits_record|intros _].
  emits_steps.
Qed.

(** ** [generateQuiz], branch by branch *)

Lemma value_of_holds (w : World) (i v : string) :
  holds (document w) i v -> value_of i w = (Normal v, w).
Proof.
  unfold holds, field, value_of, bind, getElementById, read.
  cbn [document]. destruct (Dom.getElementById (document w) i); simpl;
    [|discriminate].
  now intros [= ->].
Qed.

Lemma generateQuiz_form (net : Network) (w : World) (t q f n : string) :
  Form (document w) t q f n ->
  generateQuiz net w =
  (if missing_field (topics_of t) q f n
   then displayError "All fields are required!"
   else if out_of_range n
   then displayError "Please choose between 1 and 20 questions!"
   else try_catch (request_quiz net (topics_of t) q f n) report) w.
Proof.
  intros [Ht Hq Hf Hn]. unfold generateQuiz, bind.
  rewrite (value_of_holds w _ _ Ht), (value_of_holds w _ _ Hq),
    (value_of_holds w _ _ Hf), (value_of_holds w _ _ Hn).
  reflexivity.
Qed.

Lemma request_quiz_sent (net : Network) (w : World) (c : Dom.Node)
    (topics : list string) (q f n : string) :
  Dom.getElementById (document w) "quizContainer" = Some c ->
  request_quiz net topics q f n w =
  settle (net (quiz_request topics q f n))
         (awaiting w c (quiz_request topics q f n)).
Proof.
  intros Hc.
  unfold request_quiz, bind, getElementById, read, set_innerHTML, assign,
    write, fetch, record, settle, awaiting.
  cbn [document log]. rewrite Hc. cbn [document log].
  destruct (net (quiz_request topics q f n)); reflexivity.
Qed.

Lemma request_quiz_no_container (net : Network) (w : World)
    (topics : list string) (q f n : string) :
  Dom.getElementById (document w) "quizContainer" = None ->
  request_quiz net topics q f n w =
  (Throw (cannot_set "null" "innerHTML"), w).
Proof.
  intros Hc.
  unfold request_quiz, bind, getElementById, read, set_innerHTML, throw.
  cbn [document log]. now rewrite Hc.
Qed.

Lemma try_catch_throw {A} (m : M A) (h : JsError -> M A) (w w' : World)
    (e : JsError) :
  m w = (Throw e, w') -> try_catch m h w = h e w'.
Proof. intros H. unfold try_catch. now rewrite H. Qed.

Lemma try_catch_same {A} (m m' : M A) (h : JsError -> M A) (w w' : World) :
  m w = m' w' -> try_catch m h w = try_catch m' h w'.
Proof. intros H. unfold try_catch. now rewrite H. Qed.

Lemma try_report_normal (m : M unit) (w : World) :
  fst (try_catch m report w) = Normal tt.
Proof.
  unfold try_catch. destruct (m w) as [[[]|e] w']; [reflexivity|].
  apply displayError_normal.
Qed.

Lemma emits_report (e : JsError) : emits after_send (report e).
Proof.
  apply emits_displayError. simpl. now eexists.
Qed.

Lemma emits_settle (res : FetchResult) : emits after_send (settle res).
Proof.
  destruct res; simpl; [apply emits_throw|].
  now apply emits_handle_response.
Qed.

(** A form that passes both tests is sent, once: the request is the first
    call of the run, and what follows is a call of [displayQuiz] or the
    report of a failure. *)
Lemma valid_form_is_sent (net : Network) (d : Dom.Document)
    (t q f n : string) :
  Form d t q f n -> validated t q f n = true -> has_container d = true ->
  fst (run (generateQuiz net) d) = Normal tt /\
  exists rest,
    calls (generateQuiz net) d
      = Fetched (quiz_request (topics_of t) q f n) :: rest /\
    Forall after_send rest.
Proof.
  intros HF Hv Hc. unfold calls, run.
  rewrite (generateQuiz_form net (mkWorld d []) t q f n HF).
  unfold validated in Hv. apply andb_true_iff in Hv.
  destruct Hv as [Hm Hr]. apply negb_true_iff in Hm, Hr. rewrite Hm, Hr.
  split; [apply try_report_normal|].
  unfold has_container in Hc.
  destruct (Dom.getElementById d "quizContainer") as [c|] eqn:Hd;
    [|discriminate].
  rewrite (try_catch_same _ _ report _ _
             (request_quiz_sent net (mkWorld d []) c _ q f n Hd)).
  destruct (@emits_try_catch after_send _ _ _
              (emits_settle (net (quiz_request (topics_of t) q f n)))
              emits_report
              (awaiting (mkWorld d []) c
                        (quiz_request (topics_of t) q f n)))
    as [evs [Hl Hp]].
  exists evs. split; [|exact Hp]. rewrite Hl. reflexivity.
Qed.

(** ** The response *)

Lemma get_not_null (data : Json.Value) (k : string) :
  data <> Json.JNull -> Json.get data k = Normal (field_of data k).
Proof.
  intros H. unfold field_of.
  destruct data; try reflexivity; [contradiction| |];
    simpl; destruct (String.eqb k "length"); reflexivity.
Qed.

Lemma handle_response_unparsed (r : Response) (e : JsError) (w : World) :
  json r = Throw e -> handle_response r w = (Throw e, w).
Proof.
  intros H. unfold handle_response, bind, lift. now rewrite H.
Qed.

Lemma handle_response_failed_status (r : Response) (data : Json.Value)
    (error : option Json.Value) (w : World) :
  json r = Normal data -> ok r = false ->
  Json.get data "error" = Normal error ->
  handle_response r w = (Throw (status_error error), w).
Proof.
  intros Hj Hok He. unfold handle_response, bind, lift, throw, status_error.
  rewrite Hj, Hok, He. cbn [negb].
  destruct (Json.ToString (Json.or_else error (Json.JString "Request failed")));
    reflexivity.
Qed.

(** The message of a failed status, by the error field. *)
Lemma error_text_string (s : string) :
  Str.is_empty s = false -> error_text (Some (Json.JString s)) = s.
Proof.
  intros H. unfold error_text, status_error, Json.or_else. simpl.
  now rewrite H.
Qed.

Lemma error_text_falsy (error : option Json.Value) :
  Json.truthy error = false -> error_text error = "Request failed".
Proof.
  intros H. unfold error_text, status_error, Json.or_else.
  destruct error as [v|]; [|reflexivity].
  simpl in H. now rewrite H.
Qed.

Lemma handle_response_null (r : Response) (w : World) :
  json r = Normal Json.JNull ->
  handle_response r w =
  (Throw (cannot_read "null" (if ok r then "questions" else "error")), w).
Proof.
  intros Hj. unfold handle_response, bind, lift, throw, ret.
  rewrite Hj. destruct (ok r); reflexivity.
Qed.

Lemma handle_response_no_questions (r : Response) (data : Json.Value)
    (w : World) :
  json r = Normal data -> ok r = true -> data <> Json.JNull ->
  field_of data "questions" = None \/
  field_of data "questions" = Some (Json.JArray []) ->
  handle_response r w = (Throw (Error "No questions generated"), w).
Proof.
  intros Hj Hok Hd Hq. unfold handle_response, bind, lift, throw, ret.
  rewrite Hj, Hok, (get_not_null data "questions" Hd). simpl.
  destruct Hq as [-> | ->]; reflexivity.
Qed.

(** A failure after the request was sent is reported, with the prefix. *)
Lemma failure_is_reported (net : Network) (d : Dom.Document)
    (t q f n : string) (e : JsError) :
  Form d t q f n -> validated t q f n = true -> has_container d = true ->
  (forall w, settle (net (quiz_request (topics_of t) q f n)) w
             = (Throw e, w)) ->
  fst (run (generateQuiz net) d) = Normal tt /\
  calls (generateQuiz net) d =
    [ Fetched (quiz_request (topics_of t) q f n);
      CalledDisplayError (failure_prefix ++ message e) ] /\
  displayed (page_after (generateQuiz net) d)
    = Some (failure_prefix ++ message e).
Proof.
  intros HF Hv Hc Hs. unfold calls, page_after, run.
  rewrite (generateQuiz_form net (mkWorld d []) t q f n HF).
  unfold validated in Hv. apply andb_true_iff in Hv.
  destruct Hv as [Hm Hr]. apply negb_true_iff in Hm, Hr. rewrite Hm, Hr.
  unfold has_container in Hc.
  destruct (Dom.getElementById d "quizContainer") as [c|] eqn:Hd;
    [|discriminate].
  rewrite (try_catch_throw _ report _ _ _
             (eq_trans (request_quiz_sent net (mkWorld d []) c _ q f n Hd)
                       (Hs _))).
  unfold report. fold failure_prefix.
  split; [apply displayError_normal|].
  split; [now rewrite displayError_log|apply displayError_displayed].
Qed.

(** ** Failed status (C3) *)

(** C3, as the specification states it, fails.  A response with status
    500 whose body is the object with the error field set to the empty
    string has the field, yet the message shown ends in Request failed;
    and a response with status 500 whose body does not parse shows the
    parser's message, not Request failed. *)
Lemma failed_status_message_counterexample :
  displayed
    (page_after
       (generateQuiz
          (server 500
             (Normal (Json.JObject [("error", Json.JString EmptyString)]))))
       (form_page "a,b" "mcq" "easy" "3"))
  <> Some (spec_http_message
             (Normal (Json.JObject [("error", Json.JString EmptyString)])))
  /\
  displayed
    (page_after
       (generateQuiz
          (server 500
             (Throw (mkError "SyntaxError" "Unexpected end of JSON input"))))
       (form_page "a,b" "mcq" "easy" "3"))
  <> Some (spec_http_message
             (Throw (mkError "SyntaxError" "Unexpected end of JSON input"))).
Proof.
  split; vm_compute; discriminate.
Qed.

(** C3, amended.  For every validated submission and every response whose
    status is outside 200..299 and whose body parses to a value other
    than null, the run ends normally, displayQuiz is not called, and one
    message is shown, which starts with Failed to generate quiz and a
    colon.  When the error field of the body is a string that is not
    empty, the message ends with that string; when the field is absent or
    falsy (null, false, 0, the empty string), it ends with Request
    failed. *)
Theorem failed_status_message (net : Network) (d : Dom.Document)
    (t q f n : string) (r : Response) (data : Json.Value) :
  Form d t q f n -> validated t q f n = true -> has_container d = true ->
  net (quiz_request (topics_of t) q f n) = Resolved r ->
  ok r = false -> json r = Normal data -> data <> Json.JNull ->
  exists text,
    fst (run (generateQuiz net) d) = Normal tt /\
    calls (generateQuiz net) d =
      [ Fetched (quiz_request (topics_of t) q f n);
        CalledDisplayError ("Failed to generate quiz: " ++ text) ] /\
    displayed (page_after (generateQuiz net) d)
      = Some ("Failed to generate quiz: " ++ text) /\
    (forall s, field_of data "error" = Some (Json.JString s) ->
               Str.is_empty s = false -> text = s) /\
    (Json.truthy (field_of data "error") = false ->
     text = "Request failed").
Proof.
  intros HF Hv Hc Hnet Hok Hj Hd.
  exists (error_text (field_of data "error")).
  destruct (failure_is_reported net d t q f n
              (status_error (field_of data "error")) HF Hv Hc)
    as [Hrun [Hcalls Hshown]].
  { intros w. rewrite Hnet. cbn [settle].
    apply (handle_response_failed_status r data _ w Hj Hok).
    now apply get_not_null. }
  split; [exact Hrun|]. split; [exact Hcalls|]. split; [exact Hshown|].
  split.
  - intros s -> Hs. now apply error_text_string.
  - apply error_text_falsy.
Qed.

(** Status 500 with the body {error: backend down}. *)
Lemma failed_status_message_witness :
  ok (mkResponse 500
        (Normal (Json.JObject [("error", Json.JString "backend down")])))
  = false /\
  displayed
    (page_after
       (generateQuiz
          (server 500
             (Normal (Json.JObject [("error", Json.JString "backend down")]))))
       (form_page "a,b" "mcq" "easy" "3"))
  = Some "Failed to generate quiz: backend down".
Proof.
  split; [reflexivity|].
  destruct (failed_status_message
              (server 500
                 (Normal
                    (Json.JObject [("error", Json.JString "backend down")])))
              (form_page "a,b" "mcq" "easy" "3") "a,b" "mcq" "easy" "3"
              (mkResponse 500
                 (Normal
                    (Json.JObject [("error", Json.JString "backend down")])))
              (Json.JObject [("error", Json.JString "backend down")]))
    as [text [_ [_ [Hshown [Hfield _]]]]].
  - split; reflexivity.
  - reflexivity.
  - reflexivity.
  - reflexivity.
  - reflexivity.
  - reflexivity.
  - discriminate.
  - rewrite Hshown, (Hfield "backend down"); reflexivity.
Defined.

(** ** No questions (C4) *)

(** C4, as the specification states it, fails.  The body null parses, has
    no questions field, and arrives with status 200; reading its questions
    field throws, and the message shown is that of the TypeError. *)
Lemma no_questions_message_counterexample :
  ok (mkResponse 200 (Normal Json.JNull)) = true /\
  field_of Json.JNull "questions" = None /\
  displayed
    (page_after (generateQuiz (server 200 (Normal Json.JNull)))
                (form_page "a,b" "mcq" "easy" "3"))
  <> Some "Failed to generate quiz: No questions generated".
Proof.
  split; [reflexivity|]. split; [reflexivity|].
  vm_compute. discriminate.
Qed.

(** C4, amended.  For every validated submission and every response with
    a status in 200..299 whose body parses to a value other than null
    that has no questions field, or whose questions field is the empty
    list, the run ends normally, the message shown is the prefix followed
    by No questions generated, and displayQuiz is not called: the calls
    of the run are the request and the call of displayError. *)
Theorem no_questions_message (net : Network) (d : Dom.Document)
    (t q f n : string) (r : Response) (data : Json.Value) :
  Form d t q f n -> validated t q f n = true -> has_container d = true ->
  net (quiz_request (topics_of t) q f n) = Resolved r ->
  ok r = true -> json r = Normal data -> data <> Json.JNull ->
  field_of data "questions" = None \/
  field_of data "questions" = Some (Json.JArray []) ->
  fst (run (generateQuiz net) d) = Normal tt /\
  calls (generateQuiz net) d =
    [ Fetched (quiz_request (topics_of t) q f n);
      CalledDisplayError "Failed to generate quiz: No questions generated" ]
  /\
  displayed (page_after (generateQuiz net) d)
    = Some "Failed to generate quiz: No questions generated".
Proof.
  intros HF Hv Hc Hnet Hok Hj Hd Hq.
  apply (failure_is_reported net d t q f n
           (Error "No questions generated") HF Hv Hc).
  intros w. rewrite Hnet. cbn [settle].
  now apply (handle_response_no_questions r data w).
Qed.

(** Status 200 with the body {questions: []}. *)
Lemma no_questions_message_witness :
  displayed
    (page_after
       (generateQuiz
          (server 200 (Normal (Json.JObject [("questions", Json.JArray [])]))))
       (form_page "a,b" "mcq" "easy" "3"))
  = Some "Failed to generate quiz: No questions generated" /\
  filter is_displayQuiz
    (calls
       (generateQuiz
          (server 200 (Normal (Json.JObject [("questions", Json.JArray [])]))))
       (form_page "a,b" "mcq" "easy" "3")) = [].
Proof.
  destruct (no_questions_message
              (server 200
                 (Normal (Json.JObject [("questions", Json.JArray [])])))
              (form_page "a,b" "mcq" "easy" "3") "a,b" "mcq" "easy" "3"
              (mkResponse 200
                 (Normal (Json.JObject [("questions", Json.JArray [])])))
              (Json.JObject [("questions", Json.JArray [])]))
    as [_ [Hcalls Hshown]].
  - split; reflexivity.
  - reflexivity.
  - reflexivity.
  - reflexivity.
  - reflexivity.
  - reflexivity.
  - discriminate.
  - right. reflexivity.
  - split; [exact Hshown|]. rewrite Hcalls. reflexivity.
Defined.

(** ** Validation *)

Lemma topics_of_length (t : string) :
  List.length (topics_of t) = S (Str.count "," t).
Proof.
  unfold topics_of. rewrite length_map. apply split_length.
Qed.

Lemma is_empty_true (s : string) :
  Str.is_empty s = true <-> s = EmptyString.
Proof.
  destruct s; simpl; split; intros H; try reflexivity; discriminate.
Qed.

(** The first test fires exactly when one of the three other fields is
    empty: the topics never make it fire. *)
Lemma missing_field_iff (t q f n : string) :
  missing_field (topics_of t) q f n = true <->
  q = EmptyString \/ f = EmptyString \/ n = EmptyString.
Proof.
  unfold missing_field. rewrite topics_of_length. cbn [Nat.eqb orb].
  rewrite !orb_true_iff, !is_empty_true. tauto.
Qed.

Lemma fetches_after_send (evs : list Event) :
  Forall after_send evs -> fetches evs = [].
Proof.
  induction 1 as [|ev evs Hev _ IH]; [reflexivity|].
  destruct ev; simpl in *; [contradiction|exact IH|exact IH].
Qed.

Lemma not_reported (msg : string) (evs : list Event) :
  Forall of_try evs ->
  (forall x, msg <> failure_prefix ++ x) ->
  ~ In (CalledDisplayError msg) evs.
Proof.
  intros Hall Hmsg Hin. rewrite Forall_forall in Hall.
  destruct (Hall _ Hin) as [x Hx]. now apply (Hmsg x).
Qed.

Lemma after_send_of_try (ev : Event) : after_send ev -> of_try ev.
Proof. destruct ev; simpl; tauto. Qed.

Lemma quiet_of_try (ev : Event) : quiet ev -> of_try ev.
Proof. destruct ev; simpl; tauto. Qed.

(** The try statement logs requests, calls of displayQuiz, and reports
    that carry the prefix. *)
Lemma emits_try (net : Network) (topics : list string) (q f n : string) :
  emits of_try (try_catch (request_quiz net topics q f n) report).
Proof.
  apply emits_try_catch.
  - apply (emits_weaken quiet of_try _ quiet_of_try), emits_request_quiz.
  - intros e.
    apply (emits_weaken after_send of_try _ after_send_of_try), emits_report.
Qed.

(** The run on a form with an empty type, difficulty or number. *)
Lemma required_message_shown (net : Network) (d : Dom.Document)
    (t q f n : string) :
  Form d t q f n ->
  q = EmptyString \/ f = EmptyString \/ n = EmptyString ->
  fst (run (generateQuiz net) d) = Normal tt /\
  calls (generateQuiz net) d
    = [CalledDisplayError "All fields are required!"] /\
  displayed (page_after (generateQuiz net) d)
    = Some "All fields are required!".
Proof.
  intros HF He. apply missing_field_iff with (t := t) in He.
  unfold calls, page_after, run.
  rewrite (generateQuiz_form net (mkWorld d []) t q f n HF), He.
  split; [apply displayError_normal|].
  split; [now rewrite displayError_log|apply displayError_displayed].
Qed.

(** The run on a form whose number fails the second test. *)
Lemma range_message_shown (net : Network) (d : Dom.Document)
    (t q f n : string) :
  Form d t q f n ->
  missing_field (topics_of t) q f n = false -> out_of_range n = true ->
  fst (run (generateQuiz net) d) = Normal tt /\
  calls (generateQuiz net) d
    = [CalledDisplayError "Please choose between 1 and 20 questions!"] /\
  displayed (page_after (generateQuiz net) d)
    = Some "Please choose between 1 and 20 questions!".
Proof.
  intros HF Hm Hr. unfold calls, page_after, run.
  rewrite (generateQuiz_form net (mkWorld d []) t q f n HF), Hm, Hr.
  split; [apply displayError_normal|].
  split; [now rewrite displayError_log|apply displayError_displayed].
Qed.

(** The numbers 0, 21 and -1 are rejected with the range message, and no
    request is sent. *)
Lemma range_rejects_0_21_minus1 (net : Network) (d : Dom.Document)
    (t q f n : string) :
  Form d t q f n ->
  Str.is_empty q = false -> Str.is_empty f = false ->
  n = "0" \/ n = "21" \/ n = "-1" ->
  calls (generateQuiz net) d
    = [CalledDisplayError "Please choose between 1 and 20 questions!"] /\
  displayed (page_after (generateQuiz net) d)
    = Some "Please choose between 1 and 20 questions!".
Proof.
  intros HF Hq Hf Hn.
  apply (range_message_shown net d t q f n HF).
  - unfold missing_field. rewrite topics_of_length, Hq, Hf.
    destruct Hn as [-> | [-> | ->]]; reflexivity.
  - destruct Hn as [-> | [-> | ->]]; reflexivity.
Qed.

(** The numbers 1 and 20 pass the second test, and the request is sent. *)
Lemma range_accepts_1_20 (net : Network) (d : Dom.Document)
    (t q f n : string) :
  Form d t q f n ->
  Str.is_empty q = false -> Str.is_empty f = false ->
  has_container d = true ->
  n = "1" \/ n = "20" ->
  out_of_range n = false /\
  fetches (calls (generateQuiz net) d)
    = [quiz_request (topics_of t) q f n].
Proof.
  intros HF Hq Hf Hc Hn.
  assert (Hr : out_of_range n = false)
    by (destruct Hn as [-> | ->]; reflexivity).
  split; [exact Hr|].
  destruct (valid_form_is_sent net d t q f n HF) as [_ [rest [Hl Hp]]].
  - unfold validated, missing_field.
    rewrite topics_of_length, Hq, Hf, Hr.
    destruct Hn as [-> | ->]; reflexivity.
  - exact Hc.
  - rewrite Hl. simpl. now rewrite fetches_after_send.
Qed.

(** ** The range test on a value that is not a number (C1) *)

(** C1, at the value abc.  The string abc converts to NaN, and both
    comparisons with NaN are false: the second test lets abc through.
    With a type and a difficulty chosen, the request is sent, the number
    of questions in its body being NaN, written null, and the range
    message is not shown. *)
Theorem abc_passes_the_range_test (net : Network) (d : Dom.Document)
    (t q f : string) :
  Form d t q f "abc" ->
  Str.is_empty q = false -> Str.is_empty f = false ->
  has_container d = true ->
  Num.StringToNumber "abc" = Num.NaN /\
  out_of_range "abc" = false /\
  fetches (calls (generateQuiz net) d)
    = [quiz_request (topics_of t) q f "abc"] /\
  ~ In (CalledDisplayError "Please choose between 1 and 20 questions!")
       (calls (generateQuiz net) d).
Proof.
  intros HF Hq Hf Hc.
  split; [reflexivity|]. split; [reflexivity|].
  destruct (valid_form_is_sent net d t q f "abc" HF) as [_ [rest [Hl Hp]]].
  - unfold validated, missing_field. rewrite topics_of_length, Hq, Hf.
    reflexivity.
  - exact Hc.
  - rewrite Hl. split.
    + simpl. now rewrite fetches_after_send.
    + intros [Hin|Hin]; [discriminate|].
      revert Hin. apply not_reported.
      * eapply Forall_impl; [apply after_send_of_try|exact Hp].
      * intros x. discriminate.
Qed.

Lemma abc_passes_the_range_test_witness :
  fetches (calls (generateQuiz (server 200 (Normal Json.JNull)))
                 (form_page "math" "mcq" "easy" "abc"))
  = [ mkRequest "http://localhost:5000/api/generate-quiz" "POST"
        [("Content-Type", "application/json")]
        (Str.dq "{'topics':['math'],'type':'mcq','difficulty':'easy','num_questions':null}") ]
  /\
  ~ In (CalledDisplayError "Please choose between 1 and 20 questions!")
       (calls (generateQuiz (server 200 (Normal Json.JNull)))
              (form_page "math" "mcq" "easy" "abc")).
Proof.
  destruct (abc_passes_the_range_test
              (server 200 (Normal Json.JNull))
              (form_page "math" "mcq" "easy" "abc") "math" "mcq" "easy")
    as [_ [_ [Hsent Hquiet]]].
  - split; reflexivity.
  - reflexivity.
  - reflexivity.
  - reflexivity.
  - split; [exact Hsent|exact Hquiet].
Defined.

(** ** An empty topics field (C2) *)

(** C2, at the empty topics field.  Splitting the empty string gives the
    list of one empty string, whose length is 1: the first test does not
    fire on it.  With the three other fields filled in and the number in
    range, the request is sent, with one empty topic, and the message All
    fields are required! is not shown. *)
Theorem empty_topics_pass_the_required_test (net : Network)
    (d : Dom.Document) (q f n : string) :
  Form d EmptyString q f n ->
  Str.is_empty q = false -> Str.is_empty f = false ->
  Str.is_empty n = false -> out_of_range n = false ->
  has_container d = true ->
  topics_of EmptyString = [EmptyString] /\
  fetches (calls (generateQuiz net) d)
    = [quiz_request [EmptyString] q f n] /\
  ~ In (CalledDisplayError "All fields are required!")
       (calls (generateQuiz net) d).
Proof.
  intros HF Hq Hf Hn Hr Hc.
  split; [reflexivity|].
  destruct (valid_form_is_sent net d EmptyString q f n HF)
    as [_ [rest [Hl Hp]]].
  - unfold validated, missing_field. now rewrite Hq, Hf, Hn, Hr.
  - exact Hc.
  - rewrite Hl. split.
    + simpl. now rewrite fetches_after_send.
    + intros [Hin|Hin]; [discriminate|].
      revert Hin. apply not_reported.
      * eapply Forall_impl; [apply after_send_of_try|exact Hp].
      * intros x. discriminate.
Qed.

Lemma empty_topics_pass_the_required_test_witness :
  fetches (calls (generateQuiz (server 200 (Normal Json.JNull)))
                 (form_page EmptyString "mcq" "easy" "3"))
  = [ mkRequest "http://localhost:5000/api/generate-quiz" "POST"
        [("Content-Type", "application/json")]
        (Str.dq "{'topics':[''],'type':'mcq','difficulty':'easy','num_questions':3}") ]
  /\
  ~ In (CalledDisplayError "All fields are required!")
       (calls (generateQuiz (server 200 (Normal Json.JNull)))
              (form_page EmptyString "mcq" "easy" "3")).
Proof.
  destruct (empty_topics_pass_the_required_test
              (server 200 (Normal Json.JNull))
              (form_page EmptyString "mcq" "easy" "3") "mcq" "easy" "3")
    as [_ [Hsent Hquiet]].
  - split; reflexivity.
  - reflexivity.
  - reflexivity.
  - reflexivity.
  - reflexivity.
  - reflexivity.
  - split; [exact Hsent|exact Hquiet].
Defined.

(** ** The body of the request (C5) *)

(** C5.  When the form holds the topics a,b, the type mcq, the
    difficulty easy and the number 3, the run sends one request, a POST
    whose body is the JSON text with the two topics, the type, the
    difficulty, and num_questions as the number 3. *)
Theorem request_body_of_the_example (net : Network) (d : Dom.Document) :
  Form d "a,b" "mcq" "easy" "3" -> has_container d = true ->
  fetches (calls (generateQuiz net) d)
  = [ mkRequest "http://localhost:5000/api/generate-quiz" "POST"
        [("Content-Type", "application/json")]
        (Str.dq "{'topics':['a','b'],'type':'mcq','difficulty':'easy','num_questions':3}") ]
  /\
  request_object (topics_of "a,b") "mcq" "easy" "3"
  = Json.JObject
      [ ("topics", Json.JArray [Json.JString "a"; Json.JString "b"]);
        ("type", Json.JString "mcq");
        ("difficulty", Json.JString "easy");
        ("num_questions", Json.JNumber (Num.of_Z 3)) ].
Proof.
  intros HF Hc. split; [|reflexivity].
  destruct (valid_form_is_sent net d "a,b" "mcq" "easy" "3" HF)
    as [_ [rest [Hl Hp]]]; [reflexivity|exact Hc|].
  rewrite Hl. simpl fetches. now rewrite fetches_after_send.
Qed.

Lemma request_body_of_the_example_witness :
  map body
    (fetches (calls (generateQuiz (server 200 (Normal Json.JNull)))
                    (form_page "a,b" "mcq" "easy" "3")))
  = [Str.dq "{'topics':['a','b'],'type':'mcq','difficulty':'easy','num_questions':3}"].
Proof.
  destruct (request_body_of_the_example
              (server 200 (Normal Json.JNull))
              (form_page "a,b" "mcq" "easy" "3")) as [Hsent _].
  - split; reflexivity.
  - reflexivity.
  - rewrite Hsent. reflexivity.
Defined.

(** ** The topics of the request (C8) *)

(** C8, as the specification states it, fails.  The topics field a,,b
    passes both tests, and the request carries three topics, the second
    of them the empty string. *)
Lemma topics_are_nonempty_counterexample :
  validated "a,,b" "mcq" "easy" "3" = true /\
  map body
    (fetches (calls (generateQuiz (server 200 (Normal Json.JNull)))
                    (form_page "a,,b" "mcq" "easy" "3")))
  = [Str.dq "{'topics':['a','','b'],'type':'mcq','difficulty':'easy','num_questions':3}"]
  /\
  ~ Forall (fun topic => topic <> EmptyString) (topics_of "a,,b").
Proof.
  split; [reflexivity|]. split; [reflexivity|].
  intros H. inversion H as [|x l _ H1]; subst.
  inversion H1 as [|y l' Hy _]; subst. now apply Hy.
Qed.

Lemma Forall2_map_same {A B} (R : A -> B -> Prop) (g : A -> B)
    (l : list A) :
  (forall a, R a (g a)) -> Forall2 R l (map g l).
Proof.
  intros H. induction l; simpl; constructor; auto.
Qed.

Lemma stringify_strings (xs : list string) :
  map Json.stringify (map Json.JString xs) = map Json.quote xs.
Proof. rewrite map_map. now apply map_ext. Qed.

Lemma append_assoc (a b c : string) : (a ++ b) ++ c = a ++ (b ++ c).
Proof. induction a as [|x a IH]; simpl; [reflexivity|now rewrite IH]. Qed.

(** The body of a request starts with its topics. *)
Lemma body_starts_with_topics (topics : list string) (q f n : string) :
  exists rest,
    body (quiz_request topics q f n)
    = Str.dq "{'topics':[" ++ Str.join "," (map Json.quote topics)
      ++ Str.dq "],'type':" ++ rest.
Proof.
  exists (Json.quote q ++ "," ++
          (Json.quote "difficulty" ++ ":" ++ Json.quote f) ++ "," ++
          (Json.quote "num_questions" ++ ":" ++
           Json.stringify (Json.JNumber (Num.StringToNumber n))) ++ "}").
  unfold quiz_request, request_object. cbn [body].
  cbn [Json.stringify map]. fold Json.stringify. rewrite stringify_strings.
  unfold Str.join at 1. cbn [String.concat].
  rewrite !append_assoc. reflexivity.
Qed.

(** C8, amended.  For every submission that passes both tests, one
    request is sent, and its body starts with the member topics, an
    array that holds, quoted and in their order, the comma-separated
    segments of the topics field, each of them trimmed, one topic for
    each segment; a topic is the empty string exactly when its segment is
    empty or all white space. *)
Theorem topics_are_the_trimmed_segments (net : Network) (d : Dom.Document)
    (t q f n : string) :
  Form d t q f n -> validated t q f n = true -> has_container d = true ->
  (exists r rest,
     fetches (calls (generateQuiz net) d) = [r] /\
     body r
     = Str.dq "{'topics':[" ++
       Str.join "," (map Json.quote (map Str.trim (Str.split "," t))) ++
       Str.dq "],'type':" ++ rest) /\
  List.length (map Str.trim (Str.split "," t)) = S (Str.count "," t) /\
  Forall Str.trimmed (map Str.trim (Str.split "," t)) /\
  Forall2 (fun segment topic =>
             topic = EmptyString <-> Str.all_white_space segment = true)
          (Str.split "," t) (map Str.trim (Str.split "," t)).
Proof.
  intros HF Hv Hc. split; [|split; [|split]].
  - destruct (valid_form_is_sent net d t q f n HF Hv Hc)
      as [_ [rest [Hl Hp]]].
    destruct (body_starts_with_topics (topics_of t) q f n) as [tail Hb].
    exists (quiz_request (topics_of t) q f n), tail. split; [|exact Hb].
    rewrite Hl. simpl fetches. now rewrite fetches_after_send.
  - apply topics_of_length.
  - apply Forall_forall. intros x Hx. apply in_map_iff in Hx.
    destruct Hx as [s [<- _]]. apply trim_trimmed.
  - apply Forall2_map_same. intros s. apply trim_empty.
Qed.

(** The topics field with white space around its two segments. *)
Lemma topics_are_the_trimmed_segments_witness :
  (exists r rest,
     fetches (calls (generateQuiz (server 200 (Normal Json.JNull)))
                    (form_page " algebra , sets" "mcq" "easy" "3")) = [r] /\
     body r = Str.dq "{'topics':['algebra','sets'],'type':" ++ rest) /\
  Forall Str.trimmed ["algebra"; "sets"].
Proof.
  destruct (topics_are_the_trimmed_segments
              (server 200 (Normal Json.JNull))
              (form_page " algebra , sets" "mcq" "easy" "3")
              " algebra , sets" "mcq" "easy" "3")
    as [Hsent [_ [Htrim _]]].
  - split; reflexivity.
  - vm_compute. reflexivity.
  - reflexivity.
  - split; [exact Hsent|exact Htrim].
Defined.

(** ** The topics and the first test (C9) *)

(** C9.  Splitting any topics field on commas, the empty one too, gives
    a list of at least one segment, so the length test of the first [if]
    is false; and a run shows All fields are required! exactly when the
    type, the difficulty or the number of questions is empty. *)
Theorem topics_never_trigger_the_required_message (net : Network)
    (d : Dom.Document) (t q f n : string) :
  Form d t q f n ->
  (1 <= List.length (Str.split "," t))%nat /\
  (List.length (topics_of t) =? 0)%nat = false /\
  (In (CalledDisplayError "All fields are required!")
      (calls (generateQuiz net) d)
   <-> q = EmptyString \/ f = EmptyString \/ n = EmptyString).
Proof.
  intros HF. split; [rewrite split_length; lia|].
  split; [now rewrite topics_of_length|]. split.
  - intros Hin.
    destruct (missing_field (topics_of t) q f n) eqn:Hm;
      [now apply missing_field_iff in Hm|].
    exfalso. destruct (out_of_range n) eqn:Hr.
    + destruct (range_message_shown net d t q f n HF Hm Hr) as [_ [Hl _]].
      rewrite Hl in Hin. destruct Hin as [Hin|[]]. discriminate.
    + unfold calls, run in Hin.
      rewrite (generateQuiz_form net (mkWorld d []) t q f n HF), Hm, Hr
        in Hin.
      destruct (emits_try net (topics_of t) q f n (mkWorld d []))
        as [evs [Hl Hp]].
      rewrite Hl in Hin. cbn [log app] in Hin. revert Hin.
      apply not_reported; [exact Hp|]. intros x. discriminate.
  - intros He.
    destruct (required_message_shown net d t q f n HF He) as [_ [Hl _]].
    rewrite Hl. now left.
Qed.

Lemma topics_never_trigger_the_required_message_witness :
  (1 <= List.length (Str.split "," EmptyString))%nat /\
  ~ In (CalledDisplayError "All fields are required!")
       (calls (generateQuiz (server 200 (Normal Json.JNull)))
              (form_page EmptyString "mcq" "easy" "3")).
Proof.
  destruct (topics_never_trigger_the_required_message
              (server 200 (Normal Json.JNull))
              (form_page EmptyString "mcq" "easy" "3")
              EmptyString "mcq" "easy" "3") as [Hlen [_ Hiff]].
  - split; reflexivity.
  - split; [exact Hlen|]. intros Hin. apply (proj1 Hiff) in Hin.
    destruct Hin as [Hin|[Hin|Hin]]; discriminate.
Defined.

(** ** Rendering the questions *)

Lemma not_null_get (q : Json.Value) (k : string) :
  not_null q = true -> Json.get q k = Normal (field_of q k).
Proof.
  intros H. apply get_not_null. intros ->. discriminate.
Qed.

Lemma Value_nested_ind (P : Json.Value -> Prop) :
  P Json.JNull -> (forall b, P (Json.JBool b)) ->
  (forall n, P (Json.JNumber n)) -> (forall s, P (Json.JString s)) ->
  (forall items, Forall P items -> P (Json.JArray items)) ->
  (forall props, P (Json.JObject props)) ->
  forall v, P v.
Proof.
  intros HN HB HNu HS HA HO. fix IH 1.
  intros [|b|n|s|items|props];
    [exact HN|apply HB|apply HNu|apply HS| |apply HO].
  apply HA. revert items. fix IHitems 1.
  intros [|x xs]; constructor; [apply IH|apply IHitems].
Qed.

(** ToString completes on the printable values, and throws on the
    others. *)
Lemma ToString_cases (v : Json.Value) :
  if printable v then exists s, Json.ToString v = Normal s
  else Json.ToString v = Throw cannot_convert.
Proof.
  induction v as [|b|n|s|items IH|props] using Value_nested_ind.
  - now exists "null".
  - destruct b; [now exists "true"|now exists "false"].
  - now exists (Num.toString n).
  - now exists s.
  - cbn [printable Json.ToString].
    induction IH as [|x xs Hx _ IHxs]; [now exists EmptyString|].
    cbn [forallb Json.join_items].
    assert (Hitem :
      if printable x
      then exists s, match x with
                     | Json.JNull => Normal EmptyString
                     | _ => Json.ToString x
                     end = Normal s
      else match x with
           | Json.JNull => Normal EmptyString
           | _ => Json.ToString x
           end = Throw cannot_convert).
    { destruct x; try exact Hx. now exists EmptyString. }
    destruct (printable x); cbn [andb].
    + destruct Hitem as [s ->]. destruct xs as [|y ys]; [now exists s|].
      destruct (forallb printable (y :: ys)).
      * destruct IHxs as [r Hr]. rewrite Hr.
        now exists (s ++ "," ++ r).
      * now rewrite IHxs.
    + now rewrite Hitem.
  - cbn [printable Json.ToString].
    destruct (Json.own props "toString"); [reflexivity|].
    now exists "[object Object]".
Qed.

Lemma ToString_printable (v : Json.Value) :
  printable v = true -> Json.ToString v = Normal (
    match Json.ToString v with Normal s => s | Throw _ => EmptyString end).
Proof.
  intros H. pose proof (ToString_cases v) as Hv. rewrite H in Hv.
  destruct Hv as [s ->]. reflexivity.
Qed.

Lemma ToString_unprintable (v : Json.Value) :
  printable v = false -> Json.ToString v = Throw cannot_convert.
Proof.
  intros H. pose proof (ToString_cases v) as Hv. now rewrite H in Hv.
Qed.

Lemma label_succ (i : nat) :
  Num.toString (Num.of_Z (Z.of_nat i + 1)) = label (S i).
Proof. unfold label. now rewrite Nat2Z.inj_succ, <- Z.add_1_r. Qed.

Lemma render_question_presentable (q : Json.Value) (i : nat) :
  presentable q = true ->
  Json.ToString (Json.or_else (field_of q "text") q) = Normal (shown q) /\
  render_question q i = Normal (question_block (label (S i)) (shown q)).
Proof.
  intros H. unfold presentable in H. apply andb_true_iff in H.
  destruct H as [Hn Hp]. apply ToString_printable in Hp. fold (shown q) in Hp.
  split; [exact Hp|]. unfold render_question.
  now rewrite (not_null_get q "text" Hn), Hp, label_succ.
Qed.

Lemma map_indexed_render (items : list Json.Value) :
  forall i,
    forallb presentable items = true ->
    map_indexed render_question items i = Normal (blocks_from i items).
Proof.
  induction items as [|q rest IH]; intros i H; [reflexivity|].
  simpl in H. apply andb_true_iff in H. destruct H as [Hq Hrest].
  cbn [map_indexed blocks_from].
  destruct (render_question_presentable q i Hq) as [_ ->].
  now rewrite (IH (S i) Hrest).
Qed.

Lemma displayQuiz_renders (w : World) (c : Dom.Node)
    (items : list Json.Value) :
  Dom.getElementById (document w) "quizContainer" = Some c ->
  forallb presentable items = true ->
  displayQuiz (Json.JArray items) w = (Normal tt, rendered w c items).
Proof.
  intros Hc Hall.
  unfold displayQuiz, bind, record, getElementById, read, lift,
    questions_map, set_innerHTML, assign, write, rendered.
  cbn [document log]. rewrite Hc, (map_indexed_render items 0 Hall).
  reflexivity.
Qed.

(** An assignment to the contents of an element changes no id. *)
Lemma set_content_has_id (d : Dom.Document) (c : Dom.Node)
    (x : Dom.Content) (i : string) (k : Dom.Node) :
  Dom.has_id (Dom.update d c (Dom.set_content x)) i k = Dom.has_id d i k.
Proof.
  unfold Dom.has_id. simpl. destruct (Nat.eqb k c) eqn:H; [|reflexivity].
  apply Nat.eqb_eq in H. now subst.
Qed.

Lemma content_after_set (d : Dom.Document) (c : Dom.Node)
    (x : Dom.Content) (i : string) :
  Dom.getElementById d i = Some c ->
  content_of (Dom.update d c (Dom.set_content x)) i = Some x.
Proof.
  intros H. unfold content_of.
  assert (Hsame : Dom.getElementById (Dom.update d c (Dom.set_content x)) i
                  = Dom.getElementById d i).
  { unfold Dom.getElementById. cbn [Dom.update Dom.children].
    rewrite !find_hd_filter. f_equal. apply filter_ext.
    intros k. apply set_content_has_id. }
  rewrite Hsame, H. simpl. now rewrite Nat.eqb_refl.
Qed.

Lemma blocks_from_numbered (items : list Json.Value) :
  forall i, blocks_from i items = numbered (S i) (map shown items).
Proof.
  induction items as [|q rest IH]; intros i; [reflexivity|].
  simpl. now rewrite IH.
Qed.

Lemma nth_error_blocks_from (items : list Json.Value) :
  forall k i,
    nth_error (blocks_from k items) i =
    option_map (fun q => question_block (label (S (k + i))) (shown q))
               (nth_error items i).
Proof.
  induction items as [|q rest IH]; intros k [|i]; simpl; try reflexivity.
  - now rewrite Nat.add_0_r.
  - rewrite IH. now rewrite Nat.add_succ_r.
Qed.

Lemma blocks_from_length (items : list Json.Value) :
  forall k, List.length (blocks_from k items) = List.length items.
Proof.
  induction items as [|q rest IH]; intros k; simpl; [reflexivity|].
  now rewrite IH.
Qed.

Lemma well_shaped_presentable (q : Json.Value) :
  well_shaped q = true -> presentable q = true /\ shown q = spec_text q.
Proof.
  destruct q as [| | |s|items|props]; simpl; try discriminate.
  - now split.
  - unfold presentable, shown, field_of. simpl.
    destruct (Json.own props "text") as [[| | |s| |]|]; try discriminate.
    intros H. simpl. rewrite H. now split.
Qed.

Lemma list_of_two {A} (l : list A) (a b : A) :
  List.length l = 2%nat -> nth_error l 0 = Some a ->
  nth_error l 1 = Some b -> l = [a; b].
Proof.
  destruct l as [|x [|y [|z l]]]; try discriminate.
  simpl. intros _ Ha Hb. congruence.
Qed.

(** The template with its two substitutions made. *)
Lemma question_block_markup (number text : string) :
  question_block number text
  = nl ++ "        " ++ Str.dq "<div class='question'>" ++
    nl ++ "            <h3>Q" ++ number ++ ":</h3>" ++
    nl ++ "            <p>" ++ text ++ "</p>" ++
    nl ++ "        </div>" ++
    nl ++ "    ".
Proof. reflexivity. Qed.

(** The page after [displayQuiz] has rendered presentable questions. *)
Lemma displayQuiz_blocks (d : Dom.Document) (items : list Json.Value) :
  has_container d = true -> forallb presentable items = true ->
  fst (run (displayQuiz (Json.JArray items)) d) = Normal tt /\
  content_of (page_after (displayQuiz (Json.JArray items)) d)
             "quizContainer"
  = Some (Dom.Markup (Str.join EmptyString (blocks_from 0 items))).
Proof.
  intros Hc Hall. unfold has_container in Hc.
  destruct (Dom.getElementById d "quizContainer") as [c|] eqn:Hd;
    [|discriminate].
  unfold page_after, run.
  rewrite (displayQuiz_renders (mkWorld d []) c items Hd Hall).
  split; [reflexivity|]. now apply content_after_set.
Qed.

(** ** The blocks of the questions (C7) *)

(** C7, as the specification states it, fails.  For the one question that
    is the object with an empty text, the block would show the text, the
    empty string; the block rendered shows [object Object]. *)
Lemma blocks_show_the_text_counterexample :
  content_of
    (page_after
       (displayQuiz
          (Json.JArray [Json.JObject [("text", Json.JString EmptyString)]]))
       (form_page "a" "mcq" "easy" "1"))
    "quizContainer"
  = Some (Dom.Markup (question_block "1" "[object Object]")) /\
  content_of
    (page_after
       (displayQuiz
          (Json.JArray [Json.JObject [("text", Json.JString EmptyString)]]))
       (form_page "a" "mcq" "easy" "1"))
    "quizContainer"
  <> Some (Dom.Markup
             (Str.join EmptyString
                (numbered 1
                   (map spec_text
                      [Json.JObject [("text", Json.JString EmptyString)]])))).
Proof.
  split; [vm_compute; reflexivity|]. vm_compute. discriminate.
Qed.

(** C7, amended.  For every list of questions each of which is a string
    or an object whose text field is a string that is not empty,
    displayQuiz completes and replaces the contents of the display area
    by the blocks of the questions, one for each question and in their
    order.  The block of the question with the index i is the markup of
    the template, its heading Q followed by the number i + 1 and a colon,
    its paragraph the text field of the question when the question is an
    object and the question itself when it is a string. *)
Theorem blocks_show_the_text (d : Dom.Document) (items : list Json.Value) :
  has_container d = true -> forallb well_shaped items = true ->
  exists blocks,
    fst (run (displayQuiz (Json.JArray items)) d) = Normal tt /\
    content_of (page_after (displayQuiz (Json.JArray items)) d)
               "quizContainer"
    = Some (Dom.Markup (Str.join EmptyString blocks)) /\
    List.length blocks = List.length items /\
    forall i q,
      nth_error items i = Some q ->
      nth_error blocks i
      = Some (nl ++ "        " ++ Str.dq "<div class='question'>" ++
              nl ++ "            <h3>Q" ++ label (S i) ++ ":</h3>" ++
              nl ++ "            <p>" ++ spec_text q ++ "</p>" ++
              nl ++ "        </div>" ++
              nl ++ "    ").
Proof.
  intros Hc Hall.
  assert (Hp : forallb presentable items = true).
  { rewrite forallb_forall in *. intros q Hq.
    now apply well_shaped_presentable, Hall. }
  destruct (displayQuiz_blocks d items Hc Hp) as [Hrun Hcontent].
  exists (blocks_from 0 items).
  split; [exact Hrun|]. split; [exact Hcontent|].
  split; [apply blocks_from_length|].
  intros i q Hq. rewrite nth_error_blocks_from, Hq. cbn [option_map Nat.add].
  rewrite question_block_markup.
  rewrite forallb_forall in Hall.
  destruct (well_shaped_presentable q (Hall q (nth_error_In _ _ Hq)))
    as [_ ->].
  reflexivity.
Qed.

(** The questions Q1 text and {text: Q2 text}: two blocks, labelled Q1 and
    Q2, that display Q1 text and Q2 text. *)
Lemma blocks_show_the_text_witness :
  content_of
    (page_after
       (displayQuiz
          (Json.JArray [ Json.JString "Q1 text";
                         Json.JObject [("text", Json.JString "Q2 text")] ]))
       (form_page "a" "mcq" "easy" "2"))
    "quizContainer"
  = Some (Dom.Markup
            ((nl ++ "        " ++ Str.dq "<div class='question'>" ++
              nl ++ "            <h3>Q1:</h3>" ++
              nl ++ "            <p>Q1 text</p>" ++
              nl ++ "        </div>" ++
              nl ++ "    ") ++
             (nl ++ "        " ++ Str.dq "<div class='question'>" ++
              nl ++ "            <h3>Q2:</h3>" ++
              nl ++ "            <p>Q2 text</p>" ++
              nl ++ "        </div>" ++
              nl ++ "    "))).
Proof.
  destruct (blocks_show_the_text
              (form_page "a" "mcq" "easy" "2")
              [ Json.JString "Q1 text";
                Json.JObject [("text", Json.JString "Q2 text")] ])
    as [blocks [_ [Hshown [Hlen Hblocks]]]].
  - reflexivity.
  - reflexivity.
  - rewrite Hshown.
    rewrite (list_of_two blocks _ _ Hlen (Hblocks 0%nat _ eq_refl)
                         (Hblocks 1%nat _ eq_refl)).
    vm_compute. reflexivity.
Defined.

(** ** The fallback of the template (C10) *)



(** ** Values that are not converted *)

(** An error field that is an object with a member named toString: the
    conversion of the message throws, and the message shown is that of
    the TypeError. *)
Example unprintable_error_field :
  displayed
    (page_after
       (generateQuiz
          (server 500
             (Normal
                (Json.JObject
                   [("error",
                     Json.JObject [("toString", Json.JNumber (Num.of_Z 1))])]))))
       (form_page "a,b" "mcq" "easy" "3"))
  = Some "Failed to generate quiz: Cannot convert object to primitive value".
Proof. vm_compute. reflexivity. Qed.

(** A question that is such an object, alone or as the text of a
    question or as an item of an array: displayQuiz throws and the
    display area keeps what it held. *)
Example unprintable_question :
  let page := form_page "a" "mcq" "easy" "1" in
  let unprintable := Json.JObject [("toString", Json.JNumber (Num.of_Z 1))] in
  run (displayQuiz (Json.JArray [Json.JString "Q1 text"; unprintable])) page
  = (Throw cannot_convert,
     mkWorld page
       [CalledDisplayQuiz (Json.JArray [Json.JString "Q1 text"; unprintable])])
  /\
  fst (run (displayQuiz (Json.JArray [Json.JObject [("text", unprintable)]]))
           page)
  = Throw cannot_convert /\
  fst (run (displayQuiz
              (Json.JArray [Json.JArray [Json.JNull; unprintable]])) page)
  = Throw cannot_convert.
Proof. cbv zeta. split; [|split]; vm_compute; reflexivity. Qed.

(** Numbers are doubles: a count that is written with more digits than a
    double holds is rounded before it is compared and before it is
    sent. *)
Example long_counts_are_rounded :
  Num.StringToNumber "9007199254740993" = Num.of_Z 9007199254740992 /\
  out_of_range "20.000000000000000001" = false /\
  out_of_range "0.99999999999999999999" = false /\
  body (quiz_request ["a"] "mcq" "easy" "1.00000000000000000001")
  = Str.dq "{'topics':['a'],'type':'mcq','difficulty':'easy','num_questions':1}"
  /\
  Json.ToBoolean (Json.JNumber (Num.Finite 1 (-400))) = false.
Proof. split; [|split; [|split; [|split]]]; vm_compute; reflexivity. Qed.

(** ** A successful run *)

(** The response {questions: [Q1 text, {text: Q2 text}]} with status 200:
    the run sends the request, calls displayQuiz with the two questions,
    shows no error, and leaves the two blocks in the display area. *)
Example success_response_is_rendered :
  let questions :=
    Json.JArray [ Json.JString "Q1 text";
                  Json.JObject [("text", Json.JString "Q2 text")] ] in
  let net := server 200 (Normal (Json.JObject [("questions", questions)])) in
  let page := form_page "a,b" "mcq" "easy" "3" in
  run (generateQuiz net) page
  = (Normal tt,
     mkWorld (page_after (generateQuiz net) page)
       [ Fetched (quiz_request ["a"; "b"] "mcq" "easy" "3");
         CalledDisplayQuiz questions ]) /\
  content_of (page_after (generateQuiz net) page) "quizContainer"
  = Some (Dom.Markup (question_block "1" "Q1 text"
                        ++ question_block "2" "Q2 text")) /\
  displayed (page_after (generateQuiz net) page) = None.
Proof.
  cbv zeta. split; [|split]; vm_compute; reflexivity.
Qed.

(** * Further properties of the script *)

(** ** What [displayError] leaves alone *)

Lemma find_ext_in {A} (f g : A -> bool) (l : list A) :
  (forall a, In a l -> f a = g a) -> find f l = find g l.
Proof.
  induction l as [|a l IH]; intros H; [reflexivity|].
  simpl. rewrite (H a (or_introl eq_refl)).
  destruct (g a); [reflexivity|]. apply IH. intros b Hb. apply H. now right.
Qed.

Lemma displayError_frame (msg : string) (w : World) (i : string) :
  i <> "errorContainer" ->
  Dom.getElementById (document (snd (displayError msg w))) i
    = Dom.getElementById (document w) i /\
  forall n, Dom.getElementById (document w) i = Some n ->
            Dom.store (document (snd (displayError msg w))) n
              = Dom.store (document w) n.
Proof.
  intros Hi.
  destruct (Dom.getElementById (document w) "errorContainer") as [n0|] eqn:H.
  - rewrite (displayError_reuse msg w _ H). cbn [snd document].
    pose proof (find_some _ _ H) as [_ Hid]. split.
    + unfold Dom.getElementById. rewrite notice_set_children.
      apply find_ext_in. intros k _. now apply notice_set_has_id.
    + intros n Hn. apply find_some in Hn. destruct Hn as [_ Hn].
      apply notice_set_other. intros ->.
      unfold Dom.has_id in Hid, Hn.
      apply String.eqb_eq in Hid, Hn. apply Hi. now rewrite <- Hn, Hid.
  - rewrite (displayError_create msg w H). cbn [snd document]. split.
    + unfold Dom.getElementById. rewrite created_children. cbn [find].
      unfold Dom.has_id at 1. rewrite created_store_fresh. cbn [Dom.id].
      assert (Hne : String.eqb "errorContainer" i = false).
      { apply String.eqb_neq. intros E. now apply Hi. }
      rewrite Hne. apply find_ext_in. intros k Hk.
      unfold Dom.has_id. now rewrite created_store_child.
    + intros n Hn. apply find_some in Hn. destruct Hn as [Hn _].
      now apply created_store_child.
Qed.

Lemma displayError_field (msg : string) (w : World) (i : string) :
  i <> "errorContainer" ->
  field (document (snd (displayError msg w))) i = field (document w) i.
Proof.
  intros Hi. destruct (displayError_frame msg w i Hi) as [Hg Hs].
  unfold field. rewrite Hg.
  destruct (Dom.getElementById (document w) i) as [n|] eqn:Hn;
    [|reflexivity].
  simpl. now rewrite (Hs n eq_refl).
Qed.

Lemma displayError_content (msg : string) (w : World) (i : string) :
  i <> "errorContainer" ->
  content_of (document (snd (displayError msg w))) i
    = content_of (document w) i.
Proof.
  intros Hi. destruct (displayError_frame msg w i Hi) as [Hg Hs].
  unfold content_of. rewrite Hg.
  destruct (Dom.getElementById (document w) i) as [n|] eqn:Hn;
    [|reflexivity].
  simpl. now rewrite (Hs n eq_refl).
Qed.

(** X1.  A call of displayError changes no element but the notice: for
    every id other than errorContainer, the element that the id finds,
    the value of that element and what it holds are as before the
    call. *)
Theorem displayError_touches_only_the_notice
    (msg : string) (w : World) (i : string) :
  i <> "errorContainer" ->
  Dom.getElementById (document (snd (displayError msg w))) i
    = Dom.getElementById (document w) i /\
  field (document (snd (displayError msg w))) i = field (document w) i /\
  content_of (document (snd (displayError msg w))) i
    = content_of (document w) i.
Proof.
  intros Hi. split; [now apply displayError_frame|].
  split; [now apply displayError_field|now apply displayError_content].
Qed.

Lemma displayError_touches_only_the_notice_witness :
  field (document (snd (displayError "no"
                          (mkWorld (form_page "a" "mcq" "easy" "3") []))))
        "topics" = Some "a" /\
  content_of
    (document (snd (displayError "no"
                      (mkWorld (form_page "a" "mcq" "easy" "3") []))))
    "quizContainer" = Some (Dom.Markup EmptyString).
Proof.
  destruct (displayError_touches_only_the_notice "no"
              (mkWorld (form_page "a" "mcq" "easy" "3") []) "topics")
    as [_ [Hf _]]; [discriminate|].
  destruct (displayError_touches_only_the_notice "no"
              (mkWorld (form_page "a" "mcq" "easy" "3") []) "quizContainer")
    as [_ [_ Hc]]; [discriminate|].
  split; [rewrite Hf|rewrite Hc]; reflexivity.
Defined.

(** X2.  Where displayError puts the notice.  If the page has an element
    with the id errorContainer, the children of the body are left as they
    are and the first such element is the notice.  If it has none, a new
    div, an element that was not in the page, becomes the first child of
    the body, before all the others in their order, and it is the
    notice. *)
Theorem displayError_places_the_notice (msg : string) (w : World) :
  (forall n,
      Dom.getElementById (document w) "errorContainer" = Some n ->
      Dom.children (document (snd (displayError msg w)))
        = Dom.children (document w) /\
      Dom.getElementById (document (snd (displayError msg w)))
                         "errorContainer" = Some n) /\
  (Dom.getElementById (document w) "errorContainer" = None ->
   exists n,
     ~ In n (Dom.children (document w)) /\
     Dom.children (document (snd (displayError msg w)))
       = n :: Dom.children (document w) /\
     Dom.getElementById (document (snd (displayError msg w)))
                        "errorContainer" = Some n /\
     Dom.tagName (Dom.store (document (snd (displayError msg w))) n)
       = "div").
Proof.
  split.
  - intros n H. rewrite (displayError_reuse msg w _ H). cbn [snd document].
    split; [apply notice_set_children|].
    rewrite getElementById_with_id, (reused_with_id _ _ msg _ H).
    now rewrite <- getElementById_with_id.
  - intros H. exists (Dom.fresh (document w)).
    rewrite (displayError_create msg w H). cbn [snd document].
    split; [apply fresh_not_child|].
    split; [apply created_children|].
    split; [|now rewrite created_store_fresh].
    now rewrite getElementById_with_id, created_with_id.
Qed.

Lemma displayError_places_the_notice_witness :
  exists n,
    ~ In n [1; 2; 3; 4; 5]%nat /\
    Dom.children
      (document (snd (displayError "no"
                        (mkWorld (form_page "a" "mcq" "easy" "3") []))))
    = n :: [1; 2; 3; 4; 5]%nat.
Proof.
  destruct (displayError_places_the_notice "no"
              (mkWorld (form_page "a" "mcq" "easy" "3") [])) as [_ H].
  destruct (H eq_refl) as [n [Hn [Hc _]]].
  exists n. split; [exact Hn|exact Hc].
Defined.

(** ** Runs of [generateQuiz] as a whole *)

Lemma value_of_missing (w : World) (i : string) :
  field (document w) i = None ->
  value_of i w = (Throw (cannot_read "null" "value"), w).
Proof.
  unfold field, value_of, bind, getElementById, read, throw.
  cbn [document]. destruct (Dom.getElementById (document w) i); simpl;
    [discriminate|reflexivity].
Qed.

Lemma value_of_field (w : World) (i : string) :
  value_of i w =
  (match field (document w) i with
   | Some v => Normal v
   | None => Throw (cannot_read "null" "value")
   end, w).
Proof.
  destruct (field (document w) i) as [v|] eqn:H.
  - now apply value_of_holds.
  - now apply value_of_missing.
Qed.

Lemma generateQuiz_missing_control (net : Network) (d : Dom.Document) :
  field d "topics" = None \/ field d "q_type" = None \/
  field d "difficulty" = None \/ field d "num_questions" = None ->
  run (generateQuiz net) d
  = (Throw (cannot_read "null" "value"), mkWorld d []).
Proof.
  intros H.
  unfold run, generateQuiz, bind. rewrite !value_of_field. cbn [document].
  destruct (field d "topics"); [|reflexivity].
  destruct (field d "q_type"); [|reflexivity].
  destruct (field d "difficulty"); [|reflexivity].
  destruct (field d "num_questions"); [|reflexivity].
  destruct H as [H|[H|[H|H]]]; discriminate.
Qed.

(** X3.  When one of the four form controls is not in the page, the run
    ends by throwing a TypeError: it makes no call, neither displayError
    nor the request, and leaves the page as it was. *)
Theorem missing_control_throws (net : Network) (d : Dom.Document) :
  field d "topics" = None \/ field d "q_type" = None \/
  field d "difficulty" = None \/ field d "num_questions" = None ->
  exists e,
    name e = "TypeError" /\
    run (generateQuiz net) d = (Throw e, mkWorld d []).
Proof.
  intros H. exists (cannot_read "null" "value"). split; [reflexivity|].
  now apply generateQuiz_missing_control.
Qed.

Lemma missing_control_throws_witness :
  exists e,
    name e = "TypeError" /\
    run (generateQuiz (server 200 (Normal Json.JNull)))
        (Dom.mkDocument (Dom.store (form_page "a" "mcq" "easy" "3"))
                        [1; 2; 4; 5]%nat)
    = (Throw e,
       mkWorld (Dom.mkDocument (Dom.store (form_page "a" "mcq" "easy" "3"))
                               [1; 2; 4; 5]%nat) []).
Proof.
  apply (missing_control_throws (server 200 (Normal Json.JNull))
           (Dom.mkDocument (Dom.store (form_page "a" "mcq" "easy" "3"))
                           [1; 2; 4; 5]%nat)).
  right. right. left. reflexivity.
Defined.

(** X4.  On a page that has the four form controls the run never throws,
    whatever the values of the controls, whatever the network does and
    whatever the response holds: every failure ends in displayError. *)
Theorem generateQuiz_never_throws (net : Network) (d : Dom.Document)
    (t q f n : string) :
  Form d t q f n -> fst (run (generateQuiz net) d) = Normal tt.
Proof.
  intros HF. unfold run.
  rewrite (generateQuiz_form net (mkWorld d []) t q f n HF).
  destruct (missing_field (topics_of t) q f n);
    [apply displayError_normal|].
  destruct (out_of_range n); [apply displayError_normal|].
  apply try_report_normal.
Qed.

Lemma generateQuiz_never_throws_witness :
  fst (run (generateQuiz
              (fun _ => Rejected (TypeError "Failed to fetch")))
           (form_page "a" "mcq" "easy" "3")) = Normal tt.
Proof.
  apply (generateQuiz_never_throws
           (fun _ => Rejected (TypeError "Failed to fetch"))
           (form_page "a" "mcq" "easy" "3") "a" "mcq" "easy" "3").
  split; reflexivity.
Defined.

Lemma displayQuiz_log (qs : Json.Value) (w : World) :
  log (snd (displayQuiz qs w)) = (log w ++ [CalledDisplayQuiz qs])%list.
Proof.
  unfold displayQuiz, bind, record, getElementById, read, lift,
    set_innerHTML, assign, write, throw.
  cbn [document log].
  destruct (questions_map qs render_question); [|reflexivity].
  destruct (Dom.getElementById (document w) "quizContainer"); reflexivity.
Qed.

(** The response either makes the handler throw at once, or is handed to
    [displayQuiz]. *)
Lemma handle_response_cases (r : Response) (w : World) :
  (exists e, handle_response r w = (Throw e, w)) \/
  (exists qs, handle_response r w = displayQuiz qs w).
Proof.
  unfold handle_response, bind, lift, throw, ret.
  destruct (json r) as [data|e]; [|left; now eexists].
  destruct (ok r); cbn [negb].
  - destruct (Json.get data "questions") as [[qs|]|e];
      [|left; now eexists|left; now eexists].
    destruct (Json.ToBoolean qs); [|left; now eexists].
    destruct (Json.get qs "length") as [len|e]; [|left; now eexists].
    destruct (Json.is_zero len); [left; now eexists|].
    right. now eexists.
  - destruct (Json.get data "error") as [err|e]; [|left; now eexists].
    destruct (Json.ToString _); left; now eexists.
Qed.

Lemma settle_cases (res : FetchResult) (w : World) :
  (exists e, settle res w = (Throw e, w)) \/
  (exists qs, settle res w = displayQuiz qs w).
Proof.
  destruct res as [e|r]; [left; now exists e|].
  apply handle_response_cases.
Qed.

Lemma report_log (e : JsError) (w : World) :
  log (snd (report e w))
  = (log w ++ [CalledDisplayError (failure_prefix ++ message e)])%list.
Proof. unfold report. apply displayError_log. Qed.

(** X5.  The calls of a run, on a page with the four controls, follow
    one of six courses: the message that a field is missing and nothing
    else; the range message and nothing else; a report with the prefix
    and no request; the request and then a report; the request and then
    displayQuiz; or the request, displayQuiz and then a report.  The
    request, when there is one, is a POST to the address of the quiz
    service, with the content type of JSON. *)
Theorem run_is_a_flow (net : Network) (d : Dom.Document)
    (t q f n : string) :
  Form d t q f n ->
  exists req, is_quiz_post req /\ Flow req (calls (generateQuiz net) d).
Proof.
  intros HF. exists (quiz_request (topics_of t) q f n).
  split; [now repeat split|]. unfold calls, run.
  rewrite (generateQuiz_form net (mkWorld d []) t q f n HF).
  destruct (missing_field (topics_of t) q f n).
  { rewrite displayError_log. constructor. }
  destruct (out_of_range n).
  { rewrite displayError_log. constructor. }
  destruct (Dom.getElementById d "quizContainer") as [c|] eqn:Hd.
  - rewrite (try_catch_same _ _ report _ _
               (request_quiz_sent net (mkWorld d []) c _ q f n Hd)).
    unfold try_catch.
    destruct (settle_cases (net (quiz_request (topics_of t) q f n))
                (awaiting (mkWorld d []) c
                          (quiz_request (topics_of t) q f n)))
      as [[e He]|[qs Hqs]].
    + rewrite He, report_log. apply flow_failed.
    + rewrite Hqs.
      pose proof (displayQuiz_log qs
                    (awaiting (mkWorld d []) c
                              (quiz_request (topics_of t) q f n))) as Hl.
      destruct (displayQuiz qs _) as [[[]|e] w']; cbn [snd] in *.
      * rewrite Hl. apply flow_rendered.
      * rewrite report_log, Hl. apply flow_render_failed.
  - rewrite (try_catch_throw _ report _ _ _
               (request_quiz_no_container net (mkWorld d []) _ q f n Hd)).
    rewrite report_log. apply flow_unsent.
Qed.

Lemma run_is_a_flow_witness :
  exists req,
    is_quiz_post req /\
    Flow req (calls (generateQuiz (server 200 (Normal Json.JNull)))
                    (form_page "a,b" "mcq" "easy" "3")).
Proof.
  apply (run_is_a_flow (server 200 (Normal Json.JNull))
           (form_page "a,b" "mcq" "easy" "3") "a,b" "mcq" "easy" "3").
  split; reflexivity.
Defined.


(** ** Assignments to the display area *)

Lemma getElementById_set_content (d : Dom.Document) (c : Dom.Node)
    (x : Dom.Content) (i : string) :
  Dom.getElementById (Dom.update d c (Dom.set_content x)) i
  = Dom.getElementById d i.
Proof.
  unfold Dom.getElementById. cbn [Dom.update Dom.children].
  apply find_ext_in. intros k _. apply set_content_has_id.
Qed.

(** An assignment to the contents of the element that the id [i] finds
    changes what no other id finds. *)
Lemma set_content_frame (d : Dom.Document) (c : Dom.Node)
    (x : Dom.Content) (i j : string) :
  Dom.getElementById d i = Some c -> j <> i ->
  content_of (Dom.update d c (Dom.set_content x)) j = content_of d j.
Proof.
  intros Hc Hj. unfold content_of. rewrite getElementById_set_content.
  destruct (Dom.getElementById d j) as [n|] eqn:Hn; [|reflexivity].
  simpl. destruct (Nat.eqb n c) eqn:E; [|reflexivity].
  apply Nat.eqb_eq in E. subst n. exfalso. apply Hj.
  apply find_some in Hc, Hn. destruct Hc as [_ Hc]. destruct Hn as [_ Hn].
  unfold Dom.has_id in Hc, Hn. apply String.eqb_eq in Hc, Hn.
  now rewrite <- Hn, <- Hc.
Qed.

Lemma set_content_field (d : Dom.Document) (c : Dom.Node)
    (x : Dom.Content) (i : string) :
  field (Dom.update d c (Dom.set_content x)) i = field d i.
Proof.
  unfold field. rewrite getElementById_set_content.
  destruct (Dom.getElementById d i) as [n|]; [|reflexivity].
  simpl. destruct (Nat.eqb n c) eqn:E; [|reflexivity].
  apply Nat.eqb_eq in E. now subst.
Qed.

(** ** When the request is sent *)

Lemma unsent_run (net : Network) (d : Dom.Document) (t q f n : string) :
  Form d t q f n -> validated t q f n = true -> has_container d = false ->
  run (generateQuiz net) d
  = report (cannot_set "null" "innerHTML") (mkWorld d []).
Proof.
  intros HF Hv Hc. unfold run.
  rewrite (generateQuiz_form net (mkWorld d []) t q f n HF).
  unfold validated in Hv. apply andb_true_iff in Hv.
  destruct Hv as [Hm Hr]. apply negb_true_iff in Hm, Hr. rewrite Hm, Hr.
  unfold has_container in Hc.
  destruct (Dom.getElementById d "quizContainer") as [c|] eqn:Hd;
    [discriminate|].
  apply try_catch_throw.
  now apply request_quiz_no_container.
Qed.

Lemma fetches_of_run (net : Network) (d : Dom.Document)
    (t q f n : string) :
  Form d t q f n ->
  fetches (calls (generateQuiz net) d) =
  if validated t q f n && has_container d
  then [quiz_request (topics_of t) q f n]
  else [].
Proof.
  intros HF. destruct (validated t q f n) eqn:Hv; cbn [andb].
  - destruct (has_container d) eqn:Hc.
    + destruct (valid_form_is_sent net d t q f n HF Hv Hc)
        as [_ [rest [Hl Hp]]].
      rewrite Hl. simpl. now rewrite fetches_after_send.
    + unfold calls. rewrite (unsent_run net d t q f n HF Hv Hc).
      now rewrite report_log.
  - unfold calls, run.
    rewrite (generateQuiz_form net (mkWorld d []) t q f n HF).
    unfold validated in Hv. apply andb_false_iff in Hv.
    destruct (missing_field (topics_of t) q f n);
      [now rewrite displayError_log|].
    destruct (out_of_range n); [now rewrite displayError_log|].
    destruct Hv; discriminate.
Qed.

(** X7.  The request is sent exactly when both tests let the form
    through and the page has the quiz container; it is then the request
    built from the form, and it is the first call of the run, made
    before displayQuiz or displayError.  A form that fails a test, or a
    page without the container, sends nothing. *)
Theorem request_is_sent_iff_validated (net : Network) (d : Dom.Document)
    (t q f n : string) :
  Form d t q f n ->
  fetches (calls (generateQuiz net) d)
  = (if validated t q f n && has_container d
     then [quiz_request (topics_of t) q f n]
     else []) /\
  (validated t q f n && has_container d = true ->
   hd_error (calls (generateQuiz net) d)
   = Some (Fetched (quiz_request (topics_of t) q f n))).
Proof.
  intros HF. split; [now apply fetches_of_run|].
  intros H. apply andb_true_iff in H. destruct H as [Hv Hc].
  destruct (valid_form_is_sent net d t q f n HF Hv Hc)
    as [_ [rest [Hl _]]].
  now rewrite Hl.
Qed.

Lemma request_is_sent_iff_validated_witness :
  fetches (calls (generateQuiz (server 200 (Normal Json.JNull)))
                 (form_page "a" "mcq" "easy" "21")) = [] /\
  fetches (calls (generateQuiz (server 200 (Normal Json.JNull)))
                 (form_page "a" "mcq" "easy" "20"))
  = [quiz_request ["a"] "mcq" "easy" "20"].
Proof.
  split.
  - destruct (request_is_sent_iff_validated (server 200 (Normal Json.JNull))
                (form_page "a" "mcq" "easy" "21") "a" "mcq" "easy" "21")
      as [H _]; [split; reflexivity|exact H].
  - destruct (request_is_sent_iff_validated (server 200 (Normal Json.JNull))
                (form_page "a" "mcq" "easy" "20") "a" "mcq" "easy" "20")
      as [H _]; [split; reflexivity|exact H].
Defined.

(** X6.  A run sends at most one request, on any page and whatever the
    network answers, and a request that it sends is a POST to the fixed
    address of the quiz API with the JSON content type. *)
Theorem at_most_one_request (net : Network) (d : Dom.Document) :
  (List.length (fetches (calls (generateQuiz net) d)) <= 1)%nat /\
  Forall is_quiz_post (fetches (calls (generateQuiz net) d)).
Proof.
  destruct (field d "topics") as [t|] eqn:Ht.
  2: { unfold calls. rewrite generateQuiz_missing_control by auto.
       simpl. split; [lia|constructor]. }
  destruct (field d "q_type") as [q|] eqn:Hq.
  2: { unfold calls. rewrite generateQuiz_missing_control by auto.
       simpl. split; [lia|constructor]. }
  destruct (field d "difficulty") as [f|] eqn:Hf.
  2: { unfold calls. rewrite generateQuiz_missing_control by auto.
       simpl. split; [lia|constructor]. }
  destruct (field d "num_questions") as [n|] eqn:Hn.
  2: { unfold calls. rewrite generateQuiz_missing_control by auto 6.
       simpl. split; [lia|constructor]. }
  rewrite (fetches_of_run net d t q f n (mkForm d t q f n Ht Hq Hf Hn)).
  destruct (validated t q f n && has_container d); simpl.
  - split; [lia|]. constructor; [|constructor]. repeat split.
  - split; [lia|constructor].
Qed.

(** ** Failures after the request was sent *)

Lemma failed_run (net : Network) (d : Dom.Document) (c : Dom.Node)
    (t q f n : string) (e : JsError) :
  Form d t q f n -> validated t q f n = true ->
  Dom.getElementById d "quizContainer" = Some c ->
  settle (net (quiz_request (topics_of t) q f n))
         (awaiting (mkWorld d []) c (quiz_request (topics_of t) q f n))
  = (Throw e,
     awaiting (mkWorld d []) c (quiz_request (topics_of t) q f n)) ->
  run (generateQuiz net) d
  = report e
      (awaiting (mkWorld d []) c (quiz_request (topics_of t) q f n)).
Proof.
  intros HF Hv Hd Hs. unfold run.
  rewrite (generateQuiz_form net (mkWorld d []) t q f n HF).
  unfold validated in Hv. apply andb_true_iff in Hv.
  destruct Hv as [Hm Hr]. apply negb_true_iff in Hm, Hr. rewrite Hm, Hr.
  apply try_catch_throw.
  now rewrite (request_quiz_sent net (mkWorld d []) c _ q f n Hd).
Qed.

(** What a run that fails after the request leaves: the report as the
    second call, the message in the notice, the loading text in the
    display area. *)
Lemma failed_run_leaves (d : Dom.Document) (c : Dom.Node) (req : Request)
    (e : JsError) :
  Dom.getElementById d "quizContainer" = Some c ->
  fst (report e (awaiting (mkWorld d []) c req)) = Normal tt /\
  log (snd (report e (awaiting (mkWorld d []) c req)))
    = [Fetched req; CalledDisplayError (failure_prefix ++ message e)] /\
  displayed (document (snd (report e (awaiting (mkWorld d []) c req))))
    = Some (failure_prefix ++ message e) /\
  content_of (document (snd (report e (awaiting (mkWorld d []) c req))))
             "quizContainer" = Some loading.
Proof.
  intros Hd. unfold report. fold failure_prefix.
  split; [apply displayError_normal|].
  split; [now rewrite displayError_log|].
  split; [apply displayError_displayed|].
  rewrite displayError_content by discriminate.
  cbn [awaiting document]. now apply content_after_set.
Qed.

(** X8.  When the network fails, so that fetch rejects, the run reports
    the message of the rejection behind the prefix, calls displayQuiz
    not at all, and leaves the loading text in the display area: the
    placeholder is not taken away on a failure. *)
Theorem network_failure_is_reported (net : Network) (d : Dom.Document)
    (t q f n : string) (e : JsError) :
  Form d t q f n -> validated t q f n = true -> has_container d = true ->
  net (quiz_request (topics_of t) q f n) = Rejected e ->
  fst (run (generateQuiz net) d) = Normal tt /\
  calls (generateQuiz net) d
    = [ Fetched (quiz_request (topics_of t) q f n);
        CalledDisplayError (failure_prefix ++ message e) ] /\
  displayed (page_after (generateQuiz net) d)
    = Some (failure_prefix ++ message e) /\
  content_of (page_after (generateQuiz net) d) "quizContainer"
    = Some loading.
Proof.
  intros HF Hv Hc Hnet. unfold has_container in Hc.
  destruct (Dom.getElementById d "quizContainer") as [c|] eqn:Hd;
    [|discriminate].
  unfold calls, page_after.
  rewrite (failed_run net d c t q f n e HF Hv Hd)
    by (now rewrite Hnet).
  now apply failed_run_leaves.
Qed.

Lemma network_failure_is_reported_witness :
  displayed
    (page_after
       (generateQuiz (fun _ => Rejected (TypeError "Failed to fetch")))
       (form_page "a" "mcq" "easy" "3"))
  = Some "Failed to generate quiz: Failed to fetch" /\
  content_of
    (page_after
       (generateQuiz (fun _ => Rejected (TypeError "Failed to fetch")))
       (form_page "a" "mcq" "easy" "3"))
    "quizContainer" = Some loading.
Proof.
  destruct (network_failure_is_reported
              (fun _ => Rejected (TypeError "Failed to fetch"))
              (form_page "a" "mcq" "easy" "3") "a" "mcq" "easy" "3"
              (TypeError "Failed to fetch"))
    as [_ [_ [Hshown Harea]]].
  - split; reflexivity.
  - reflexivity.
  - reflexivity.
  - reflexivity.
  - split; [exact Hshown|exact Harea].
Defined.

(** X9.  The body is parsed before the status is looked at: when
    response.json() rejects, with whatever status, success or not, the
    run reports the message of the parser behind the prefix, and the
    display area keeps the loading text. *)
Theorem unparsed_body_is_reported (net : Network) (d : Dom.Document)
    (t q f n : string) (r : Response) (e : JsError) :
  Form d t q f n -> validated t q f n = true -> has_container d = true ->
  net (quiz_request (topics_of t) q f n) = Resolved r ->
  json r = Throw e ->
  fst (run (generateQuiz net) d) = Normal tt /\
  calls (generateQuiz net) d
    = [ Fetched (quiz_request (topics_of t) q f n);
        CalledDisplayError (failure_prefix ++ message e) ] /\
  displayed (page_after (generateQuiz net) d)
    = Some (failure_prefix ++ message e) /\
  content_of (page_after (generateQuiz net) d) "quizContainer"
    = Some loading.
Proof.
  intros HF Hv Hc Hnet Hj. unfold has_container in Hc.
  destruct (Dom.getElementById d "quizContainer") as [c|] eqn:Hd;
    [|discriminate].
  unfold calls, page_after.
  rewrite (failed_run net d c t q f n e HF Hv Hd)
    by (rewrite Hnet; now apply handle_response_unparsed).
  now apply failed_run_leaves.
Qed.

Lemma unparsed_body_is_reported_witness :
  displayed
    (page_after
       (generateQuiz
          (server 200
             (Throw (mkError "SyntaxError" "Unexpected end of JSON input"))))
       (form_page "a" "mcq" "easy" "3"))
  = Some "Failed to generate quiz: Unexpected end of JSON input".
Proof.
  apply (unparsed_body_is_reported
           (server 200
              (Throw (mkError "SyntaxError" "Unexpected end of JSON input")))
           (form_page "a" "mcq" "easy" "3") "a" "mcq" "easy" "3"
           (mkResponse 200
              (Throw (mkError "SyntaxError" "Unexpected end of JSON input")))
           (mkError "SyntaxError" "Unexpected end of JSON input")).
  - split; reflexivity.
  - reflexivity.
  - reflexivity.
  - reflexivity.
  - reflexivity.
Defined.

(** ** What [displayQuiz] can render *)

Lemma render_question_throws (q : Json.Value) (i : nat) :
  presentable q = false ->
  exists e, name e = "TypeError" /\ render_question q i = Throw e.
Proof.
  intros H. unfold presentable in H. unfold render_question.
  destruct (not_null q) eqn:Hq.
  - rewrite (not_null_get q "text" Hq).
    rewrite (ToString_unprintable _ H). now eexists.
  - destruct q; try discriminate. now eexists.
Qed.

Lemma map_indexed_throws (items : list Json.Value) :
  forall i,
    forallb presentable items = false ->
    exists e,
      name e = "TypeError" /\
      map_indexed render_question items i = Throw e.
Proof.
  induction items as [|q rest IH]; intros i H; [discriminate|].
  cbn [forallb] in H. cbn [map_indexed].
  destruct (presentable q) eqn:Hq.
  - destruct (render_question_presentable q i Hq) as [_ ->].
    destruct (IH (S i) H) as [e [Hn ->]]. now exists e.
  - destruct (render_question_throws q i Hq) as [e [Hn ->]]. now exists e.
Qed.

Lemma displayQuiz_throws (qs : Json.Value) (w : World) :
  has_container (document w) && renderable qs = false ->
  exists e,
    name e = "TypeError" /\
    displayQuiz qs w
    = (Throw e, mkWorld (document w) (log w ++ [CalledDisplayQuiz qs])%list).
Proof.
  intros H.
  unfold displayQuiz, bind, record, getElementById, read, lift,
    set_innerHTML, assign, write, throw.
  cbn [document log].
  destruct (renderable qs) eqn:Hr.
  - rewrite andb_true_r in H. unfold has_container in H.
    destruct qs; try discriminate. cbn [questions_map renderable] in *.
    rewrite (map_indexed_render items 0 Hr).
    destruct (Dom.getElementById (document w) "quizContainer");
      [discriminate|].
    now eexists.
  - destruct qs; cbn [questions_map]; try (now eexists).
    cbn [renderable] in Hr.
    destruct (map_indexed_throws items 0 Hr) as [e [Hn ->]]. now exists e.
Qed.

(** X10.  displayQuiz renders all of the questions or nothing.  It ends
    normally exactly when the page has the quiz container and the
    questions are an array of questions that the template can print:
    none of them null, and none for which the value of [q.text || q]
    holds, itself or through arrays, an object with a member named
    toString.  In every other case it throws a TypeError and the page is
    as it was. *)
Theorem displayQuiz_all_or_nothing (d : Dom.Document) (qs : Json.Value) :
  (fst (run (displayQuiz qs) d) = Normal tt <->
   has_container d = true /\ renderable qs = true) /\
  (fst (run (displayQuiz qs) d) <> Normal tt ->
   (exists e, name e = "TypeError" /\
              fst (run (displayQuiz qs) d) = Throw e) /\
   page_after (displayQuiz qs) d = d).
Proof.
  unfold page_after, run.
  destruct (has_container d && renderable qs) eqn:H.
  - apply andb_true_iff in H. destruct H as [Hc Hr].
    unfold has_container in Hc.
    destruct (Dom.getElementById d "quizContainer") as [c|] eqn:Hd;
      [|discriminate].
    destruct qs; try discriminate. cbn [renderable] in Hr.
    rewrite (displayQuiz_renders (mkWorld d []) c items Hd Hr).
    split; [|intros Hn; now elim Hn].
    split; [intros _|reflexivity].
    split; [unfold has_container; now rewrite Hd|exact Hr].
  - destruct (displayQuiz_throws qs (mkWorld d []) H) as [e [Hn He]].
    rewrite He. cbn [fst snd document]. split.
    + split; [discriminate|].
      intros [Hc Hr]. rewrite Hc, Hr in H. discriminate.
    + intros _. split; [now exists e|reflexivity].
Qed.

(** ** Responses with a success status *)

Lemma field_of_not_null (data : Json.Value) (k : string) (v : Json.Value) :
  field_of data k = Some v -> data <> Json.JNull.
Proof. intros H ->. discriminate. Qed.

Lemma truthy_not_null (v : Json.Value) :
  Json.ToBoolean v = true -> v <> Json.JNull.
Proof. intros H ->. discriminate. Qed.

Lemma handle_response_renders (r : Response) (data qs : Json.Value)
    (w : World) :
  json r = Normal data -> ok r = true ->
  field_of data "questions" = Some qs ->
  Json.ToBoolean qs = true ->
  Json.is_zero (field_of qs "length") = false ->
  handle_response r w = displayQuiz qs w.
Proof.
  intros Hj Hok Hq Ht Hz. unfold handle_response, bind, lift, ret.
  rewrite Hj, Hok,
    (get_not_null data "questions" (field_of_not_null _ _ _ Hq)), Hq.
  cbn [negb]. rewrite Ht, (get_not_null qs "length" (truthy_not_null _ Ht)).
  now rewrite Hz.
Qed.

Lemma handle_response_none (r : Response) (data : Json.Value) (w : World) :
  json r = Normal data -> ok r = true -> data <> Json.JNull ->
  Json.truthy (field_of data "questions") = false \/
  (exists qs, field_of data "questions" = Some qs /\
              Json.is_zero (field_of qs "length") = true) ->
  handle_response r w = (Throw (Error "No questions generated"), w).
Proof.
  intros Hj Hok Hd Hq. unfold handle_response, bind, lift, throw, ret.
  rewrite Hj, Hok, (get_not_null data "questions" Hd). cbn [negb].
  destruct Hq as [Hf|[qs [Hq Hz]]].
  - destruct (field_of data "questions") as [qs|]; [|reflexivity].
    simpl in Hf. now rewrite Hf.
  - rewrite Hq. destruct (Json.ToBoolean qs) eqn:Ht; [|reflexivity].
    now rewrite (get_not_null qs "length" (truthy_not_null _ Ht)), Hz.
Qed.

(** X11.  A response with a success status whose questions are falsy
    (absent, null, false, 0 or the empty string), or have a length
    member equal to 0 (the empty array, or an object with length 0), is
    reported as No questions generated; displayQuiz is not called and
    the display area keeps the loading text.  The body is any parsed
    value but null. *)
Theorem falsy_or_empty_questions_are_reported (net : Network)
    (d : Dom.Document) (t q f n : string) (r : Response)
    (data : Json.Value) :
  Form d t q f n -> validated t q f n = true -> has_container d = true ->
  net (quiz_request (topics_of t) q f n) = Resolved r ->
  ok r = true -> json r = Normal data -> data <> Json.JNull ->
  Json.truthy (field_of data "questions") = false \/
  (exists qs, field_of data "questions" = Some qs /\
              Json.is_zero (field_of qs "length") = true) ->
  calls (generateQuiz net) d
    = [ Fetched (quiz_request (topics_of t) q f n);
        CalledDisplayError "Failed to generate quiz: No questions generated" ]
  /\
  displayed (page_after (generateQuiz net) d)
    = Some "Failed to generate quiz: No questions generated" /\
  content_of (page_after (generateQuiz net) d) "quizContainer"
    = Some loading.
Proof.
  intros HF Hv Hc Hnet Hok Hj Hd Hq. unfold has_container in Hc.
  destruct (Dom.getElementById d "quizContainer") as [c|] eqn:Hc';
    [|discriminate].
  unfold calls, page_after.
  rewrite (failed_run net d c t q f n (Error "No questions generated")
             HF Hv Hc')
    by (rewrite Hnet; now apply (handle_response_none r data)).
  now apply (failed_run_leaves d c _ (Error "No questions generated")).
Qed.

Lemma falsy_or_empty_questions_are_reported_witness :
  displayed
    (page_after
       (generateQuiz
          (server 200
             (Normal (Json.JObject [("questions", Json.JNull)]))))
       (form_page "a" "mcq" "easy" "3"))
  = Some "Failed to generate quiz: No questions generated" /\
  displayed
    (page_after
       (generateQuiz
          (server 200
             (Normal (Json.JObject
                        [("questions",
                          Json.JObject
                            [("length", Json.JNumber (Num.of_Z 0))])]))))
       (form_page "a" "mcq" "easy" "3"))
  = Some "Failed to generate quiz: No questions generated".
Proof.
  split.
  - apply (falsy_or_empty_questions_are_reported
             (server 200 (Normal (Json.JObject [("questions", Json.JNull)])))
             (form_page "a" "mcq" "easy" "3") "a" "mcq" "easy" "3"
             (mkResponse 200
                (Normal (Json.JObject [("questions", Json.JNull)])))
             (Json.JObject [("questions", Json.JNull)])).
    + split; reflexivity.
    + reflexivity.
    + reflexivity.
    + reflexivity.
    + reflexivity.
    + reflexivity.
    + discriminate.
    + left. reflexivity.
  - apply (falsy_or_empty_questions_are_reported
             (server 200
                (Normal (Json.JObject
                           [("questions",
                             Json.JObject
                               [("length", Json.JNumber (Num.of_Z 0))])])))
             (form_page "a" "mcq" "easy" "3") "a" "mcq" "easy" "3"
             (mkResponse 200
                (Normal (Json.JObject
                           [("questions",
                             Json.JObject
                               [("length", Json.JNumber (Num.of_Z 0))])])))
             (Json.JObject
                [("questions",
                  Json.JObject [("length", Json.JNumber (Num.of_Z 0))])])).
    + split; reflexivity.
    + reflexivity.
    + reflexivity.
    + reflexivity.
    + reflexivity.
    + reflexivity.
    + discriminate.
    + right. eexists. split; reflexivity.
Defined.

Lemma displayed_set_content (d : Dom.Document) (c : Dom.Node)
    (x : Dom.Content) :
  Dom.getElementById d "quizContainer" = Some c ->
  displayed (Dom.update d c (Dom.set_content x)) = displayed d.
Proof.
  intros Hc. unfold displayed.
  rewrite (set_content_frame d c x "quizContainer" "errorContainer" Hc)
    by discriminate.
  reflexivity.
Qed.

Lemma awaiting_container (w : World) (c : Dom.Node) (req : Request) :
  Dom.getElementById (document w) "quizContainer" = Some c ->
  Dom.getElementById (document (awaiting w c req)) "quizContainer" = Some c.
Proof.
  intros H. cbn [awaiting document]. now rewrite getElementById_set_content.
Qed.

(** X12.  A response with a success status whose questions are an array
    that is not empty, of questions that the template can print (none
    null, none that is converted through an object with a member named
    toString), is rendered: the run calls the request and displayQuiz and
    nothing else, the display area holds one block for each question in
    place of the loading text, and the notice is as it was before the
    run - a message that an earlier run left there stays on the page. *)
Theorem success_is_rendered (net : Network) (d : Dom.Document)
    (t q f n : string) (r : Response) (data : Json.Value)
    (items : list Json.Value) :
  Form d t q f n -> validated t q f n = true -> has_container d = true ->
  net (quiz_request (topics_of t) q f n) = Resolved r ->
  ok r = true -> json r = Normal data ->
  field_of data "questions" = Some (Json.JArray items) ->
  items <> [] -> forallb presentable items = true ->
  fst (run (generateQuiz net) d) = Normal tt /\
  calls (generateQuiz net) d
    = [ Fetched (quiz_request (topics_of t) q f n);
        CalledDisplayQuiz (Json.JArray items) ] /\
  content_of (page_after (generateQuiz net) d) "quizContainer"
    = Some (Dom.Markup (Str.join EmptyString (blocks_from 0 items))) /\
  List.length (blocks_from 0 items) = List.length items /\
  displayed (page_after (generateQuiz net) d) = displayed d.
Proof.
  intros HF Hv Hc Hnet Hok Hj Hq Hne Hnn. unfold has_container in Hc.
  destruct (Dom.getElementById d "quizContainer") as [c|] eqn:Hd;
    [|discriminate].
  assert (Hrun : run (generateQuiz net) d
                 = (Normal tt,
                    rendered (awaiting (mkWorld d []) c
                                (quiz_request (topics_of t) q f n))
                             c items)).
  { unfold run.
    rewrite (generateQuiz_form net (mkWorld d []) t q f n HF).
    unfold validated in Hv. apply andb_true_iff in Hv.
    destruct Hv as [Hm Hr]. apply negb_true_iff in Hm, Hr. rewrite Hm, Hr.
    unfold try_catch.
    rewrite (request_quiz_sent net (mkWorld d []) c _ q f n Hd), Hnet.
    cbn [settle].
    rewrite (handle_response_renders r data (Json.JArray items) _ Hj Hok Hq
               eq_refl).
    - now rewrite (displayQuiz_renders _ c items
                     (awaiting_container (mkWorld d []) c _ Hd) Hnn).
    - destruct items; [now elim Hne|apply length_is_not_zero]. }
  unfold calls, page_after. rewrite Hrun. cbn [fst snd rendered log document].
  split; [reflexivity|]. split; [reflexivity|].
  split.
  { apply content_after_set.
    apply (awaiting_container (mkWorld d []) c _ Hd). }
  split; [apply blocks_from_length|].
  rewrite displayed_set_content
    by (apply (awaiting_container (mkWorld d []) c _ Hd)).
  cbn [awaiting document]. now apply displayed_set_content.
Qed.

Lemma success_is_rendered_witness :
  let earlier :=
    document (snd (displayError "an earlier failure"
                     (mkWorld (form_page "a" "mcq" "easy" "3") []))) in
  let net :=
    server 200
      (Normal (Json.JObject [("questions", Json.JArray [Json.JString "Q1"])]))
  in
  content_of (page_after (generateQuiz net) earlier) "quizContainer"
    = Some (Dom.Markup
              (nl ++ "        " ++ Str.dq "<div class='question'>" ++
               nl ++ "            <h3>Q1:</h3>" ++
               nl ++ "            <p>Q1</p>" ++
               nl ++ "        </div>" ++
               nl ++ "    ")) /\
  displayed (page_after (generateQuiz net) earlier)
    = Some "an earlier failure".
Proof.
  destruct (success_is_rendered
              (server 200
                 (Normal (Json.JObject
                            [("questions", Json.JArray [Json.JString "Q1"])])))
              (document (snd (displayError "an earlier failure"
                                (mkWorld (form_page "a" "mcq" "easy" "3")
                                         []))))
              "a" "mcq" "easy" "3"
              (mkResponse 200
                 (Normal (Json.JObject
                            [("questions", Json.JArray [Json.JString "Q1"])])))
              (Json.JObject [("questions", Json.JArray [Json.JString "Q1"])])
              [Json.JString "Q1"])
    as [_ [_ [Harea [_ Hkept]]]].
  - split; reflexivity.
  - reflexivity.
  - reflexivity.
  - reflexivity.
  - reflexivity.
  - reflexivity.
  - reflexivity.
  - discriminate.
  - reflexivity.
  - cbv zeta. split; [rewrite Harea|rewrite Hkept]; vm_compute; reflexivity.
Defined.

(** X13.  When the questions of a successful response are truthy and
    not of length 0 but cannot be rendered - a value that is not an
    array, such as a string or a number, or an array with a null item or
    with a question that is converted through an object with a member
    named toString - displayQuiz is called and throws a TypeError; the
    run reports it behind the prefix, and the display area keeps the
    loading text: no part of the questions is shown. *)
Theorem unrenderable_questions_are_reported (net : Network)
    (d : Dom.Document) (t q f n : string) (r : Response)
    (data qs : Json.Value) :
  Form d t q f n -> validated t q f n = true -> has_container d = true ->
  net (quiz_request (topics_of t) q f n) = Resolved r ->
  ok r = true -> json r = Normal data ->
  field_of data "questions" = Some qs ->
  Json.ToBoolean qs = true ->
  Json.is_zero (field_of qs "length") = false ->
  renderable qs = false ->
  exists e,
    name e = "TypeError" /\
    fst (run (generateQuiz net) d) = Normal tt /\
    calls (generateQuiz net) d
      = [ Fetched (quiz_request (topics_of t) q f n);
          CalledDisplayQuiz qs;
          CalledDisplayError (failure_prefix ++ message e) ] /\
    displayed (page_after (generateQuiz net) d)
      = Some (failure_prefix ++ message e) /\
    content_of (page_after (generateQuiz net) d) "quizContainer"
      = Some loading.
Proof.
  intros HF Hv Hc Hnet Hok Hj Hq Ht Hz Hr. unfold has_container in Hc.
  destruct (Dom.getElementById d "quizContainer") as [c|] eqn:Hd;
    [|discriminate].
  destruct (displayQuiz_throws qs
              (awaiting (mkWorld d []) c (quiz_request (topics_of t) q f n)))
    as [e [Hn He]].
  { rewrite Hr. apply andb_false_r. }
  exists e. split; [exact Hn|].
  assert (Hrun : run (generateQuiz net) d
                 = report e
                     (mkWorld
                        (document
                           (awaiting (mkWorld d []) c
                              (quiz_request (topics_of t) q f n)))
                        [Fetched (quiz_request (topics_of t) q f n);
                         CalledDisplayQuiz qs])).
  { unfold run.
    rewrite (generateQuiz_form net (mkWorld d []) t q f n HF).
    unfold validated in Hv. apply andb_true_iff in Hv.
    destruct Hv as [Hm Hrg]. apply negb_true_iff in Hm, Hrg.
    rewrite Hm, Hrg.
    apply try_catch_throw.
    rewrite (request_quiz_sent net (mkWorld d []) c _ q f n Hd), Hnet.
    cbn [settle].
    now rewrite (handle_response_renders r data qs _ Hj Hok Hq Ht Hz), He. }
  unfold calls, page_after. rewrite Hrun. unfold report.
  fold failure_prefix.
  split; [apply displayError_normal|].
  split; [now rewrite displayError_log|].
  split; [apply displayError_displayed|].
  rewrite displayError_content by discriminate.
  cbn [awaiting document]. now apply content_after_set.
Qed.

Lemma unrenderable_questions_are_reported_witness :
  exists e,
    name e = "TypeError" /\
    calls
      (generateQuiz
         (server 200
            (Normal (Json.JObject [("questions", Json.JString "soon")]))))
      (form_page "a" "mcq" "easy" "3")
    = [ Fetched (quiz_request ["a"] "mcq" "easy" "3");
        CalledDisplayQuiz (Json.JString "soon");
        CalledDisplayError (failure_prefix ++ message e) ].
Proof.
  destruct (unrenderable_questions_are_reported
              (server 200
                 (Normal (Json.JObject [("questions", Json.JString "soon")])))
              (form_page "a" "mcq" "easy" "3") "a" "mcq" "easy" "3"
              (mkResponse 200
                 (Normal (Json.JObject [("questions", Json.JString "soon")])))
              (Json.JObject [("questions", Json.JString "soon")])
              (Json.JString "soon"))
    as [e [Hn [_ [Hcalls _]]]].
  - split; reflexivity.
  - reflexivity.
  - reflexivity.
  - reflexivity.
  - reflexivity.
  - reflexivity.
  - reflexivity.
  - reflexivity.
  - reflexivity.
  - reflexivity.
  - exists e. split; [exact Hn|exact Hcalls].
Defined.

(** ** A form that fails a test *)



(** ** Integers in the number field *)

Lemma trimEnd_no_white (s : string) :
  no_white_space s = true -> Str.trimEnd s = s.
Proof.
  induction s as [|c r IH]; [reflexivity|]. simpl.
  intros H. apply andb_true_iff in H. destruct H as [Hc Hr].
  rewrite (IH Hr). apply negb_true_iff in Hc.
  destruct r; [now rewrite Hc|reflexivity].
Qed.

Lemma trim_no_white (s : string) :
  no_white_space s = true -> Str.trim s = s.
Proof.
  intros H. unfold Str.trim.
  assert (Hs : Str.trimStart s = s).
  { destruct s as [|c r]; [reflexivity|]. simpl in *.
    apply andb_true_iff in H. destruct H as [Hc _].
    apply negb_true_iff in Hc. now rewrite Hc. }
  rewrite Hs. now apply trimEnd_no_white.
Qed.

Lemma no_white_uint (d : Decimal.uint) :
  no_white_space (NilEmpty.string_of_uint d) = true.
Proof. induction d; simpl; auto. Qed.

Lemma digits_uint (d : Decimal.uint) :
  forall acc n,
    Num.digits (NilEmpty.string_of_uint d) acc n
    = (uint_value d acc, n + uint_length d, EmptyString).
Proof.
  induction d; intros acc n; cbn [NilEmpty.string_of_uint Num.digits];
    [now rewrite Z.add_0_r| ..];
    (change (Num.digit_of _) with (Some (0 : Z)) ||
     change (Num.digit_of _) with (Some (1 : Z)) ||
     change (Num.digit_of _) with (Some (2 : Z)) ||
     change (Num.digit_of _) with (Some (3 : Z)) ||
     change (Num.digit_of _) with (Some (4 : Z)) ||
     change (Num.digit_of _) with (Some (5 : Z)) ||
     change (Num.digit_of _) with (Some (6 : Z)) ||
     change (Num.digit_of _) with (Some (7 : Z)) ||
     change (Num.digit_of _) with (Some (8 : Z)) ||
     change (Num.digit_of _) with (Some (9 : Z)));
    cbv iota; rewrite IHd; cbn [uint_value uint_length];
    f_equal; f_equal; lia.
Qed.

Lemma uint_length_nonneg (d : Decimal.uint) : 0 <= uint_length d.
Proof. induction d; cbn [uint_length]; lia. Qed.

Lemma uint_length_pos (d : Decimal.uint) :
  d <> Decimal.Nil -> 0 < uint_length d.
Proof.
  destruct d; [congruence| ..]; intros _; cbn [uint_length];
    pose proof (uint_length_nonneg d); lia.
Qed.

Lemma uint_value_pos (d : Decimal.uint) :
  forall p, uint_value d (Zpos p) = Zpos (Pos.of_uint_acc d p).
Proof.
  induction d; intros p; cbn [uint_value Pos.of_uint_acc];
    [reflexivity| ..];
    rewrite <- IHd; f_equal; lia.
Qed.

Lemma uint_value_zero (d : Decimal.uint) :
  uint_value d 0 = Z.of_N (Pos.of_uint d).
Proof.
  induction d; cbn [uint_value Pos.of_uint]; [reflexivity|exact IHd| ..];
    cbn [Z.mul Z.add]; rewrite uint_value_pos; reflexivity.
Qed.

Lemma to_number_radix_free (s : string) :
  Str.trim s = s -> radix_free s = true -> Str.is_empty s = false ->
  Num.literal s = Num.decimal s.
Proof.
  intros Ht Hr He. unfold Num.literal. rewrite Ht.
  destruct s as [|c1 s]; [discriminate|].
  destruct c1 as [[] [] [] [] [] [] [] []]; try reflexivity.
  destruct s as [|c2 r]; [reflexivity|].
  destruct c2 as [[] [] [] [] [] [] [] []]; try discriminate; reflexivity.
Qed.

Lemma decimal_sign_free (s : string) :
  sign_free s = true ->
  Num.decimal s =
  if String.eqb s "Infinity" then Num.Infinity false
  else match Num.unsigned_decimal s with
       | Some (m, e) => Num.Finite m e
       | None => Num.NaN
       end.
Proof.
  intros H. destruct s as [|c r]; [reflexivity|].
  destruct c as [[] [] [] [] [] [] [] []]; try discriminate; reflexivity.
Qed.

Lemma decimal_minus (s : string) :
  Num.decimal (String "-" s) =
  if String.eqb s "Infinity" then Num.Infinity true
  else match Num.unsigned_decimal s with
       | Some (m, e) => Num.Finite (- m) e
       | None => Num.NaN
       end.
Proof. reflexivity. Qed.

Lemma unsigned_decimal_uint (d : Decimal.uint) :
  d <> Decimal.Nil ->
  Num.unsigned_decimal (NilEmpty.string_of_uint d)
  = Some (uint_value d 0, 0).
Proof.
  intros Hd. unfold Num.unsigned_decimal. rewrite digits_uint.
  cbv beta iota zeta.
  pose proof (uint_length_pos d Hd) as Hl.
  destruct (0 + uint_length d + 0 =? 0) eqn:E; [lia|reflexivity].
Qed.

Lemma not_infinity_uint (d : Decimal.uint) :
  String.eqb (NilEmpty.string_of_uint d) "Infinity" = false.
Proof. destruct d; reflexivity. Qed.

Lemma sign_free_uint (d : Decimal.uint) :
  sign_free (NilEmpty.string_of_uint d) = true.
Proof. destruct d; reflexivity. Qed.

Lemma radix_free_uint (d : Decimal.uint) :
  radix_free (NilEmpty.string_of_uint d) = true.
Proof. destruct d as [|l|l|l|l|l|l|l|l|l|l]; try reflexivity; destruct l; reflexivity. Qed.

Lemma decimal_digits_uint (z : Z) :
  0 <= z ->
  exists d,
    d <> Decimal.Nil /\
    Num.decimal_digits z = NilEmpty.string_of_uint d /\
    uint_value d 0 = z.
Proof.
  intros Hz. exists (N.to_uint (Z.to_N z)).
  assert (Hnn : N.to_uint (Z.to_N z) <> Decimal.Nil).
  { destruct (Z.to_N z); [discriminate|].
    apply DecimalPos.Unsigned.to_uint_nonnil. }
  split; [exact Hnn|]. split.
  - unfold Num.decimal_digits, NilZero.string_of_uint.
    destruct (N.to_uint (Z.to_N z)); [contradiction|reflexivity ..].
  - rewrite uint_value_zero.
    change (Pos.of_uint (N.to_uint (Z.to_N z)))
      with (N.of_uint (N.to_uint (Z.to_N z))).
    rewrite DecimalN.Unsigned.of_to. now apply Z2N.id.
Qed.

Lemma integer_literal (z : Z) :
  Num.literal (integer_text z) = Num.of_Z z.
Proof.
  unfold integer_text, Num.of_Z. destruct (z <? 0) eqn:Hneg.
  - apply Z.ltb_lt in Hneg.
    destruct (decimal_digits_uint (- z)) as [d [Hd [Hs Hv]]]; [lia|].
    rewrite Hs, to_number_radix_free.
    + rewrite decimal_minus, not_infinity_uint,
        (unsigned_decimal_uint d Hd), Hv.
      f_equal. lia.
    + apply trim_no_white. cbn [no_white_space]. apply no_white_uint.
    + destruct d; reflexivity.
    + reflexivity.
  - apply Z.ltb_ge in Hneg.
    destruct (decimal_digits_uint z Hneg) as [d [Hd [Hs Hv]]].
    rewrite Hs, to_number_radix_free.
    + rewrite (decimal_sign_free _ (sign_free_uint d)),
        not_infinity_uint, (unsigned_decimal_uint d Hd), Hv.
      reflexivity.
    + apply trim_no_white, no_white_uint.
    + apply radix_free_uint.
    + destruct d; [contradiction|reflexivity ..].
Qed.

Lemma integer_to_number (z : Z) :
  Z.abs z < 2 ^ 53 -> Num.StringToNumber (integer_text z) = Num.of_Z z.
Proof.
  intros Hz. unfold Num.StringToNumber. rewrite integer_literal.
  now apply double_exact.
Qed.

Lemma integer_approximates (z : Z) :
  approximates z (Num.StringToNumber (integer_text z)).
Proof.
  unfold Num.StringToNumber. rewrite integer_literal.
  apply approximates_double, approximates_of_Z.
Qed.

Lemma out_of_range_integer (z : Z) :
  out_of_range (integer_text z) = negb ((1 <=? z) && (z <=? 20)).
Proof.
  unfold out_of_range.
  destruct (approximates_lt z 1 _ (integer_approximates z)) as [-> _];
    [reflexivity|].
  destruct (approximates_lt z 20 _ (integer_approximates z)) as [_ ->];
    [reflexivity|].
  destruct (Z.ltb_spec z 1), (Z.ltb_spec 20 z), (Z.leb_spec 1 z),
    (Z.leb_spec z 20); cbn; try reflexivity; lia.
Qed.

(** X15.  Converting the decimal text of an integer whose size is below
    2^53 gives that integer back, a negative one too; and for every
    integer, of whatever size, the range test lets its decimal text
    through exactly when the integer is at least 1 and at most 20. *)
Theorem range_test_on_integers (z : Z) :
  (Z.abs z < 2 ^ 53 -> Num.StringToNumber (integer_text z) = Num.of_Z z) /\
  (out_of_range (integer_text z) = false <-> 1 <= z <= 20).
Proof.
  split; [apply integer_to_number|].
  rewrite out_of_range_integer, negb_false_iff, andb_true_iff.
  rewrite !Z.leb_le. tauto.
Qed.

Lemma integer_text_not_empty (z : Z) :
  Str.is_empty (integer_text z) = false.
Proof.
  unfold integer_text. destruct (z <? 0) eqn:Hneg; [reflexivity|].
  apply Z.ltb_ge in Hneg.
  destruct (decimal_digits_uint z Hneg) as [d [Hd [-> _]]].
  destruct d; [contradiction|reflexivity ..].
Qed.

(** X16.  With a type and a difficulty chosen and the quiz container in
    the page, a form whose number field holds the decimal text of an
    integer is sent exactly when the integer is from 1 to 20; for every
    other integer the run shows the range message and sends nothing. *)
Theorem integer_count_is_validated (net : Network) (d : Dom.Document)
    (t q f : string) (z : Z) :
  Form d t q f (integer_text z) ->
  Str.is_empty q = false -> Str.is_empty f = false ->
  has_container d = true ->
  (1 <= z <= 20 ->
   fetches (calls (generateQuiz net) d)
     = [quiz_request (topics_of t) q f (integer_text z)]) /\
  (~ 1 <= z <= 20 ->
   calls (generateQuiz net) d
     = [CalledDisplayError "Please choose between 1 and 20 questions!"] /\
   displayed (page_after (generateQuiz net) d)
     = Some "Please choose between 1 and 20 questions!").
Proof.
  intros HF Hq Hf Hc.
  pose proof (out_of_range_integer z) as Hr.
  assert (Hm : missing_field (topics_of t) q f (integer_text z) = false).
  { unfold missing_field.
    now rewrite topics_of_length, Hq, Hf, integer_text_not_empty. }
  split; intros Hz.
  - rewrite (fetches_of_run net d t q f _ HF).
    unfold validated. rewrite Hm, Hr, Hc.
    destruct (Z.leb_spec 1 z), (Z.leb_spec z 20); try lia. reflexivity.
  - apply (range_message_shown net d t q f _ HF Hm).
    rewrite Hr. destruct (Z.leb_spec 1 z), (Z.leb_spec z 20);
      try reflexivity. lia.
Qed.

Lemma integer_count_is_validated_witness :
  fetches (calls (generateQuiz (server 200 (Normal Json.JNull)))
                 (form_page "a" "mcq" "easy" "7"))
    = [quiz_request ["a"] "mcq" "easy" "7"] /\
  displayed (page_after (generateQuiz (server 200 (Normal Json.JNull)))
                        (form_page "a" "mcq" "easy" "-3"))
    = Some "Please choose between 1 and 20 questions!".
Proof.
  split.
  - destruct (integer_count_is_validated (server 200 (Normal Json.JNull))
                (form_page "a" "mcq" "easy" "7") "a" "mcq" "easy" 7)
      as [Hin _].
    + split; reflexivity.
    + reflexivity.
    + reflexivity.
    + reflexivity.
    + apply Hin. lia.
  - destruct (integer_count_is_validated (server 200 (Normal Json.JNull))
                (form_page "a" "mcq" "easy" "-3") "a" "mcq" "easy" (-3))
      as [_ Hout].
    + split; reflexivity.
    + reflexivity.
    + reflexivity.
    + reflexivity.
    + apply Hout. lia.
Defined.

Lemma count_as_typed (z : Z) :
  1 <= z <= 20 ->
  Json.stringify (Json.JNumber (Num.StringToNumber (integer_text z)))
  = integer_text z.
Proof.
  intros Hz. rewrite integer_to_number by lia.
  assert (Hcases : z = 1 \/ z = 2 \/ z = 3 \/ z = 4 \/ z = 5 \/ z = 6 \/
                   z = 7 \/ z = 8 \/ z = 9 \/ z = 10 \/ z = 11 \/ z = 12 \/
                   z = 13 \/ z = 14 \/ z = 15 \/ z = 16 \/ z = 17 \/
                   z = 18 \/ z = 19 \/ z = 20) by lia.
  repeat (destruct Hcases as [-> | Hcases]; [vm_compute; reflexivity|]).
  subst. vm_compute. reflexivity.
Qed.

(** X17.  The body of the request, for every form that holds an integer
    from 1 to 20: the JSON object with the members topics, type,
    difficulty and num_questions in this order, the topics an array of
    quoted strings in the order of the field, the type and the
    difficulty quoted, and the number written as it was typed. *)
Theorem body_of_a_validated_request (topics : list string) (q f : string)
    (z : Z) :
  1 <= z <= 20 ->
  body (quiz_request topics q f (integer_text z)) =
  "{" ++ Str.join ","
           [ Json.quote "topics" ++ ":" ++
               "[" ++ Str.join "," (map Json.quote topics) ++ "]";
             Json.quote "type" ++ ":" ++ Json.quote q;
             Json.quote "difficulty" ++ ":" ++ Json.quote f;
             Json.quote "num_questions" ++ ":" ++ integer_text z ]
      ++ "}".
Proof.
  intros Hz. pose proof (count_as_typed z Hz) as Hn.
  unfold quiz_request, request_object. cbn [body].
  cbn [Json.stringify map]. cbn [Json.stringify] in Hn.
  fold Json.stringify. rewrite stringify_strings. now rewrite Hn.
Qed.

Lemma body_of_a_validated_request_witness :
  body (quiz_request ["sets"; "maps"] "mcq" "hard" "12")
  = Str.dq "{'topics':['sets','maps'],'type':'mcq','difficulty':'hard','num_questions':12}".
Proof.
  assert (H : 1 <= 12 <= 20) by lia.
  exact (body_of_a_validated_request ["sets"; "maps"] "mcq" "hard" 12 H).
Defined.

(** ** The topics as a normal form *)

Lemma split_comma_free (t : string) :
  Forall (fun seg => Str.count "," seg = 0%nat) (Str.split "," t).
Proof.
  induction t as [|c r IH]; simpl; [repeat constructor|].
  destruct (Ascii.eqb c ",") eqn:E; [now constructor|].
  destruct (Str.split "," r) as [|x xs]; [repeat constructor; simpl; now rewrite E|].
  inversion IH as [|? ? Hx Hxs]; subst.
  constructor; [|exact Hxs]. simpl. now rewrite E.
Qed.

Lemma trimStart_count (s : string) :
  Str.count "," s = 0%nat -> Str.count "," (Str.trimStart s) = 0%nat.
Proof.
  induction s as [|c r IH]; simpl; [auto|].
  destruct (Str.is_white_space c); [|auto].
  intros H. apply IH. destruct (Ascii.eqb c ","); [discriminate|exact H].
Qed.

Lemma trimEnd_count (s : string) :
  Str.count "," s = 0%nat -> Str.count "," (Str.trimEnd s) = 0%nat.
Proof.
  induction s as [|c r IH]; simpl; [auto|].
  intros H.
  assert (Hc : Ascii.eqb c "," = false)
    by (destruct (Ascii.eqb c ","); [discriminate|reflexivity]).
  rewrite Hc in H. simpl in H. specialize (IH H).
  destruct (Str.trimEnd r).
  - destruct (Str.is_white_space c); simpl; [reflexivity|now rewrite Hc].
  - simpl. rewrite Hc. exact IH.
Qed.

Lemma trim_count (s : string) :
  Str.count "," s = 0%nat -> Str.count "," (Str.trim s) = 0%nat.
Proof.
  intros H. unfold Str.trim. now apply trimEnd_count, trimStart_count.
Qed.

Lemma split_one (x : string) :
  Str.count "," x = 0%nat -> Str.split "," x = [x].
Proof.
  induction x as [|c r IH]; simpl; [reflexivity|].
  destruct (Ascii.eqb c ","); [discriminate|].
  intros H. now rewrite (IH H).
Qed.

Lemma split_append (x rest : string) :
  Str.count "," x = 0%nat ->
  Str.split "," (x ++ String "," rest) = x :: Str.split "," rest.
Proof.
  induction x as [|c r IH]; simpl; [reflexivity|].
  destruct (Ascii.eqb c ","); [discriminate|].
  intros H. now rewrite (IH H).
Qed.

Lemma split_join (x : string) (xs : list string) :
  Forall (fun seg => Str.count "," seg = 0%nat) (x :: xs) ->
  Str.split "," (Str.join "," (x :: xs)) = x :: xs.
Proof.
  revert x. induction xs as [|y ys IH]; intros x H;
    inversion H as [|? ? Hx Hrest]; subst.
  - now apply split_one.
  - unfold Str.join in *.
    change (String.concat "," (x :: y :: ys))
      with (x ++ String "," (String.concat "," (y :: ys))).
    rewrite (split_append _ _ Hx). f_equal. now apply IH.
Qed.

Lemma trimStart_trimmed (s : string) :
  (forall c, Str.first s = Some c -> Str.is_white_space c = false) ->
  Str.trimStart s = s.
Proof.
  destruct s as [|c r]; [reflexivity|]. simpl. intros H.
  now rewrite (H c eq_refl).
Qed.

Lemma trimEnd_trimmed (s : string) :
  (forall c, Str.last s = Some c -> Str.is_white_space c = false) ->
  Str.trimEnd s = s.
Proof.
  induction s as [|c r IH]; [reflexivity|]. intros H.
  cbn [Str.trimEnd]. destruct r as [|c' r'].
  - simpl. now rewrite (H c eq_refl).
  - rewrite IH; [reflexivity|]. intros a Ha. apply H. exact Ha.
Qed.

Lemma trim_idempotent (s : string) : Str.trim (Str.trim s) = Str.trim s.
Proof.
  destruct (trim_trimmed s) as [Hf Hl].
  unfold Str.trim at 1. rewrite (trimStart_trimmed _ Hf).
  now apply trimEnd_trimmed.
Qed.

(** X18.  The topics of a request are a normal form of the topics field:
    joined with commas and put back into the field, they give the same
    topics again.  No topic holds a comma, and trimming a topic once
    more changes nothing. *)
Theorem topics_are_a_normal_form (t : string) :
  topics_of (Str.join "," (topics_of t)) = topics_of t /\
  Forall (fun topic => Str.count "," topic = 0%nat /\
                       Str.trim topic = topic) (topics_of t).
Proof.
  assert (Hfree : Forall (fun seg => Str.count "," seg = 0%nat)
                         (topics_of t)).
  { unfold topics_of. apply Forall_forall. intros x Hx.
    apply in_map_iff in Hx. destruct Hx as [s [<- Hs]].
    apply trim_count. pose proof (split_comma_free t) as H.
    rewrite Forall_forall in H. now apply H. }
  split.
  - unfold topics_of at 1.
    destruct (topics_of t) as [|x xs] eqn:E.
    + pose proof (topics_of_length t) as Hl. rewrite E in Hl. discriminate.
    + rewrite (split_join x xs Hfree). rewrite <- E. unfold topics_of.
      rewrite map_map. apply map_ext. intros s. apply trim_idempotent.
  - rewrite Forall_forall in *. intros x Hx. split; [now apply Hfree|].
    unfold topics_of in Hx. apply in_map_iff in Hx.
    destruct Hx as [s [<- _]]. apply trim_idempotent.
Qed.

(** ** Rendering twice *)

(** X19.  displayQuiz replaces what the display area holds: after two
    calls, each with questions that the template can print, the area
    holds the blocks of the second list alone, the same as if the first
    call had not been made. *)
Theorem displayQuiz_replaces (d : Dom.Document)
    (first second : list Json.Value) :
  has_container d = true ->
  forallb presentable first = true -> forallb presentable second = true ->
  content_of
    (page_after (displayQuiz (Json.JArray second))
                (page_after (displayQuiz (Json.JArray first)) d))
    "quizContainer"
  = content_of (page_after (displayQuiz (Json.JArray second)) d)
               "quizContainer" /\
  content_of (page_after (displayQuiz (Json.JArray second)) d)
             "quizContainer"
  = Some (Dom.Markup (Str.join EmptyString (blocks_from 0 second))).
Proof.
  intros Hc H1 H2. unfold has_container in Hc.
  destruct (Dom.getElementById d "quizContainer") as [c|] eqn:Hd;
    [|discriminate].
  unfold page_after, run.
  rewrite (displayQuiz_renders (mkWorld d []) c first Hd H1).
  cbn [snd rendered document log].
  assert (Hd' : Dom.getElementById
                  (Dom.update d c
                     (Dom.set_content
                        (Dom.Markup
                           (Str.join EmptyString (blocks_from 0 first)))))
                  "quizContainer" = Some c)
    by now rewrite getElementById_set_content.
  rewrite (displayQuiz_renders (mkWorld _ []) c second Hd' H2).
  rewrite (displayQuiz_renders (mkWorld d []) c second Hd H2).
  cbn [snd rendered document log].
  rewrite (content_after_set _ c _ "quizContainer" Hd').
  now rewrite (content_after_set d c _ "quizContainer" Hd).
Qed.

Lemma displayQuiz_replaces_witness :
  content_of
    (page_after (displayQuiz (Json.JArray [Json.JString "new"]))
       (page_after
          (displayQuiz (Json.JArray [Json.JString "old"; Json.JString "er"]))
          (form_page "a" "mcq" "easy" "3")))
    "quizContainer"
  = Some (Dom.Markup
            (nl ++ "        " ++ Str.dq "<div class='question'>" ++
             nl ++ "            <h3>Q1:</h3>" ++
             nl ++ "            <p>new</p>" ++
             nl ++ "        </div>" ++
             nl ++ "    ")).
Proof.
  destruct (displayQuiz_replaces (form_page "a" "mcq" "easy" "3")
              [Json.JString "old"; Json.JString "er"] [Json.JString "new"])
    as [Hsame Hnew]; [reflexivity ..|].
  rewrite Hsame, Hnew. vm_compute. reflexivity.
Defined.

(** ** The notice after a call *)

(** X20.  displayError never throws, and after it the first element
    with the id errorContainer holds the message as its text, in red,
    with a bottom margin of 1rem, whatever it held and however it was
    styled before; the call is logged once. *)
Theorem displayError_sets_the_notice (msg : string) (w : World) :
  fst (displayError msg w) = Normal tt /\
  log (snd (displayError msg w)) = (log w ++ [CalledDisplayError msg])%list
  /\
  exists n,
    Dom.getElementById (document (snd (displayError msg w)))
                       "errorContainer" = Some n /\
    Dom.id (Dom.store (document (snd (displayError msg w))) n)
      = "errorContainer" /\
    Dom.content (Dom.store (document (snd (displayError msg w))) n)
      = Dom.Text msg /\
    Dom.color (Dom.store (document (snd (displayError msg w))) n) = "red" /\
    Dom.marginBottom (Dom.store (document (snd (displayError msg w))) n)
      = "1rem".
Proof.
  split; [apply displayError_normal|]. split; [apply displayError_log|].
  destruct (displayError_notice msg w) as [n [Hn [Hc [Hr Hm]]]].
  exists n. split; [exact Hn|]. split; [|now repeat split].
  apply find_some in Hn. destruct Hn as [_ Hn].
  now apply String.eqb_eq in Hn.
Qed.
